(** * Password authentication system: credential and verification state machine

    A shallow embedding of [password-authentication-system.py] (class
    [PasswordAuthenticator] and [main]) and the properties of its lockout
    policy, password policy and verification-code protocol.

    Conventions of the embedding.
    - The user database ([self.database], a dict of dicts) is a
      [gmap string user_data]; the JSON file it is dumped to is a second
      copy of that map, [db_file].
    - A [datetime] is a number of microseconds.  The text
      ["%Y-%m-%d %H:%M:%S"] written by [strftime] names a whole second, so
      the stored [locked_until] is a number of seconds.
    - [input] and [getpass] read the next line of the console; an exhausted
      console raises [EOFError].
    - Of the exceptions the program can raise, the embedding has
      [EOFError] and the [KeyError] of a dictionary lookup; those of
      [encode], bcrypt, the JSON file and the interpreter are outside it.
    - The clock, the random generator, bcrypt, the SMTP server and the
      Unicode word-character table are external; they are the fields of an
      [environment], and the state counts how often each stream was read.
    - Every [print] and every console read is appended to a trace. *)

From Stdlib Require Import ZArith String Ascii List Bool Lia FunInd.
From stdpp Require Import base gmap strings list fin_maps.

Import ListNotations.
Local Open Scope Z_scope.
Local Open Scope string_scope.

(** ** Data model *)

(** Microseconds, the resolution of [datetime.now()]. *)
Definition datetime := Z.

(** One entry of [self.database].  [locked_until] is [None] (JSON null) or
    the second named by the stored timestamp text. *)
Record user_data := mk_user_data {
  password_hash : string;
  email : string;
  failed_attempts : Z;
  locked_until : option Z;
  registered_on : Z
}.

Definition microseconds_per_second : Z := 1000000.

(** [t.strftime("%Y-%m-%d %H:%M:%S")]: the microseconds are dropped. *)
Definition strftime (t : datetime) : Z := t / microseconds_per_second.

(** [datetime.strptime(text, "%Y-%m-%d %H:%M:%S")]. *)
Definition strptime (seconds : Z) : datetime := seconds * microseconds_per_second.

(** [timedelta(minutes=m)]. *)
Definition timedelta_minutes (m : Z) : Z := m * 60 * microseconds_per_second.

(** [self.max_failed_attempts] and [self.lockout_duration], set in [__init__]. *)
Definition max_failed_attempts : Z := 5.
Definition lockout_duration : Z := 15.

(** ** Console, messages and trace *)

Inductive prompt :=
| Prompt_register_username
| Prompt_email
| Prompt_verification_code
| Prompt_create_password
| Prompt_confirm_password
| Prompt_login_username
| Prompt_login_password
| Prompt_reset_username
| Prompt_new_password
| Prompt_confirm_new_password
| Prompt_choice.

(** One constructor per [print] statement (a block of consecutive prints
    that always run together is one constructor). *)
Inductive message :=
| Banner_registration
| Username_too_short
| Username_invalid_characters
| Username_already_exists
| Invalid_email_format
| Sending_verification_code
| Email_verified
| Invalid_code_remaining (attempts_left : Z)
| Too_many_code_attempts
| Password_too_short
| Password_needs_uppercase
| Password_needs_lowercase
| Password_needs_number
| Passwords_dont_match
| User_registered (username : string)
| Account_is_locked (remaining : Z)
| Email_simulation (recipient code : string)
| Email_configuration_not_found
| Sending_email_to (recipient : string)
| Attempting_login
| Sending_message
| Closing_connection
| Code_sent_to (recipient : string)
| Failed_to_send_email
| Email_delivery_failed (recipient code : string)
| Banner_login
| Username_doesnt_exist
| Too_many_failed_attempts (minutes : Z)
| Incorrect_password (attempts_left : Z)
| Two_factor_required
| Welcome (username : string)
| Banner_reset
| Invalid_verification_code
| Password_reset_successful
| Demo_users_skipped
| Demo_users_created
| Menu
| Goodbye
| Invalid_choice.

Inductive event :=
| Print (m : message)
| Input (p : prompt) (line : string)
| Getpass (p : prompt) (line : string)
| Bcrypt_hashpw (password salt : string)
| Bcrypt_checkpw (password hashed : string)
| Smtp_sendmail (recipient code : string).

(** ** The outside world *)

(** How far one SMTP conversation gets before an exception, if any. *)
Inductive smtp_result :=
| Smtp_connect_fails
| Smtp_login_fails
| Smtp_send_fails
| Smtp_quit_fails
| Smtp_delivered.

Record environment := mk_environment {
  clock : nat -> datetime;           (* successive values of datetime.now() *)
  randint : nat -> nat;              (* successive random.randint(0, 9), read modulo 10 *)
  gensalt : nat -> string;           (* successive bcrypt.gensalt() *)
  hashpw : string -> string -> string;
  checkpw : string -> string -> bool;
  word_char : ascii -> bool;         (* the regex class \w *)
  use_simulation : bool;             (* USE_EMAIL_SIMULATION, default true *)
  email_credentials : bool;          (* EMAIL_SENDER and EMAIL_PASSWORD both set *)
  smtp : nat -> smtp_result          (* fate of the mail carrying the code drawn last *)
}.

Record state := mk_state {
  database : gmap string user_data;
  db_file : option (gmap string user_data);
  stdin : list string;
  ticks : nat;
  draws : nat;
  salts : nat;
  trace : list event
}.

Definition set_database (db : gmap string user_data) (s : state) : state :=
  mk_state db (db_file s) (stdin s) (ticks s) (draws s) (salts s) (trace s).

Definition set_db_file (f : option (gmap string user_data)) (s : state) : state :=
  mk_state (database s) f (stdin s) (ticks s) (draws s) (salts s) (trace s).

Definition set_stdin (ins : list string) (s : state) : state :=
  mk_state (database s) (db_file s) ins (ticks s) (draws s) (salts s) (trace s).

Definition set_ticks (n : nat) (s : state) : state :=
  mk_state (database s) (db_file s) (stdin s) n (draws s) (salts s) (trace s).

Definition set_draws (n : nat) (s : state) : state :=
  mk_state (database s) (db_file s) (stdin s) (ticks s) n (salts s) (trace s).

Definition set_salts (n : nat) (s : state) : state :=
  mk_state (database s) (db_file s) (stdin s) (ticks s) (draws s) n (trace s).

Definition log (e : event) (s : state) : state :=
  mk_state (database s) (db_file s) (stdin s) (ticks s) (draws s) (salts s)
           (trace s ++ [e]).

Definition print (m : message) (s : state) : state := log (Print m) s.

(** ** Exceptions and the flow monad *)

Inductive exn :=
| EOFError
| KeyError (key : string).

Inductive outcome (A : Type) :=
| Return (a : A) (s : state)
| Raise (e : exn) (s : state).
Arguments Return {A} a s.
Arguments Raise {A} e s.

Definition outcome_state {A} (o : outcome A) : state :=
  match o with
  | Return _ s => s
  | Raise _ s => s
  end.

Definition M (A : Type) : Type := state -> outcome A.

Definition ret {A} (a : A) : M A := fun s => Return a s.

Definition bind {A B} (m : M A) (k : A -> M B) : M B :=
  fun s =>
    match m s with
    | Return a s' => k a s'
    | Raise e s' => Raise e s'
    end.

Definition act (f : state -> state) : M unit := fun s => Return tt (f s).

Notation "'let*' x ':=' m 'in' k" := (bind m (fun x => k))
  (at level 10, x name, m at level 100, k at level 200).
Notation "m ';;' k" := (bind m (fun _ => k))
  (at level 100, k at level 200, right associativity).

(** [input(prompt)]. *)
Definition input (p : prompt) : M string :=
  fun s =>
    match stdin s with
    | [] => Raise EOFError s
    | line :: rest => Return line (log (Input p line) (set_stdin rest s))
    end.

(** [getpass.getpass(prompt)]. *)
Definition getpass (p : prompt) : M string :=
  fun s =>
    match stdin s with
    | [] => Raise EOFError s
    | line :: rest => Return line (log (Getpass p line) (set_stdin rest s))
    end.

(** [datetime.now()]. *)
Definition datetime_now (E : environment) : M datetime :=
  fun s => Return (clock E (ticks s)) (set_ticks (S (ticks s)) s).

(** [self.save_database()]: the file becomes a copy of the dict. *)
Definition save_database : M unit :=
  act (fun s => set_db_file (Some (database s)) s).

(** [self.load_database()], called by [__init__]. *)
Definition load_database : M unit :=
  fun s =>
    match db_file s with
    | Some f => Return tt (set_database f s)
    | None => save_database (set_database ∅ s)
    end.

(** ** Regular expressions

    The patterns of the program are matched with Brzozowski derivatives. *)

Inductive regex :=
| Re_empty
| Re_eps
| Re_class (p : ascii -> bool)
| Re_seq (r1 r2 : regex)
| Re_alt (r1 r2 : regex)
| Re_star (r : regex).

Definition Re_plus (r : regex) : regex := Re_seq r (Re_star r).

Fixpoint nullable (r : regex) : bool :=
  match r with
  | Re_empty => false
  | Re_eps => true
  | Re_class _ => false
  | Re_seq r1 r2 => nullable r1 && nullable r2
  | Re_alt r1 r2 => nullable r1 || nullable r2
  | Re_star _ => true
  end.

Fixpoint derivative (c : ascii) (r : regex) : regex :=
  match r with
  | Re_empty => Re_empty
  | Re_eps => Re_empty
  | Re_class p => if p c then Re_eps else Re_empty
  | Re_seq r1 r2 =>
      if nullable r1
      then Re_alt (Re_seq (derivative c r1) r2) (derivative c r2)
      else Re_seq (derivative c r1) r2
  | Re_alt r1 r2 => Re_alt (derivative c r1) (derivative c r2)
  | Re_star r1 => Re_seq (derivative c r1) (Re_star r1)
  end.

Fixpoint fullmatch (r : regex) (text : string) : bool :=
  match text with
  | EmptyString => nullable r
  | String c rest => fullmatch (derivative c r) rest
  end.

Definition newline : ascii := ascii_of_nat 10.

(** [re.match('^' r '$', text)]: [$] also matches just before one final
    newline. *)
Fixpoint re_match_anchored (r : regex) (text : string) : bool :=
  match text with
  | EmptyString => nullable r
  | String c rest =>
      (nullable r && Ascii.eqb c newline &&
         match rest with EmptyString => true | String _ _ => false end)
      || re_match_anchored (derivative c r) rest
  end.

(** [re.search('[...]', text)] for a one-character class. *)
Fixpoint re_search_class (p : ascii -> bool) (text : string) : bool :=
  match text with
  | EmptyString => false
  | String c rest => p c || re_search_class p rest
  end.

Definition in_range (lo hi : nat) (c : ascii) : bool :=
  (lo <=? nat_of_ascii c)%nat && (nat_of_ascii c <=? hi)%nat.

Definition is_upper : ascii -> bool := in_range 65 90.    (* [A-Z] *)
Definition is_lower : ascii -> bool := in_range 97 122.   (* [a-z] *)
Definition is_digit : ascii -> bool := in_range 48 57.    (* [0-9] *)
Definition is_char (d : ascii) (c : ascii) : bool := Ascii.eqb c d.

(** [[a-zA-Z0-9._]+] *)
Definition username_regex : regex :=
  Re_plus (Re_class (fun c =>
    is_lower c || is_upper c || is_digit c || is_char "." c || is_char "_" c)).

(** [[\w\.-]+@[\w\.-]+\.\w+] *)
Definition email_regex (E : environment) : regex :=
  let part := Re_plus (Re_class (fun c =>
    word_char E c || is_char "." c || is_char "-" c)) in
  Re_seq part
    (Re_seq (Re_class (is_char "@"))
       (Re_seq part
          (Re_seq (Re_class (is_char ".")) (Re_plus (Re_class (word_char E)))))).

(** ** Password policy

    The four tests that open the password loops of [register_user] and
    [reset_password], in the order the code makes them. *)

Inductive violation :=
| TooShort
| MissingUppercase
| MissingLowercase
| MissingDigit.

Definition password_violation (password : string) : option violation :=
  if (String.length password <? 8)%nat then Some TooShort
  else if negb (re_search_class is_upper password) then Some MissingUppercase
  else if negb (re_search_class is_lower password) then Some MissingLowercase
  else if negb (re_search_class is_digit password) then Some MissingDigit
  else None.

(** The message printed for each failed test. *)
Definition violation_message (v : violation) : message :=
  match v with
  | TooShort => Password_too_short
  | MissingUppercase => Password_needs_uppercase
  | MissingLowercase => Password_needs_lowercase
  | MissingDigit => Password_needs_number
  end.

(** ** bcrypt and the random generator *)

(** [bcrypt.gensalt()]. *)
Definition bcrypt_gensalt (E : environment) : M string :=
  fun s => Return (gensalt E (salts s)) (set_salts (S (salts s)) s).

(** [bcrypt.hashpw(password.encode('utf-8'), salt)]. *)
Definition bcrypt_hashpw (E : environment) (password salt : string) : M string :=
  fun s => Return (hashpw E password salt) (log (Bcrypt_hashpw password salt) s).

(** [bcrypt.checkpw(password.encode('utf-8'), hashed.encode('utf-8'))]. *)
Definition bcrypt_checkpw (E : environment) (password hashed : string) : M bool :=
  fun s => Return (checkpw E password hashed) (log (Bcrypt_checkpw password hashed) s).

Definition digit_char (n : nat) : ascii := ascii_of_nat (48 + n mod 10).

(** [''.join([str(random.randint(0, 9)) for _ in range(count)])], reading
    the random stream from position [k]. *)
Fixpoint random_digits (E : environment) (count k : nat) : string :=
  match count with
  | O => EmptyString
  | S count' => String (digit_char (randint E k)) (random_digits E count' (S k))
  end.

(** ** Verification codes *)

(** [self._fallback_verification(code, recipient_email)]. *)
Definition _fallback_verification (code recipient_email : string) : M string :=
  act (print (Email_delivery_failed recipient_email code));;
  ret code.

(** The [try] block of [send_verification_code]: [None] when an exception
    reached the [except] clause. *)
Definition smtp_conversation (E : environment) (recipient_email code : string)
  : M (option string) :=
  act (print (Sending_email_to recipient_email));;
  fun s =>
    let fate := smtp E (draws s) in
    match fate with
    | Smtp_connect_fails => Return None s
    | _ =>
        let s := print Attempting_login s in
        match fate with
        | Smtp_login_fails => Return None s
        | _ =>
            let s := print Sending_message s in
            match fate with
            | Smtp_send_fails => Return None s
            | _ =>
                let s := print Closing_connection
                           (log (Smtp_sendmail recipient_email code) s) in
                match fate with
                | Smtp_quit_fails => Return None s
                | _ => Return (Some code) (print (Code_sent_to recipient_email) s)
                end
            end
        end
    end.

(** [self.send_verification_code(email, username)].  [username] only
    appears in the greeting of the mail. *)
Definition send_verification_code (E : environment) (email : string)
    (username : option string) : M string :=
  let* code := (fun s => Return (random_digits E 6 (draws s))
                                (set_draws (draws s + 6) s)) in
  let recipient_email := email in
  if use_simulation E then
    act (print (Email_simulation recipient_email code));;
    ret code
  else if negb (email_credentials E) then
    act (print Email_configuration_not_found);;
    _fallback_verification code recipient_email
  else
    let* sent := smtp_conversation E recipient_email code in
    match sent with
    | Some c => ret c
    | None =>
        act (print Failed_to_send_email);;
        _fallback_verification code recipient_email
    end.

(** ** Records behind a reference

    [user_data = self.database[username]] is a reference to the dict stored
    in the database: a later [user_data[field] = v] changes the database
    entry in place, and a later [user_data[field]] reads it. *)

Definition set_password_hash (h : string) (r : user_data) : user_data :=
  mk_user_data h (email r) (failed_attempts r) (locked_until r) (registered_on r).

Definition set_failed_attempts (n : Z) (r : user_data) : user_data :=
  mk_user_data (password_hash r) (email r) n (locked_until r) (registered_on r).

Definition set_locked_until (l : option Z) (r : user_data) : user_data :=
  mk_user_data (password_hash r) (email r) (failed_attempts r) l (registered_on r).

(** [self.database[username]], read. *)
Definition lookup_user (username : string) : M user_data :=
  fun s =>
    match database s !! username with
    | Some r => Return r s
    | None => Raise (KeyError username) s
    end.

(** [user_data[field] = ...] through the reference. *)
Definition mutate (username : string) (f : user_data -> user_data) : M unit :=
  act (fun s => set_database (alter f username (database s)) s).

(** [self.database[username] = record]. *)
Definition store (username : string) (record : user_data) : M unit :=
  act (fun s => set_database (<[username := record]> (database s)) s).

(** [username in self.database]. *)
Definition known_user (username : string) : M bool :=
  fun s => Return (bool_decide (is_Some (database s !! username))) s.

(** ** Lockout *)

(** [self.check_account_lockout(username)]. *)
Definition check_account_lockout (E : environment) (username : string) : M bool :=
  fun s =>
    match database s !! username with
    | None => Return false s
    | Some user_data =>
        match locked_until user_data with
        | Some text =>
            let lock_time := strptime text in
            (let* now := datetime_now E in
             if (now <? lock_time)%Z then
               let* now' := datetime_now E in
               act (print (Account_is_locked (lock_time - now')%Z));;
               ret true
             else
               mutate username (set_failed_attempts 0);;
               mutate username (set_locked_until None);;
               save_database;;
               ret false) s
        | None => Return false s
        end
    end.

(** [range(3)]. *)
Definition range3 : list Z := [0; 1; 2].

(** ** Login *)

(** The [for attempt in range(3)] loop of [authenticate]. *)
Fixpoint login_code_attempts (username verification_code : string)
    (attempts : list Z) : M bool :=
  match attempts with
  | [] =>
      act (print Too_many_code_attempts);;
      ret false
  | attempt :: more =>
      let* user_code := input Prompt_verification_code in
      if String.eqb user_code verification_code then
        act (print (Welcome username));;
        ret true
      else
        act (print (Invalid_code_remaining (2 - attempt)%Z));;
        login_code_attempts username verification_code more
  end.

(** [self.authenticate()]. *)
Definition authenticate (E : environment) : M bool :=
  act (print Banner_login);;
  let* username := input Prompt_login_username in
  let* known := known_user username in
  if negb known then
    act (print Username_doesnt_exist);;
    ret false
  else
    let* locked := check_account_lockout E username in
    if locked then ret false
    else
      let* password := getpass Prompt_login_password in
      let* user_data := lookup_user username in
      let* password_match := bcrypt_checkpw E password (password_hash user_data) in
      if negb password_match then
        mutate username (fun r => set_failed_attempts (failed_attempts r + 1)%Z r);;
        let* user_data := lookup_user username in
        (if (max_failed_attempts <=? failed_attempts user_data)%Z then
           let* now := datetime_now E in
           let lock_time := (now + timedelta_minutes lockout_duration)%Z in
           mutate username (set_locked_until (Some (strftime lock_time)));;
           act (print (Too_many_failed_attempts lockout_duration))
         else
           let attempts_left := (max_failed_attempts - failed_attempts user_data)%Z in
           act (print (Incorrect_password attempts_left)));;
        save_database;;
        ret false
      else
        mutate username (set_failed_attempts 0);;
        save_database;;
        act (print Two_factor_required);;
        let* verification_code :=
          send_verification_code E (email user_data) (Some username) in
        login_code_attempts username verification_code range3.

(** ** Password entry

    The [while True] loop that asks for a password and its confirmation;
    [register_user] and [reset_password] differ in the prompts only.  Each
    turn of the loop reads at least one line, so the loop is a recursion on
    the lines still to be read; [ins] is [stdin s]. *)
Fixpoint password_loop (ask confirm : prompt) (ins : list string) (s : state)
  : outcome string :=
  match ins with
  | [] => Raise EOFError s
  | password :: rest =>
      let s := log (Getpass ask password) (set_stdin rest s) in
      match password_violation password with
      | Some v => password_loop ask confirm rest (print (violation_message v) s)
      | None =>
          match rest with
          | [] => Raise EOFError s
          | confirm_password :: rest' =>
              let s := log (Getpass confirm confirm_password) (set_stdin rest' s) in
              if negb (String.eqb password confirm_password)
              then password_loop ask confirm rest' (print Passwords_dont_match s)
              else Return password s
          end
      end
  end.

(** ** Registration *)

(** The username loop of [register_user]; [ins] is [stdin s]. *)
Fixpoint register_username_loop (ins : list string) (s : state) : outcome string :=
  match ins with
  | [] => Raise EOFError s
  | username :: rest =>
      let s := log (Input Prompt_register_username username) (set_stdin rest s) in
      if (String.length username <? 4)%nat
      then register_username_loop rest (print Username_too_short s)
      else if negb (re_match_anchored username_regex username)
      then register_username_loop rest (print Username_invalid_characters s)
      else if bool_decide (is_Some (database s !! username))
      then register_username_loop rest (print Username_already_exists s)
      else Return username s
  end.

(** The [for attempt in range(3)] loop of [register_user]: [true] on
    [break], [false] where the code returns [False]. *)
Fixpoint register_code_attempts (verification_code : string) (attempts : list Z)
  : M bool :=
  match attempts with
  | [] => ret false
  | attempt :: more =>
      let* user_code := input Prompt_verification_code in
      if String.eqb user_code verification_code then
        act (print Email_verified);;
        ret true
      else
        let attempts_left := (2 - attempt)%Z in
        if (0 <? attempts_left)%Z then
          act (print (Invalid_code_remaining attempts_left));;
          register_code_attempts verification_code more
        else
          act (print Too_many_code_attempts);;
          ret false
  end.

(** The email loop of [register_user]; [ins] is [stdin s].  [Some email]
    when the loop is left by [break], [None] where the code returns
    [False]. *)
Fixpoint register_email_loop (E : environment) (ins : list string) (s : state)
  : outcome (option string) :=
  match ins with
  | [] => Raise EOFError s
  | email :: rest =>
      let s := log (Input Prompt_email email) (set_stdin rest s) in
      if negb (re_match_anchored (email_regex E) email)
      then register_email_loop E rest (print Invalid_email_format s)
      else
        (act (print Sending_verification_code);;
         let* verification_code := send_verification_code E email None in
         let* verified := register_code_attempts verification_code range3 in
         ret (if verified then Some email else None)) s
  end.

(** [self.register_user()]. *)
Definition register_user (E : environment) : M bool :=
  act (print Banner_registration);;
  let* username := (fun s => register_username_loop (stdin s) s) in
  let* verified := (fun s => register_email_loop E (stdin s) s) in
  match verified with
  | None => ret false
  | Some email =>
      let* password :=
        (fun s => password_loop Prompt_create_password Prompt_confirm_password
                    (stdin s) s) in
      let* salt := bcrypt_gensalt E in
      let* hashed_password := bcrypt_hashpw E password salt in
      let* now := datetime_now E in
      store username (mk_user_data hashed_password email 0 None (strftime now));;
      save_database;;
      act (print (User_registered username));;
      ret true
  end.

(** ** Password reset *)

(** [self.reset_password()]. *)
Definition reset_password (E : environment) : M bool :=
  act (print Banner_reset);;
  let* username := input Prompt_reset_username in
  let* known := known_user username in
  if negb known then
    act (print Username_doesnt_exist);;
    ret false
  else
    let* locked := check_account_lockout E username in
    if locked then ret false
    else
      let* user_data := lookup_user username in
      let email := email user_data in
      let* verification_code := send_verification_code E email None in
      let* user_code := input Prompt_verification_code in
      if negb (String.eqb user_code verification_code) then
        act (print Invalid_verification_code);;
        ret false
      else
        let* new_password :=
          (fun s => password_loop Prompt_new_password Prompt_confirm_new_password
                      (stdin s) s) in
        let* salt := bcrypt_gensalt E in
        let* hashed_password := bcrypt_hashpw E new_password salt in
        mutate username (set_password_hash hashed_password);;
        mutate username (set_failed_attempts 0);;
        mutate username (set_locked_until None);;
        save_database;;
        act (print Password_reset_successful);;
        ret true.

(** ** Demo users and the menu *)

Definition demo_users : list (string * (string * string)) :=
  [("user1", ("user1@example.com", "Password123"));
   ("admin", ("admin@example.com", "Admin123456"))].

(** The [for username, data in demo_users.items()] loop. *)
Fixpoint populate_loop (E : environment)
    (users : list (string * (string * string))) : M unit :=
  match users with
  | [] => ret tt
  | (username, (email, password)) :: more =>
      let* salt := bcrypt_gensalt E in
      let* hashed_password := bcrypt_hashpw E password salt in
      let* now := datetime_now E in
      store username (mk_user_data hashed_password email 0 None (strftime now));;
      populate_loop E more
  end.

(** [self.populate_demo_users()]. *)
Definition populate_demo_users (E : environment) : M unit :=
  fun s =>
    if bool_decide (database s = ∅) then
      (populate_loop E demo_users;;
       save_database;;
       act (print Demo_users_created)) s
    else
      Return tt (print Demo_users_skipped s).

(** The [while True] menu of [main].  A flow may read any number of lines,
    so the loop runs on fuel; [None] means the fuel ran out. *)
Fixpoint main_loop (E : environment) (fuel : nat) (s : state)
  : option (outcome unit) :=
  match fuel with
  | O => None
  | S fuel' =>
      match input Prompt_choice (print Menu s) with
      | Raise e s' => Some (Raise e s')
      | Return choice s' =>
          let continue (o : outcome bool) :=
            match o with
            | Return _ s'' => main_loop E fuel' s''
            | Raise e s'' => Some (Raise e s'')
            end in
          if String.eqb choice "1" then continue (authenticate E s')
          else if String.eqb choice "2" then continue (register_user E s')
          else if String.eqb choice "3" then continue (reset_password E s')
          else if String.eqb choice "4" then Some (Return tt (print Goodbye s'))
          else main_loop E fuel' (print Invalid_choice s')
      end
  end.

(** [main()]: construct the authenticator, create the demo users, run the
    menu. *)
Definition main (E : environment) (fuel : nat) (s : state) : option (outcome unit) :=
  match (load_database;; populate_demo_users E) s with
  | Return _ s' => main_loop E fuel s'
  | Raise e s' => Some (Raise e s')
  end.

(** ** A concrete world for examples

    A stand-in for bcrypt that keeps the salt in front of the password, a
    generator that counts, an ASCII word class and simulated mail. *)

Definition ascii_word_char (c : ascii) : bool :=
  is_lower c || is_upper c || is_digit c || is_char "_" c.

Definition example_environment (clock : nat -> datetime) : environment :=
  mk_environment clock (fun k => k) (fun _ => "salt")
    (fun password salt => salt ++ password)
    (fun password hashed => String.eqb hashed ("salt" ++ password))
    ascii_word_char true false (fun _ => Smtp_delivered).

(** The state of a first run: no database file, nothing read or drawn. *)
Definition first_run (ins : list string) : state :=
  mk_state ∅ None ins 0 0 0 [].

(** ** Vocabulary of the statements *)

(** The record left by the lazy reset of an expired lock. *)
Definition unlocked (r : user_data) : user_data :=
  set_locked_until None (set_failed_attempts 0 r).

(** The record on which [authenticate] checks the password: the lockout
    check that comes first leaves a record without a lock as it is and
    resets a record whose lock has expired. *)
Definition at_password_check (r : user_data) : user_data :=
  match locked_until r with
  | Some _ => unlocked r
  | None => r
  end.

(** The number of clock readings made when [authenticate] reaches the
    password check, counted from [ticks]: the lockout check reads the
    clock once when the record has a lock that has expired. *)
Definition tick_at_password_check (r : user_data) (ticks : nat) : nat :=
  match locked_until r with
  | Some _ => S ticks
  | None => ticks
  end.

Definition uppercase_letter (c : ascii) : Prop :=
  (nat_of_ascii "A" <= nat_of_ascii c <= nat_of_ascii "Z")%nat.

Definition lowercase_letter (c : ascii) : Prop :=
  (nat_of_ascii "a" <= nat_of_ascii c <= nat_of_ascii "z")%nat.

Definition decimal_digit (c : ascii) : Prop :=
  (nat_of_ascii "0" <= nat_of_ascii c <= nat_of_ascii "9")%nat.

(** [text] has a character with property [P]. *)
Definition contains (P : ascii -> Prop) (text : string) : Prop :=
  exists c, In c (list_ascii_of_string text) /\ P c.

(** The rule of the password policy whose breach is reported as [v]. *)
Definition rule (v : violation) (password : string) : Prop :=
  match v with
  | TooShort => (8 <= String.length password)%nat
  | MissingUppercase => contains uppercase_letter password
  | MissingLowercase => contains lowercase_letter password
  | MissingDigit => contains decimal_digit password
  end.

(** [s'] has the database and the database file of [s]. *)
Definition same_store (s s' : state) : Prop :=
  database s' = database s /\ db_file s' = db_file s.

(** The console lines of a user who picks "1" (login) in the menu and
    types [username] and a password, once per password. *)
Definition login_lines (username : string) (passwords : list string) : list string :=
  flat_map (fun password => ["1"; username; password]) passwords.

(** The record after a password that failed the check at clock reading
    [now]: what the failure branch of [authenticate] leaves in the
    database. *)
Definition after_failure (now : datetime) (r : user_data) : user_data :=
  let r1 := set_failed_attempts (failed_attempts r + 1) r in
  if (max_failed_attempts <=? failed_attempts r1)%Z
  then set_locked_until
         (Some (strftime (now + timedelta_minutes lockout_duration))) r1
  else r1.

(** The username loop of [register_user] takes [username]. *)
Definition username_accepted (db : gmap string user_data) (username : string) : Prop :=
  (String.length username <? 4)%nat = false /\
  re_match_anchored username_regex username = true /\
  db !! username = None.

(** The email loop of [register_user] takes [email]. *)
Definition email_accepted (E : environment) (email : string) : Prop :=
  re_match_anchored (email_regex E) email = true.

(** *** Reachable states *)

(** The three flows of the menu. *)
Inductive flow :=
| Login
| Registration
| Reset.

Definition run_flow (E : environment) (f : flow) : M bool :=
  match f with
  | Login => authenticate E
  | Registration => register_user E
  | Reset => reset_password E
  end.

(** What [main] does before the menu: load the file, add the demo users
    to an empty database. *)
Definition startup (E : environment) : M unit :=
  load_database;; populate_demo_users E.

(** The states the program gets into: from a first run (no database
    file), by starting the process, and by running a flow of the menu on
    any console input; a flow that ends in an exception leaves the state
    it had then, from which only a new start goes on in practice. *)
Inductive reachable (E : environment) : state -> Prop :=
| reachable_first_run (ins : list string) :
    reachable E (first_run ins)
| reachable_startup (s : state) :
    reachable E s -> reachable E (outcome_state (startup E s))
| reachable_flow (s : state) (f : flow) (ins : list string) :
    reachable E s -> reachable E (outcome_state (run_flow E f (set_stdin ins s))).

(** One login per password, each typed after the username. *)
Fixpoint attempt_logins (E : environment) (username : string)
    (passwords : list string) (s : state) : state :=
  match passwords with
  | [] => s
  | password :: more =>
      attempt_logins E username more
        (outcome_state (authenticate E (set_stdin [username; password] s)))
  end.

(** The shape of every record the program produces: no lock and a count
    below the threshold, or a lock and the count at the threshold. *)
Definition record_ok (r : user_data) : Prop :=
  match locked_until r with
  | None => (0 <= failed_attempts r < max_failed_attempts)%Z
  | Some _ => failed_attempts r = max_failed_attempts
  end.

Definition db_ok (db : gmap string user_data) : Prop :=
  forall username r, db !! username = Some r -> record_ok r.

Definition store_ok (s : state) : Prop :=
  db_ok (database s) /\ (forall f, db_file s = Some f -> db_ok f).

(** A record and a one-user state for examples. *)
Definition example_record (attempts : Z) (lock : option Z) : user_data :=
  mk_user_data "saltPassw0rd" "a@x.com" attempts lock 0.

Definition example_state (r : user_data) (ins : list string) : state :=
  mk_state {["alice01" := r]} (Some {["alice01" := r]}) ins 0 0 0 [].

Functional Scheme password_loop_ind := Induction for password_loop Sort Prop.
Functional Scheme register_username_loop_ind :=
  Induction for register_username_loop Sort Prop.

(** *** Vocabulary of the further properties *)

(** The words of a regular expression, as lists of characters. *)
Inductive matches : regex -> list ascii -> Prop :=
| matches_eps : matches Re_eps []
| matches_class (p : ascii -> bool) (c : ascii) :
    p c = true -> matches (Re_class p) [c]
| matches_seq (r1 r2 : regex) (w1 w2 : list ascii) :
    matches r1 w1 -> matches r2 w2 -> matches (Re_seq r1 r2) (w1 ++ w2)
| matches_alt_l (r1 r2 : regex) (w : list ascii) :
    matches r1 w -> matches (Re_alt r1 r2) w
| matches_alt_r (r1 r2 : regex) (w : list ascii) :
    matches r2 w -> matches (Re_alt r1 r2) w
| matches_star_nil (r : regex) : matches (Re_star r) []
| matches_star_cons (r : regex) (w1 w2 : list ascii) :
    matches r w1 -> matches (Re_star r) w2 -> matches (Re_star r) (w1 ++ w2).

(** A non-empty run of characters of one class. *)
Definition run_of (p : ascii -> bool) (w : list ascii) : Prop :=
  w <> [] /\ Forall (fun c => p c = true) w.

(** The characters a username may have: [[a-zA-Z0-9._]]. *)
Definition username_char (c : ascii) : bool :=
  is_lower c || is_upper c || is_digit c || is_char "." c || is_char "_" c.

(** The characters of the parts of an email address: [[\w\.-]]. *)
Definition email_char (E : environment) (c : ascii) : bool :=
  word_char E c || is_char "." c || is_char "-" c.

(** [w] is [body], or [body] and one final newline. *)
Definition up_to_newline (w body : list ascii) : Prop :=
  w = body \/ w = (body ++ [newline])%list.

(** The file holds exactly the database of the running program. *)
Definition synced (s : state) : Prop := db_file s = Some (database s).

(** What a run from [s] may do to the console: it reads lines and puts
    none back, and if it ends in an exception that exception is an
    [EOFError] raised with no line left. *)
Definition console_ok {A} (s : state) (o : outcome A) : Prop :=
  (length (stdin (outcome_state o)) <= length (stdin s))%nat /\
  (forall e s', o = Raise e s' -> e = EOFError /\ stdin s' = []).

(** What identifies an account and lets its owner in. *)
Definition credentials (r : user_data) : string * string * Z :=
  (password_hash r, email r, registered_on r).

(** From [s] to [s'] no user was added or removed and no hash, email or
    registration time was changed. *)
Definition credentials_kept (s s' : state) : Prop :=
  forall username,
    credentials <$> (database s' !! username) =
    credentials <$> (database s !! username).

(** A line that is none of the four menu choices. *)
Definition no_choice (line : string) : Prop :=
  line <> "1" /\ line <> "2" /\ line <> "3" /\ line <> "4".

Lemma range3_eq : range3 = [0; 1; 2]%Z.
Proof. reflexivity. Qed.

Arguments send_verification_code : simpl never.
Opaque range3.

(** * Properties *)

Ltac unfold_flow :=
  unfold bind, ret, act, mutate, store, save_database, known_user, lookup_user,
    datetime_now, bcrypt_gensalt, bcrypt_hashpw, bcrypt_checkpw, input, getpass in *.

(** ** The lockout check *)

(** C10. For a username that is not in the database, the lockout check
    returns [False] and leaves the whole state, database and file
    included, as it was. *)
Theorem check_account_lockout_unknown (E : environment) (username : string) (s : state) :
  database s !! username = None ->
  check_account_lockout E username s = Return false s.
Proof.
  intros Hnone. unfold check_account_lockout. now rewrite Hnone.
Qed.

Lemma check_account_lockout_unknown_witness :
  check_account_lockout (example_environment (fun _ => 0%Z)) "mallory"
    (first_run []) = Return false (first_run []).
Proof.
  apply (check_account_lockout_unknown (example_environment (fun _ => 0%Z))
           "mallory" (first_run [])).
  reflexivity.
Defined.

Lemma alter_alter_lookup (f g : user_data -> user_data) (u : string)
    (db : gmap string user_data) (r : user_data) :
  db !! u = Some r ->
  alter g u (alter f u db) !! u = Some (g (f r)).
Proof.
  intros H. rewrite !lookup_alter_eq, H. reflexivity.
Qed.

(** C4. For a registered user [r] and the clock reading [now] taken by the
    check: the check returns [True] exactly when [locked_until] is set and
    [now] is strictly before it, and then changes neither database nor
    file; when [locked_until] is set and has elapsed, the check returns
    [False] after setting [failed_attempts] to 0, clearing [locked_until]
    and saving the database. *)
Theorem check_account_lockout_registered (E : environment) (username : string)
    (r : user_data) (s : state) :
  database s !! username = Some r ->
  exists (b : bool) (s' : state),
    check_account_lockout E username s = Return b s' /\
    (b = true <->
       exists t, locked_until r = Some t /\ (clock E (ticks s) < strptime t)%Z) /\
    (b = true -> database s' = database s /\ db_file s' = db_file s) /\
    (forall t, locked_until r = Some t -> (strptime t <= clock E (ticks s))%Z ->
       b = false /\
       database s' !! username = Some (unlocked r) /\
       db_file s' = Some (database s')).
Proof.
  intros Hr. unfold check_account_lockout. rewrite Hr.
  destruct (locked_until r) as [t|] eqn:Hlock.
  - unfold_flow. cbn.
    destruct (clock E (ticks s) <? strptime t)%Z eqn:Hnow.
    + apply Z.ltb_lt in Hnow. exists true. eexists. split; [reflexivity|].
      cbn. split; [|split].
      * split; [intros _; exists t; auto | reflexivity].
      * auto.
      * intros t' Ht' Hle. injection Ht' as <-. lia.
    + apply Z.ltb_ge in Hnow. exists false. eexists. split; [reflexivity|].
      cbn. split; [|split].
      * split; [discriminate|].
        intros (t' & Ht' & Hlt). injection Ht' as <-. lia.
      * discriminate.
      * intros t' _ _. split; [reflexivity|]. split; [|reflexivity].
        now apply alter_alter_lookup.
  - exists false, s. split; [reflexivity|]. split; [|split].
    + split; [discriminate|]. intros (t & Ht & _). discriminate.
    + discriminate.
    + intros t Ht. discriminate.
Qed.

Lemma check_account_lockout_registered_witness :
  exists s',
    check_account_lockout (example_environment (fun _ => 2000000000%Z)) "alice01"
      (example_state (example_record 5 (Some 900%Z)) []) = Return false s' /\
    database s' !! "alice01" = Some (example_record 0 None) /\
    db_file s' = Some (database s').
Proof.
  destruct (check_account_lockout_registered
              (example_environment (fun _ => 2000000000%Z)) "alice01"
              (example_record 5 (Some 900%Z))
              (example_state (example_record 5 (Some 900%Z)) []) eq_refl)
    as (b & s' & Hrun & _ & _ & Hexpired).
  destruct (Hexpired 900%Z eq_refl) as (-> & Hdb & Hfile).
  - vm_compute. discriminate.
  - exists s'. split; [exact Hrun|]. split; [exact Hdb | exact Hfile].
Defined.

(** ** The password policy *)

Lemma in_range_spec (lo hi : nat) (c : ascii) :
  in_range lo hi c = true <-> (lo <= nat_of_ascii c <= hi)%nat.
Proof.
  unfold in_range. rewrite andb_true_iff, !Nat.leb_le. reflexivity.
Qed.

Lemma re_search_class_spec (p : ascii -> bool) (text : string) :
  re_search_class p text = true <-> contains (fun c => p c = true) text.
Proof.
  unfold contains. induction text as [|c text IH]; simpl.
  - split; [discriminate | intros (c & [] & _)].
  - rewrite orb_true_iff, IH. split.
    + intros [Hc | (d & Hin & Hd)]; [exists c | exists d]; auto.
    + intros (d & [<- | Hin] & Hd); [left | right; exists d]; auto.
Qed.

Lemma search_upper (text : string) :
  re_search_class is_upper text = true <-> contains uppercase_letter text.
Proof.
  rewrite re_search_class_spec. unfold contains, is_upper, uppercase_letter.
  split; intros (c & Hin & Hc); exists c; (split; [assumption|]);
    apply in_range_spec in Hc || apply in_range_spec; exact Hc.
Qed.

Lemma search_lower (text : string) :
  re_search_class is_lower text = true <-> contains lowercase_letter text.
Proof.
  rewrite re_search_class_spec. unfold contains, is_lower, lowercase_letter.
  split; intros (c & Hin & Hc); exists c; (split; [assumption|]);
    apply in_range_spec in Hc || apply in_range_spec; exact Hc.
Qed.

Lemma search_digit (text : string) :
  re_search_class is_digit text = true <-> contains decimal_digit text.
Proof.
  rewrite re_search_class_spec. unfold contains, is_digit, decimal_digit.
  split; intros (c & Hin & Hc); exists c; (split; [assumption|]);
    apply in_range_spec in Hc || apply in_range_spec; exact Hc.
Qed.

Lemma rule_decided (v : violation) (password : string) :
  rule v password <->
  match v with
  | TooShort => (String.length password <? 8)%nat = false
  | MissingUppercase => re_search_class is_upper password = true
  | MissingLowercase => re_search_class is_lower password = true
  | MissingDigit => re_search_class is_digit password = true
  end.
Proof.
  destruct v; simpl.
  - rewrite Nat.ltb_ge. reflexivity.
  - symmetry. apply search_upper.
  - symmetry. apply search_lower.
  - symmetry. apply search_digit.
Qed.

Lemma password_violation_none (password : string) :
  password_violation password = None <-> forall v, rule v password.
Proof.
  split.
  - intros H v. apply rule_decided. unfold password_violation in H.
    destruct (String.length password <? 8)%nat; [discriminate|].
    destruct (re_search_class is_upper password); [|discriminate].
    destruct (re_search_class is_lower password); [|discriminate].
    destruct (re_search_class is_digit password); [|discriminate].
    destruct v; reflexivity.
  - intros H. unfold password_violation.
    rewrite (proj1 (rule_decided TooShort password) (H TooShort)).
    rewrite (proj1 (rule_decided MissingUppercase password) (H MissingUppercase)).
    rewrite (proj1 (rule_decided MissingLowercase password) (H MissingLowercase)).
    rewrite (proj1 (rule_decided MissingDigit password) (H MissingDigit)).
    reflexivity.
Qed.

Lemma password_violation_single (password : string) (v : violation) :
  ~ rule v password ->
  (forall v', v' <> v -> rule v' password) ->
  password_violation password = Some v.
Proof.
  intros Hv Hothers.
  assert (Hdec : forall v', v' <> v ->
            match v' with
            | TooShort => (String.length password <? 8)%nat = false
            | MissingUppercase => re_search_class is_upper password = true
            | MissingLowercase => re_search_class is_lower password = true
            | MissingDigit => re_search_class is_digit password = true
            end).
  { intros v' Hne. apply rule_decided. auto. }
  rewrite rule_decided in Hv. unfold password_violation.
  destruct v.
  - apply not_false_is_true in Hv. now rewrite Hv.
  - rewrite (Hdec TooShort) by discriminate.
    apply not_true_is_false in Hv. now rewrite Hv.
  - rewrite (Hdec TooShort), (Hdec MissingUppercase) by discriminate.
    apply not_true_is_false in Hv. now rewrite Hv.
  - rewrite (Hdec TooShort), (Hdec MissingUppercase), (Hdec MissingLowercase)
      by discriminate.
    apply not_true_is_false in Hv. now rewrite Hv.
Qed.

(** C5. A password passes the checks of the password loops exactly when
    it has at least 8 characters, an uppercase letter, a lowercase letter
    and a digit.  A password that breaks exactly one of these four rules
    is reported as breaking that rule, and the loop prints the message of
    that rule and no other: "Password too short!" for the length,
    "Password must contain at least one uppercase letter!", "... one
    lowercase letter!" and "... one number!" for the three classes; then
    it asks again.  A password that breaks several rules gets the message
    of the first test it fails.  A password that passes and is confirmed
    is the one the loop returns. *)
Theorem password_policy (password : string) :
  (password_violation password = None <-> forall v, rule v password) /\
  (forall v, ~ rule v password -> (forall v', v' <> v -> rule v' password) ->
     password_violation password = Some v) /\
  (forall v ask confirm rest s,
     ~ rule v password -> (forall v', v' <> v -> rule v' password) ->
     password_loop ask confirm (password :: rest) s =
     password_loop ask confirm rest
       (print match v with
              | TooShort => Password_too_short
              | MissingUppercase => Password_needs_uppercase
              | MissingLowercase => Password_needs_lowercase
              | MissingDigit => Password_needs_number
              end
          (log (Getpass ask password) (set_stdin rest s)))) /\
  (forall v ask confirm rest s,
     password_violation password = Some v ->
     password_loop ask confirm (password :: rest) s =
     password_loop ask confirm rest
       (print match v with
              | TooShort => Password_too_short
              | MissingUppercase => Password_needs_uppercase
              | MissingLowercase => Password_needs_lowercase
              | MissingDigit => Password_needs_number
              end
          (log (Getpass ask password) (set_stdin rest s)))) /\
  (forall ask confirm rest s,
     password_violation password = None ->
     password_loop ask confirm (password :: password :: rest) s =
     Return password
       (log (Getpass confirm password)
          (set_stdin rest (log (Getpass ask password) (set_stdin (password :: rest) s))))).
Proof.
  split; [apply password_violation_none|].
  split; [intros v; apply password_violation_single|].
  split; [|split].
  - intros v ask confirm rest s Hv Hothers. simpl.
    rewrite (password_violation_single password v Hv Hothers).
    destruct v; reflexivity.
  - intros v ask confirm rest s Hv. simpl. rewrite Hv.
    destruct v; reflexivity.
  - intros ask confirm rest s Hv. simpl. rewrite Hv.
    now rewrite String.eqb_refl.
Qed.

(** ** What leaves the database and its file alone *)

Lemma same_store_refl (s : state) : same_store s s.
Proof. split; reflexivity. Qed.

Lemma same_store_trans (s1 s2 s3 : state) :
  same_store s1 s2 -> same_store s2 s3 -> same_store s1 s3.
Proof. intros [H1 H2] [H3 H4]. split; congruence. Qed.

Lemma input_store (p : prompt) (s : state) :
  same_store s (outcome_state (input p s)).
Proof. unfold input. destruct (stdin s); split; reflexivity. Qed.

Lemma send_verification_code_store (E : environment) (email : string)
    (username : option string) (s : state) :
  same_store s (outcome_state (send_verification_code E email username s)).
Proof.
  unfold send_verification_code, smtp_conversation, _fallback_verification.
  unfold_flow. cbn.
  destruct (use_simulation E); [split; reflexivity|].
  destruct (email_credentials E); cbn; [|split; reflexivity].
  destruct (smtp E (draws s + 6)); split; reflexivity.
Qed.

Lemma send_verification_code_returns (E : environment) (email : string)
    (username : option string) (s : state) :
  exists s', send_verification_code E email username s =
             Return (random_digits E 6 (draws s)) s' /\
             same_store s s' /\ stdin s' = stdin s /\ ticks s' = ticks s /\
             salts s' = salts s /\ draws s' = (draws s + 6)%nat.
Proof.
  unfold send_verification_code, smtp_conversation, _fallback_verification.
  unfold_flow. cbn.
  destruct (use_simulation E); [eexists; repeat split; reflexivity|].
  destruct (email_credentials E); cbn; [|eexists; repeat split; reflexivity].
  destruct (smtp E (draws s + 6)); eexists; repeat split; reflexivity.
Qed.

Lemma login_code_attempts_store (username code : string) (attempts : list Z) (s : state) :
  same_store s (outcome_state (login_code_attempts username code attempts s)).
Proof.
  revert s. induction attempts as [|attempt more IH]; intros s.
  - split; reflexivity.
  - simpl. unfold_flow. destruct (stdin s) as [|line rest]; [split; reflexivity|].
    destruct (String.eqb line code); [split; reflexivity|].
    eapply same_store_trans; [|apply IH]. split; reflexivity.
Qed.

Lemma register_code_attempts_store (code : string) (attempts : list Z) (s : state) :
  same_store s (outcome_state (register_code_attempts code attempts s)).
Proof.
  revert s. induction attempts as [|attempt more IH]; intros s.
  - split; reflexivity.
  - simpl. unfold_flow. destruct (stdin s) as [|line rest]; [split; reflexivity|].
    destruct (String.eqb line code); [split; reflexivity|].
    destruct (0 <? 2 - attempt)%Z; [|split; reflexivity].
    eapply same_store_trans; [|apply IH]. split; reflexivity.
Qed.

Lemma password_loop_store (ask confirm : prompt) (ins : list string) (s : state) :
  same_store s (outcome_state (password_loop ask confirm ins s)).
Proof.
  apply (password_loop_ind ask confirm (fun _ s o => same_store s (outcome_state o)));
    intros; subst; try (split; reflexivity);
    (eapply same_store_trans; [|eassumption]); split; reflexivity.
Qed.

Lemma register_username_loop_store (ins : list string) (s : state) :
  same_store s (outcome_state (register_username_loop ins s)).
Proof.
  apply (register_username_loop_ind (fun _ s o => same_store s (outcome_state o)));
    intros; subst; try (split; reflexivity);
    (eapply same_store_trans; [|eassumption]); split; reflexivity.
Qed.

Lemma register_email_loop_store (E : environment) (ins : list string) (s : state) :
  same_store s (outcome_state (register_email_loop E ins s)).
Proof.
  revert s. induction ins as [|email rest IH]; intros s; [split; reflexivity|].
  simpl. destruct (negb (re_match_anchored (email_regex E) email)).
  - eapply same_store_trans; [|apply IH]. split; reflexivity.
  - unfold_flow. cbn.
    match goal with
    | |- context [send_verification_code E ?e ?u ?s0] =>
        destruct (send_verification_code_returns E e u s0) as (s1 & -> & Hs1 & _)
    end.
    match goal with
    | |- context [register_code_attempts ?c ?a s1] =>
        pose proof (register_code_attempts_store c a s1) as Hs2;
        destruct (register_code_attempts c a s1) as [[] s2 | e s2]
    end; cbn in *;
      (eapply same_store_trans; [|eapply same_store_trans; [exact Hs1 | exact Hs2]]);
      split; reflexivity.
Qed.

(** ** Login: rejections before the password *)

Lemma authenticate_locked (E : environment) (username : string)
    (rest : list string) (r : user_data) (t : Z) (s : state) :
  stdin s = username :: rest ->
  database s !! username = Some r ->
  locked_until r = Some t ->
  (clock E (ticks s) < strptime t)%Z ->
  exists s',
    authenticate E s = Return false s' /\
    same_store s s' /\
    stdin s' = rest /\
    trace s' =
      (trace s ++
         [Print Banner_login;
          Input Prompt_login_username username;
          Print (Account_is_locked (strptime t - clock E (S (ticks s)))%Z)])%list.
Proof.
  intros Hin Hr Hlock Hnow. apply Z.ltb_lt in Hnow.
  unfold authenticate. unfold_flow. cbn. rewrite Hin. cbn. rewrite Hr. cbn.
  unfold check_account_lockout. unfold_flow. cbn. rewrite Hr, Hlock, Hnow. cbn.
  eexists. split; [reflexivity|]. cbn.
  split; [split; reflexivity|]. split; [reflexivity|].
  now rewrite <- !app_assoc.
Qed.

(** C6. A login with a username that is not in the database is rejected
    as soon as the username is read.  A login to an account whose
    [locked_until] is set and still ahead of the clock is rejected too:
    nothing is read after the username ([getpass] is not called),
    [bcrypt.checkpw] is not called, and database and file stay as they
    were, [failed_attempts] included. *)
Theorem authenticate_rejects_early (E : environment) (username : string)
    (rest : list string) (s : state) :
  stdin s = username :: rest ->
  (database s !! username = None ->
   authenticate E s =
   Return false
     (print Username_doesnt_exist
        (log (Input Prompt_login_username username)
           (set_stdin rest (print Banner_login s))))) /\
  (forall r t,
     database s !! username = Some r ->
     locked_until r = Some t ->
     (clock E (ticks s) < strptime t)%Z ->
     exists s',
       authenticate E s = Return false s' /\
       same_store s s' /\
       stdin s' = rest /\
       trace s' =
         (trace s ++
            [Print Banner_login;
             Input Prompt_login_username username;
             Print (Account_is_locked (strptime t - clock E (S (ticks s)))%Z)])%list).
Proof.
  intros Hin. split.
  - intros Hnone. unfold authenticate. unfold_flow. cbn.
    rewrite Hin. cbn. rewrite Hnone. reflexivity.
  - intros r t Hr Hlock Hnow.
    now apply (authenticate_locked E username rest r t s).
Qed.

Lemma authenticate_rejects_early_witness :
  exists s',
    authenticate (example_environment (fun _ => 0%Z))
      (example_state (example_record 5 (Some 900%Z)) ["alice01"; "Passw0rd"]) =
    Return false s' /\
    stdin s' = ["Passw0rd"] /\
    database s' !! "alice01" = Some (example_record 5 (Some 900%Z)).
Proof.
  destruct (authenticate_rejects_early (example_environment (fun _ => 0%Z))
              "alice01" ["Passw0rd"]
              (example_state (example_record 5 (Some 900%Z)) ["alice01"; "Passw0rd"])
              eq_refl) as [_ Hlocked].
  destruct (Hlocked (example_record 5 (Some 900%Z)) 900%Z eq_refl eq_refl eq_refl)
    as (s' & Hrun & [Hdb _] & Hin & _).
  exists s'. split; [exact Hrun|]. split; [exact Hin|].
  rewrite Hdb. reflexivity.
Defined.

(** ** Login: a wrong password *)

Lemma strftime_truncates (t : datetime) :
  (strptime (strftime t) <= t < strptime (strftime t) + microseconds_per_second)%Z.
Proof.
  unfold strptime, strftime, microseconds_per_second.
  pose proof (Z.div_mod t 1000000). pose proof (Z.mod_pos_bound t 1000000). lia.
Qed.

Lemma authenticate_wrong_password (E : environment) (username password : string)
    (rest : list string) (r : user_data) (s : state) :
  stdin s = username :: password :: rest ->
  database s !! username = Some r ->
  locked_until r = None ->
  checkpw E password (password_hash r) = false ->
  exists s',
    authenticate E s = Return false s' /\
    stdin s' = rest /\
    database s' !! username = Some (after_failure (clock E (ticks s)) r) /\
    (forall other, other <> username -> database s' !! other = database s !! other) /\
    db_file s' = Some (database s') /\
    ((failed_attempts r + 1 < max_failed_attempts)%Z -> ticks s' = ticks s).
Proof.
  intros Hin Hr Hlock Hpw.
  unfold authenticate. unfold_flow. cbn. rewrite Hin. cbn. rewrite Hr. cbn.
  unfold check_account_lockout. cbn. rewrite Hr, Hlock. cbn. rewrite Hr. cbn.
  rewrite Hpw. cbn. rewrite lookup_alter_eq, Hr. cbn.
  unfold after_failure. cbn.
  destruct (max_failed_attempts <=? failed_attempts r + 1)%Z eqn:Hmax; cbn;
    (eexists; split; [reflexivity|]); cbn.
  - split; [reflexivity|]. split; [now rewrite !lookup_alter_eq, Hr|].
    split; [intros other Hne; now rewrite !lookup_alter_ne by congruence|].
    split; [reflexivity|]. apply Z.leb_le in Hmax. lia.
  - split; [reflexivity|]. split; [now rewrite !lookup_alter_eq, Hr|].
    split; [intros other Hne; now rewrite !lookup_alter_ne by congruence|].
    split; reflexivity.
Qed.

Lemma after_failure_below (now : datetime) (r : user_data) :
  (failed_attempts r + 1 < max_failed_attempts)%Z ->
  after_failure now r = set_failed_attempts (failed_attempts r + 1) r.
Proof.
  intros H. unfold after_failure. cbn.
  destruct (max_failed_attempts <=? failed_attempts r + 1)%Z eqn:Hmax;
    [apply Z.leb_le in Hmax; lia | reflexivity].
Qed.

Lemma after_failure_reaches (now : datetime) (r : user_data) :
  (max_failed_attempts <= failed_attempts r + 1)%Z ->
  after_failure now r =
  set_locked_until (Some (strftime (now + timedelta_minutes lockout_duration)))
    (set_failed_attempts (failed_attempts r + 1) r).
Proof.
  intros H. unfold after_failure. cbn.
  destruct (max_failed_attempts <=? failed_attempts r + 1)%Z eqn:Hmax;
    [reflexivity | apply Z.leb_gt in Hmax; lia].
Qed.

Lemma set_failed_attempts_same (n : Z) (r : user_data) :
  n = failed_attempts r -> set_failed_attempts n r = r.
Proof. destruct r. cbn. intros ->. reflexivity. Qed.

Lemma set_failed_attempts_again (n m k : Z) (r : user_data) :
  k = m -> set_failed_attempts k (set_failed_attempts n r) = set_failed_attempts m r.
Proof. intros ->. reflexivity. Qed.

Lemma main_loop_login (E : environment) (fuel : nat) (s : state) (rest : list string) :
  stdin s = "1" :: rest ->
  main_loop E (S fuel) s =
  match authenticate E (log (Input Prompt_choice "1") (set_stdin rest (print Menu s))) with
  | Return _ s' => main_loop E fuel s'
  | Raise e s' => Some (Raise e s')
  end.
Proof.
  intros Hin. cbn [main_loop]. unfold input.
  change (stdin (print Menu s)) with (stdin s). rewrite Hin. reflexivity.
Qed.

Lemma main_loop_eof (E : environment) (fuel : nat) (s : state) :
  stdin s = [] ->
  main_loop E (S fuel) s = Some (Raise EOFError (print Menu s)).
Proof.
  intros Hin. cbn [main_loop]. unfold input.
  change (stdin (print Menu s)) with (stdin s). rewrite Hin. reflexivity.
Qed.

(** The menu loop run on a series of logins with wrong passwords that
    stays below the threshold: the loop goes on from a state where only
    the counter of [username] has moved. *)
Lemma main_loop_failed_logins (E : environment) (username : string)
    (passwords tail : list string) :
  forall (s : state) (r : user_data) (fuel : nat),
    stdin s = (login_lines username passwords ++ tail)%list ->
    database s !! username = Some r ->
    locked_until r = None ->
    (failed_attempts r + Z.of_nat (length passwords) < max_failed_attempts)%Z ->
    Forall (fun password => checkpw E password (password_hash r) = false) passwords ->
    exists s',
      main_loop E (length passwords + fuel) s = main_loop E fuel s' /\
      stdin s' = tail /\
      database s' !! username =
        Some (set_failed_attempts
                (failed_attempts r + Z.of_nat (length passwords)) r) /\
      ticks s' = ticks s.
Proof.
  induction passwords as [|password passwords IH]; intros s r fuel Hin Hr Hlock Hlt Hwrong.
  - exists s. split; [reflexivity|]. split; [exact Hin|]. split; [|reflexivity].
    rewrite Hr. f_equal. symmetry. apply set_failed_attempts_same. cbn. lia.
  - inversion Hwrong as [|? ? Hpw Hrest]; subst.
    cbn [length] in Hlt.
    destruct (authenticate_wrong_password E username password
                (login_lines username passwords ++ tail)%list r
                (log (Input Prompt_choice "1")
                   (set_stdin (username :: password ::
                                 login_lines username passwords ++ tail)%list
                      (print Menu s))))
      as (s1 & Hrun & Hin1 & Hr1 & _ & _ & Hticks); auto.
    rewrite after_failure_below in Hr1 by lia.
    destruct (IH s1 (set_failed_attempts (failed_attempts r + 1) r) fuel)
      as (s2 & Hloop & Hin2 & Hr2 & Hticks2); auto.
    { cbn. lia. }
    exists s2. split.
    + assert (Hin' : stdin s =
                       "1" :: username :: password ::
                         (login_lines username passwords ++ tail)%list)
        by exact Hin.
      cbn [length Nat.add]. rewrite (main_loop_login E _ s _ Hin').
      rewrite Hrun. exact Hloop.
    + split; [exact Hin2|]. split.
      * rewrite Hr2. f_equal. apply set_failed_attempts_again.
        cbn [failed_attempts set_failed_attempts length]. lia.
      * rewrite Hticks2. apply Hticks. lia.
Qed.

(** A failed password check on any record that gets one: the record has
    no lock, or a lock that has expired and is lifted by the lockout
    check first. *)
Lemma authenticate_failed_check (E : environment) (username password : string)
    (rest : list string) (r : user_data) (s : state) :
  stdin s = username :: password :: rest ->
  database s !! username = Some r ->
  (forall t, locked_until r = Some t -> (strptime t <= clock E (ticks s))%Z) ->
  checkpw E password (password_hash r) = false ->
  exists s',
    authenticate E s = Return false s' /\
    stdin s' = rest /\
    database s' !! username =
      Some (after_failure (clock E (tick_at_password_check r (ticks s)))
              (at_password_check r)) /\
    db_file s' = Some (database s') /\
    ((failed_attempts (at_password_check r) + 1 < max_failed_attempts)%Z ->
     ticks s' = tick_at_password_check r (ticks s)).
Proof.
  intros Hin Hr Hnot Hpw.
  unfold at_password_check, tick_at_password_check.
  destruct (locked_until r) as [t|] eqn:Hlock.
  - specialize (Hnot t eq_refl). apply Z.ltb_ge in Hnot.
    unfold authenticate. unfold_flow. cbn. rewrite Hin. cbn. rewrite Hr. cbn.
    unfold check_account_lockout. cbn. rewrite Hr, Hlock. unfold_flow. cbn.
    rewrite Hnot. cbn.
    rewrite (alter_alter_lookup _ _ _ _ r Hr). cbn.
    rewrite Hpw. cbn.
    rewrite lookup_alter_eq, (alter_alter_lookup _ _ _ _ r Hr). cbn.
    eexists. split; [reflexivity|]. cbn.
    split; [reflexivity|].
    split; [now rewrite lookup_alter_eq, (alter_alter_lookup _ _ _ _ r Hr)|].
    split; reflexivity.
  - destruct (authenticate_wrong_password E username password rest r s Hin Hr Hlock Hpw)
      as (s' & Hrun & Hin' & Hr' & _ & Hfile & Hticks).
    exists s'. split; [exact Hrun|]. split; [exact Hin'|].
    split; [exact Hr'|]. split; [exact Hfile|exact Hticks].
Qed.

Lemma at_password_check_unlocked (r : user_data) :
  locked_until (at_password_check r) = None /\
  password_hash (at_password_check r) = password_hash r.
Proof.
  unfold at_password_check. destruct (locked_until r) eqn:Hlock; auto.
Qed.

(** The menu loop run on a non-empty series of logins with wrong
    passwords that stays below the threshold, on any record that gets a
    password check. *)
Lemma main_loop_failed_checks (E : environment) (username password : string)
    (passwords tail : list string) (s : state) (r : user_data) (fuel : nat) :
  stdin s = (login_lines username (password :: passwords) ++ tail)%list ->
  database s !! username = Some r ->
  (forall t, locked_until r = Some t -> (strptime t <= clock E (ticks s))%Z) ->
  (failed_attempts (at_password_check r) + 1 + Z.of_nat (length passwords)
   < max_failed_attempts)%Z ->
  Forall (fun password => checkpw E password (password_hash r) = false)
    (password :: passwords) ->
  exists s',
    main_loop E (S (length passwords) + fuel) s = main_loop E fuel s' /\
    stdin s' = tail /\
    database s' !! username =
      Some (set_failed_attempts
              (failed_attempts (at_password_check r) + 1 + Z.of_nat (length passwords))
              (at_password_check r)) /\
    ticks s' = tick_at_password_check r (ticks s).
Proof.
  intros Hin Hr Hnot Hlt Hwrong.
  inversion Hwrong as [|? ? Hpw Hrest]; subst.
  destruct (at_password_check_unlocked r) as [Hlock0 Hhash0].
  destruct (authenticate_failed_check E username password
              (login_lines username passwords ++ tail)%list r
              (log (Input Prompt_choice "1")
                 (set_stdin (username :: password ::
                               login_lines username passwords ++ tail)%list
                    (print Menu s))))
    as (s1 & Hrun & Hin1 & Hr1 & _ & Hticks1); auto.
  rewrite after_failure_below in Hr1 by lia.
  destruct (main_loop_failed_logins E username passwords tail s1
              (set_failed_attempts (failed_attempts (at_password_check r) + 1)
                 (at_password_check r)) fuel)
    as (s2 & Hloop & Hin2 & Hr2 & Hticks2); auto.
  { cbn [password_hash set_failed_attempts]. rewrite Hhash0. exact Hrest. }
  exists s2. split.
  - assert (Hin' : stdin s =
                     "1" :: username :: password ::
                       (login_lines username passwords ++ tail)%list)
      by exact Hin.
    cbn [Nat.add]. rewrite (main_loop_login E _ s _ Hin').
    rewrite Hrun. exact Hloop.
  - split; [exact Hin2|]. split.
    + rewrite Hr2. reflexivity.
    + rewrite Hticks2. apply Hticks1. lia.
Qed.

(** C1 (as amended). For every user record [r], a password that fails the
    check adds one to [failed_attempts], counted from the record as the
    lockout check leaves it for the password check ([at_password_check]:
    a lock that has expired is lifted and the count reset to 0 first;
    no password is checked while a lock is in force).  When the new count
    reaches the threshold 5, [locked_until] becomes the clock reading of
    the failure plus 15 minutes cut down to a whole second, and the count
    stays as it is; below 5, [locked_until] is unset.  A series of failed
    logins that brings the count to 4 or less leaves [locked_until]
    unset, so any series of at most 4 on a count of 0; the failure that
    brings the count to 5 sets it. *)
Theorem failed_password_checks (E : environment) (username : string)
    (r : user_data) (s : state) :
  database s !! username = Some r ->
  (forall t, locked_until r = Some t -> (strptime t <= clock E (ticks s))%Z) ->
  (forall password rest,
     stdin s = username :: password :: rest ->
     checkpw E password (password_hash r) = false ->
     exists s' r',
       authenticate E s = Return false s' /\
       database s' !! username = Some r' /\
       db_file s' = Some (database s') /\
       failed_attempts r' = (failed_attempts (at_password_check r) + 1)%Z /\
       ((5 <= failed_attempts (at_password_check r) + 1)%Z ->
        locked_until r' =
          Some (strftime (clock E (tick_at_password_check r (ticks s))
                          + timedelta_minutes 15))) /\
       ((failed_attempts (at_password_check r) + 1 < 5)%Z -> locked_until r' = None)) /\
  (forall now : datetime,
     let stored := strftime (now + timedelta_minutes 15) in
     (strptime stored <= now + timedelta_minutes 15
      < strptime stored + microseconds_per_second)%Z) /\
  (forall passwords fuel,
     passwords <> [] ->
     (failed_attempts (at_password_check r) + Z.of_nat (length passwords) <= 4)%Z ->
     stdin s = login_lines username passwords ->
     Forall (fun password => checkpw E password (password_hash r) = false) passwords ->
     exists s' r',
       main_loop E (length passwords + S fuel) s = Some (Raise EOFError s') /\
       database s' !! username = Some r' /\
       failed_attempts r' =
         (failed_attempts (at_password_check r) + Z.of_nat (length passwords))%Z /\
       locked_until r' = None) /\
  (forall passwords fuel,
     passwords <> [] ->
     (failed_attempts (at_password_check r) + Z.of_nat (length passwords) = 5)%Z ->
     stdin s = login_lines username passwords ->
     Forall (fun password => checkpw E password (password_hash r) = false) passwords ->
     exists s' r',
       main_loop E (length passwords + S fuel) s = Some (Raise EOFError s') /\
       database s' !! username = Some r' /\
       failed_attempts r' = 5%Z /\
       locked_until r' =
         Some (strftime (clock E (tick_at_password_check r (ticks s))
                         + timedelta_minutes 15))).
Proof.
  intros Hr Hnot.
  destruct (at_password_check_unlocked r) as [Hlock0 Hhash0].
  split; [|split; [|split]].
  - intros password rest Hin Hpw.
    destruct (authenticate_failed_check E username password rest r s)
      as (s' & Hrun & _ & Hr' & Hfile & _); auto.
    eexists s', _.
    split; [exact Hrun|]. split; [exact Hr'|]. split; [exact Hfile|].
    split; [|split].
    + unfold after_failure. cbn.
      destruct (max_failed_attempts <=? failed_attempts (at_password_check r) + 1)%Z;
        reflexivity.
    + intros Hle. rewrite after_failure_reaches by exact Hle. reflexivity.
    + intros Hlt. rewrite after_failure_below by exact Hlt. exact Hlock0.
  - intros now stored. apply strftime_truncates.
  - intros passwords fuel Hne Hlen Hin Hwrong.
    destruct passwords as [|password passwords]; [congruence|].
    cbn [length] in Hlen.
    destruct (main_loop_failed_checks E username password passwords [] s r (S fuel))
      as (s' & Hloop & Hin' & Hr' & _); auto.
    { now rewrite app_nil_r. }
    { unfold max_failed_attempts. lia. }
    eexists _, _. split.
    { cbn [length Nat.add]. cbn [Nat.add] in Hloop. rewrite Hloop.
      apply main_loop_eof. exact Hin'. }
    split; [exact Hr'|]. split; [cbn [length failed_attempts set_failed_attempts]; lia|].
    exact Hlock0.
  - intros passwords fuel Hne Hlen Hin Hwrong.
    destruct (exists_last Hne) as (before & last & ->).
    rewrite length_app in Hlen. cbn [length] in Hlen.
    apply Forall_app in Hwrong. destruct Hwrong as [Hbefore Hlast].
    inversion Hlast as [|? ? Hpw _]; subst.
    unfold login_lines in Hin. rewrite flat_map_app in Hin.
    cbn [flat_map app] in Hin. fold (login_lines username before) in Hin.
    destruct before as [|password before].
    + cbn [length] in Hlen.
      destruct (authenticate_failed_check E username last [] r
                  (log (Input Prompt_choice "1")
                     (set_stdin [username; last] (print Menu s))))
        as (s1 & Hrun & Hin1 & Hr1 & _); auto.
      rewrite after_failure_reaches in Hr1 by (unfold max_failed_attempts; lia).
      eexists _, _. split.
      { cbn [app length Nat.add]. rewrite (main_loop_login E _ s _ Hin).
        rewrite Hrun. apply main_loop_eof. exact Hin1. }
      split; [exact Hr1|]. split; [cbn; lia|]. reflexivity.
    + cbn [length] in Hlen.
      destruct (main_loop_failed_checks E username password before
                  ["1"; username; last] s r (2 + fuel))
        as (s1 & Hloop & Hin1 & Hr1 & Hticks1); auto.
      { unfold max_failed_attempts. lia. }
      destruct (authenticate_wrong_password E username last []
                  (set_failed_attempts
                     (failed_attempts (at_password_check r) + 1
                      + Z.of_nat (length before)) (at_password_check r))
                  (log (Input Prompt_choice "1")
                     (set_stdin [username; last] (print Menu s1))))
        as (s2 & Hrun & Hin2 & Hr2 & _); auto.
      { cbn. rewrite Hhash0. exact Hpw. }
      rewrite after_failure_reaches in Hr2
        by (cbn; unfold max_failed_attempts; lia).
      eexists _, _. split.
      { replace (length ((password :: before) ++ [last]) + S fuel)%nat
          with (S (length before) + (2 + fuel))%nat
          by (rewrite length_app; cbn; lia).
        rewrite Hloop. cbn [Nat.add]. rewrite (main_loop_login E _ s1 _ Hin1).
        rewrite Hrun. apply main_loop_eof. exact Hin2. }
      split; [exact Hr2|]. split; [cbn; lia|].
      cbn. change (ticks (print Menu s1)) with (ticks s1). rewrite Hticks1. reflexivity.
Qed.

Lemma failed_password_checks_witness :
  exists s' r',
    main_loop (example_environment (fun _ => 2000000000%Z)) 5
      (example_state (example_record 5 (Some 901%Z))
         (login_lines "alice01" ["a"; "b"; "c"; "d"])) =
    Some (Raise EOFError s') /\
    database s' !! "alice01" = Some r' /\
    failed_attempts r' = 4%Z /\
    locked_until r' = None.
Proof.
  destruct (failed_password_checks (example_environment (fun _ => 2000000000%Z))
              "alice01" (example_record 5 (Some 901%Z))
              (example_state (example_record 5 (Some 901%Z))
                 (login_lines "alice01" ["a"; "b"; "c"; "d"])))
    as (_ & _ & Hfour & _).
  - reflexivity.
  - intros t Ht. injection Ht as <-. vm_compute. discriminate.
  - apply (Hfour ["a"; "b"; "c"; "d"] 0%nat);
      [discriminate | cbn; lia | reflexivity | repeat constructor].
Defined.

(** C1 as stated fails in three places.  The sub-second part of the
    clock is lost: the demo user fails five logins at 1.5 seconds past
    the epoch, and the lock time stored is second 901, half a second
    before the failure plus 15 minutes.  A series of at most 4 failures
    can set the lock: on a record that has no lock and a count of 4 the
    first failure sets it.  And a failure need not add one to the stored
    count: on a record with a count of 5 and a lock that has expired, a
    failure leaves a count of 1. *)
Lemma failed_password_checks_counterexample :
  (exists s' r',
     main (example_environment (fun _ => 1500000%Z)) 6
       (first_run (login_lines "user1" ["a"; "b"; "c"; "d"; "e"])) =
     Some (Raise EOFError s') /\
     database s' !! "user1" = Some r' /\
     failed_attempts r' = 5%Z /\
     locked_until r' = Some 901%Z /\
     strptime 901 <> (1500000 + timedelta_minutes 15)%Z) /\
  (exists s' r',
     main_loop (example_environment (fun _ => 0%Z)) 2
       (example_state (example_record 4 None) (login_lines "alice01" ["a"])) =
     Some (Raise EOFError s') /\
     database s' !! "alice01" = Some r' /\
     failed_attempts r' = 5%Z /\
     locked_until r' = Some 900%Z) /\
  (exists s' r',
     authenticate (example_environment (fun _ => 2000000000%Z))
       (example_state (example_record 5 (Some 901%Z)) ["alice01"; "a"]) =
     Return false s' /\
     database s' !! "alice01" = Some r' /\
     failed_attempts r' = 1%Z /\
     locked_until r' = None).
Proof.
  split; [|split].
  - eexists _, _. split; [vm_compute; reflexivity|].
    split; [vm_compute; reflexivity|].
    split; [reflexivity|]. split; [reflexivity|]. vm_compute. discriminate.
  - eexists _, _. split; [vm_compute; reflexivity|].
    split; [vm_compute; reflexivity|].
    split; reflexivity.
  - eexists _, _. split; [vm_compute; reflexivity|].
    split; [vm_compute; reflexivity|].
    split; reflexivity.
Qed.

(** ** The three code attempts *)

Ltac wrong_codes :=
  repeat match goal with
         | H : Forall _ (_ :: _) |- _ => inversion H; subst; clear H
         | H : ?c <> ?code |- context [String.eqb ?c ?code] =>
             rewrite (proj2 (String.eqb_neq c code) H)
         end.

Ltac attempts_left :=
  match goal with
  | |- context [(0 <? 2 - ?attempt)%Z] =>
      let b := eval compute in (0 <? 2 - attempt)%Z in
      change (0 <? 2 - attempt)%Z with b
  end.

Ltac run_codes :=
  repeat first [ progress wrong_codes | rewrite String.eqb_refl | attempts_left
               | progress cbn ].

Lemma login_code_attempts_match (username code : string) (wrong rest : list string)
    (s : state) :
  (length wrong < 3)%nat ->
  Forall (fun c => c <> code) wrong ->
  stdin s = (wrong ++ code :: rest)%list ->
  exists s',
    login_code_attempts username code range3 s = Return true s' /\
    stdin s' = rest /\ same_store s s'.
Proof.
  intros Hlen Hwrong Hin. rewrite range3_eq.
  destruct wrong as [|c1 [|c2 [|c3 wrong]]]; cbn in Hlen; try lia;
    cbn in Hin; cbn; unfold_flow; rewrite Hin; run_codes;
    (eexists; split; [reflexivity|]; split; [reflexivity | split; reflexivity]).
Qed.

Lemma login_code_attempts_exhausted (username code c1 c2 c3 : string)
    (rest : list string) (s : state) :
  c1 <> code -> c2 <> code -> c3 <> code ->
  stdin s = c1 :: c2 :: c3 :: rest ->
  exists s',
    login_code_attempts username code range3 s = Return false s' /\
    stdin s' = rest /\ same_store s s'.
Proof.
  intros H1 H2 H3 Hin. rewrite range3_eq. cbn. unfold_flow. rewrite Hin. cbn.
  run_codes.
  eexists. split; [reflexivity|]. split; [reflexivity | split; reflexivity].
Qed.

Lemma register_code_attempts_match (code : string) (wrong rest : list string)
    (s : state) :
  (length wrong < 3)%nat ->
  Forall (fun c => c <> code) wrong ->
  stdin s = (wrong ++ code :: rest)%list ->
  exists s',
    register_code_attempts code range3 s = Return true s' /\
    stdin s' = rest /\ same_store s s' /\
    ticks s' = ticks s /\ salts s' = salts s.
Proof.
  intros Hlen Hwrong Hin. rewrite range3_eq.
  destruct wrong as [|c1 [|c2 [|c3 wrong]]]; cbn in Hlen; try lia;
    cbn in Hin; cbn; unfold_flow; rewrite Hin; run_codes;
    (eexists; split; [reflexivity|]; split; [reflexivity|];
     split; [split; reflexivity|]; split; reflexivity).
Qed.

Lemma register_code_attempts_exhausted (code c1 c2 c3 : string)
    (rest : list string) (s : state) :
  c1 <> code -> c2 <> code -> c3 <> code ->
  stdin s = c1 :: c2 :: c3 :: rest ->
  exists s',
    register_code_attempts code range3 s = Return false s' /\
    stdin s' = rest /\ same_store s s'.
Proof.
  intros H1 H2 H3 Hin. rewrite range3_eq. cbn. unfold_flow. rewrite Hin. cbn.
  run_codes.
  eexists. split; [reflexivity|]. split; [reflexivity | split; reflexivity].
Qed.

(** ** Login: the second factor *)

(** With the right password the flow reaches its second-factor phase in
    a state where the counter is 0 in the database and the file is a copy
    of the database. *)
Lemma authenticate_correct_password (E : environment) (username password : string)
    (rest : list string) (r : user_data) (s : state) :
  stdin s = username :: password :: rest ->
  database s !! username = Some r ->
  locked_until r = None ->
  checkpw E password (password_hash r) = true ->
  exists s1,
    authenticate E s =
      (let* verification_code :=
         send_verification_code E (email r) (Some username) in
       login_code_attempts username verification_code range3) s1 /\
    database s1 !! username = Some (set_failed_attempts 0 r) /\
    (forall other, other <> username -> database s1 !! other = database s !! other) /\
    db_file s1 = Some (database s1) /\
    stdin s1 = rest /\ draws s1 = draws s.
Proof.
  intros Hin Hr Hlock Hpw.
  unfold authenticate. unfold_flow. cbn. rewrite Hin. cbn. rewrite Hr. cbn.
  unfold check_account_lockout. cbn. rewrite Hr, Hlock. cbn. rewrite Hr. cbn.
  rewrite Hpw. cbn.
  eexists. split; [reflexivity|]. cbn.
  split; [now rewrite lookup_alter_eq, Hr|].
  split; [intros other Hne; now rewrite lookup_alter_ne by congruence|].
  repeat split.
Qed.

Lemma authenticate_codes_exhausted (E : environment) (username password c1 c2 c3 : string)
    (rest : list string) (r : user_data) (s : state) :
  stdin s = username :: password :: c1 :: c2 :: c3 :: rest ->
  database s !! username = Some r ->
  locked_until r = None ->
  checkpw E password (password_hash r) = true ->
  c1 <> random_digits E 6 (draws s) ->
  c2 <> random_digits E 6 (draws s) ->
  c3 <> random_digits E 6 (draws s) ->
  exists s',
    authenticate E s = Return false s' /\
    stdin s' = rest /\
    database s' !! username = Some (set_failed_attempts 0 r) /\
    db_file s' = Some (database s').
Proof.
  intros Hin Hr Hlock Hpw H1 H2 H3.
  destruct (authenticate_correct_password E username password
              (c1 :: c2 :: c3 :: rest) r s)
    as (s1 & Hrun & Hr1 & _ & Hfile1 & Hin1 & Hdraws1); auto.
  destruct (send_verification_code_returns E (email r) (Some username) s1)
    as (s2 & Hsend & [Hdb2 Hfile2] & Hin2 & _).
  destruct (login_code_attempts_exhausted username
              (random_digits E 6 (draws s)) c1 c2 c3 rest s2)
    as (s3 & Hloop & Hin3 & [Hdb3 Hfile3]); auto.
  { now rewrite Hin2. }
  exists s3. split.
  - rewrite Hrun. unfold bind. rewrite Hsend, Hdraws1. exact Hloop.
  - split; [exact Hin3|]. rewrite Hdb3, Hfile3, Hdb2, Hfile2. auto.
Qed.

(** C7. When the password of an unlocked account is right, the flow sets
    [failed_attempts] to 0 and saves the database, and only then begins
    the second-factor phase; however that phase ends, the record in the
    database and in the file is the old record with the counter at 0;
    and when three wrong codes are typed the flow returns [False]. *)
Theorem second_factor_failure_keeps_counter (E : environment)
    (username password : string) (rest : list string) (r : user_data) (s : state) :
  stdin s = username :: password :: rest ->
  database s !! username = Some r ->
  locked_until r = None ->
  checkpw E password (password_hash r) = true ->
  (exists s1,
     authenticate E s =
       (let* verification_code :=
          send_verification_code E (email r) (Some username) in
        login_code_attempts username verification_code range3) s1 /\
     database s1 !! username = Some (set_failed_attempts 0 r) /\
     db_file s1 = Some (database s1)) /\
  (let s' := outcome_state (authenticate E s) in
   database s' !! username = Some (set_failed_attempts 0 r) /\
   db_file s' = Some (database s')) /\
  (forall c1 c2 c3 rest',
     rest = c1 :: c2 :: c3 :: rest' ->
     c1 <> random_digits E 6 (draws s) ->
     c2 <> random_digits E 6 (draws s) ->
     c3 <> random_digits E 6 (draws s) ->
     exists s',
       authenticate E s = Return false s' /\
       stdin s' = rest' /\
       database s' !! username = Some (set_failed_attempts 0 r) /\
       db_file s' = Some (database s')).
Proof.
  intros Hin Hr Hlock Hpw.
  destruct (authenticate_correct_password E username password rest r s)
    as (s1 & Hrun & Hr1 & _ & Hfile1 & Hin1 & Hdraws1); auto.
  destruct (send_verification_code_returns E (email r) (Some username) s1)
    as (s2 & Hsend & [Hdb2 Hfile2] & Hin2 & _).
  split; [exists s1; auto|]. split.
  - rewrite Hrun. unfold bind. rewrite Hsend.
    destruct (login_code_attempts_store username
                (random_digits E 6 (draws s1)) range3 s2) as [Hdb3 Hfile3].
    cbn zeta. rewrite Hdb3, Hfile3, Hdb2, Hfile2. auto.
  - intros c1 c2 c3 rest' -> H1 H2 H3.
    now apply (authenticate_codes_exhausted E username password c1 c2 c3 rest' r s).
Qed.

Lemma second_factor_failure_keeps_counter_witness :
  exists s',
    authenticate (example_environment (fun _ => 0%Z))
      (example_state (example_record 3 None)
         ["alice01"; "Passw0rd"; "111111"; "222222"; "333333"]) =
    Return false s' /\
    stdin s' = [] /\
    database s' !! "alice01" = Some (example_record 0 None) /\
    db_file s' = Some (database s').
Proof.
  destruct (second_factor_failure_keeps_counter
              (example_environment (fun _ => 0%Z)) "alice01" "Passw0rd"
              ["111111"; "222222"; "333333"] (example_record 3 None)
              (example_state (example_record 3 None)
                 ["alice01"; "Passw0rd"; "111111"; "222222"; "333333"])
              eq_refl eq_refl eq_refl eq_refl) as (_ & _ & Hthree).
  apply (Hthree "111111" "222222" "333333" []); [reflexivity | | | ];
    vm_compute; discriminate.
Defined.

(** ** Registration *)

Lemma bind_Return {A B} (m : M A) (k : A -> M B) (s s1 : state) (a : A) :
  m s = Return a s1 -> bind m k s = k a s1.
Proof. intros H. unfold bind. now rewrite H. Qed.

Lemma bind_Raise {A B} (m : M A) (k : A -> M B) (s s1 : state) (e : exn) :
  m s = Raise e s1 -> bind m k s = Raise e s1.
Proof. intros H. unfold bind. now rewrite H. Qed.

Lemma register_username_loop_accepts (username : string) (rest : list string)
    (s : state) :
  username_accepted (database s) username ->
  register_username_loop (username :: rest) s =
  Return username (log (Input Prompt_register_username username) (set_stdin rest s)).
Proof.
  intros (Hlen & Hre & Hfree). cbn [register_username_loop].
  rewrite Hlen, Hre.
  change (database (log (Input Prompt_register_username username) (set_stdin rest s)))
    with (database s).
  rewrite Hfree. reflexivity.
Qed.

Lemma register_email_loop_accepts (E : environment) (email : string)
    (rest : list string) (s : state) :
  email_accepted E email ->
  register_email_loop E (email :: rest) s =
  (act (print Sending_verification_code);;
   let* verification_code := send_verification_code E email None in
   let* verified := register_code_attempts verification_code range3 in
   ret (if verified then Some email else None))
    (log (Input Prompt_email email) (set_stdin rest s)).
Proof.
  intros Hemail. cbn [register_email_loop]. rewrite Hemail. reflexivity.
Qed.

(** The email loop on an accepted address, given what the three code
    attempts do. *)
Lemma register_email_loop_verifies (E : environment) (email : string)
    (rest : list string) (s s2 s3 : state) (verified : bool) :
  email_accepted E email ->
  send_verification_code E email None
    (print Sending_verification_code
       (log (Input Prompt_email email) (set_stdin rest s))) =
    Return (random_digits E 6 (draws s)) s2 ->
  register_code_attempts (random_digits E 6 (draws s)) range3 s2 =
    Return verified s3 ->
  register_email_loop E (email :: rest) s =
  Return (if verified then Some email else None) s3.
Proof.
  intros Hemail Hsend Hcodes.
  rewrite register_email_loop_accepts by exact Hemail.
  erewrite bind_Return by reflexivity.
  erewrite bind_Return by exact Hsend.
  erewrite bind_Return by exact Hcodes.
  reflexivity.
Qed.

Lemma register_user_exhausted (E : environment) (username email c1 c2 c3 : string)
    (rest : list string) (s : state) :
  stdin s = username :: email :: c1 :: c2 :: c3 :: rest ->
  username_accepted (database s) username ->
  email_accepted E email ->
  c1 <> random_digits E 6 (draws s) ->
  c2 <> random_digits E 6 (draws s) ->
  c3 <> random_digits E 6 (draws s) ->
  exists s',
    register_user E s = Return false s' /\ same_store s s' /\ stdin s' = rest.
Proof.
  intros Hin Huser Hemail H1 H2 H3.
  destruct (send_verification_code_returns E email None
              (print Sending_verification_code
                 (log (Input Prompt_email email)
                    (set_stdin (c1 :: c2 :: c3 :: rest)
                       (log (Input Prompt_register_username username)
                          (set_stdin (email :: c1 :: c2 :: c3 :: rest)
                             (print Banner_registration s)))))))
    as (s2 & Hsend & Hstore2 & Hin2 & _).
  destruct (register_code_attempts_exhausted (random_digits E 6 (draws s))
              c1 c2 c3 rest s2) as (s3 & Hcodes & Hin3 & Hstore3); auto.
  exists s3. split.
  - unfold register_user.
    rewrite (bind_Return _ _ s (print Banner_registration s) tt) by reflexivity.
    erewrite bind_Return.
    2:{ change (stdin (print Banner_registration s)) with (stdin s). rewrite Hin.
        apply register_username_loop_accepts. exact Huser. }
    erewrite bind_Return.
    2:{ cbn beta.
        change (stdin (log (Input Prompt_register_username username) _))
          with (email :: c1 :: c2 :: c3 :: rest).
        eapply register_email_loop_verifies; [exact Hemail | exact Hsend | exact Hcodes]. }
    reflexivity.
  - split; [|exact Hin3].
    eapply same_store_trans; [|exact Hstore3].
    eapply same_store_trans; [|exact Hstore2]. split; reflexivity.
Qed.

Lemma password_loop_accepts (ask confirm : prompt) (password : string)
    (rest : list string) (s : state) :
  password_violation password = None ->
  password_loop ask confirm (password :: password :: rest) s =
  Return password
    (log (Getpass confirm password)
       (set_stdin rest (log (Getpass ask password) (set_stdin (password :: rest) s)))).
Proof.
  intros Hv. cbn [password_loop]. rewrite Hv. now rewrite String.eqb_refl.
Qed.

Lemma register_user_verified (E : environment) (username email password : string)
    (wrong rest : list string) (s : state) :
  stdin s = username :: email ::
              (wrong ++ random_digits E 6 (draws s) :: password :: password :: rest)%list ->
  username_accepted (database s) username ->
  email_accepted E email ->
  (length wrong < 3)%nat ->
  Forall (fun c => c <> random_digits E 6 (draws s)) wrong ->
  password_violation password = None ->
  exists s',
    register_user E s = Return true s' /\
    stdin s' = rest /\
    database s' =
      <[username := mk_user_data (hashpw E password (gensalt E (salts s))) email 0 None
                      (strftime (clock E (ticks s)))]> (database s) /\
    db_file s' = Some (database s').
Proof.
  intros Hin Huser Hemail Hlen Hwrong Hvalid.
  set (code := random_digits E 6 (draws s)) in *.
  set (tail := (wrong ++ code :: password :: password :: rest)%list) in *.
  destruct (send_verification_code_returns E email None
              (print Sending_verification_code
                 (log (Input Prompt_email email)
                    (set_stdin tail
                       (log (Input Prompt_register_username username)
                          (set_stdin (email :: tail)
                             (print Banner_registration s)))))))
    as (s2 & Hsend & [Hdb2 Hfile2] & Hin2 & Hticks2 & Hsalts2 & _).
  destruct (register_code_attempts_match code wrong (password :: password :: rest) s2)
    as (s3 & Hcodes & Hin3 & [Hdb3 Hfile3] & Hticks3 & Hsalts3); auto.
  eexists. split.
  - unfold register_user.
    rewrite (bind_Return _ _ s (print Banner_registration s) tt) by reflexivity.
    erewrite bind_Return.
    2:{ change (stdin (print Banner_registration s)) with (stdin s). rewrite Hin.
        apply register_username_loop_accepts. exact Huser. }
    erewrite bind_Return.
    2:{ cbn beta.
        change (stdin (log (Input Prompt_register_username username) _))
          with (email :: tail).
        eapply register_email_loop_verifies; [exact Hemail | exact Hsend | exact Hcodes]. }
    cbn iota beta.
    erewrite bind_Return.
    2:{ cbn beta. rewrite Hin3. apply password_loop_accepts. exact Hvalid. }
    unfold_flow. reflexivity.
  - cbn. rewrite Hsalts3, Hsalts2, Hticks3, Hticks2, Hdb3, Hdb2. cbn.
    repeat split.
Qed.

(** ** Password reset *)

Lemma input_cons (p : prompt) (line : string) (rest : list string) (s : state) :
  stdin s = line :: rest ->
  input p s = Return line (log (Input p line) (set_stdin rest s)).
Proof. intros H. unfold input. now rewrite H. Qed.

Lemma known_user_Some (username : string) (r : user_data) (s : state) :
  database s !! username = Some r -> known_user username s = Return true s.
Proof. intros H. unfold known_user. now rewrite H. Qed.

Lemma known_user_None (username : string) (s : state) :
  database s !! username = None -> known_user username s = Return false s.
Proof. intros H. unfold known_user. now rewrite H. Qed.

Lemma lookup_user_Some (username : string) (r : user_data) (s : state) :
  database s !! username = Some r -> lookup_user username s = Return r s.
Proof. intros H. unfold lookup_user. now rewrite H. Qed.

(** The lockout check on an account that is not locked: it returns
    [False], and the record it leaves has no lock. *)
Lemma check_account_lockout_passes (E : environment) (username : string)
    (r : user_data) (s : state) :
  database s !! username = Some r ->
  (forall t, locked_until r = Some t -> (strptime t <= clock E (ticks s))%Z) ->
  exists s1 r1,
    check_account_lockout E username s = Return false s1 /\
    database s1 !! username = Some r1 /\
    (forall other, other <> username -> database s1 !! other = database s !! other) /\
    password_hash r1 = password_hash r /\
    email r1 = email r /\
    registered_on r1 = registered_on r /\
    locked_until r1 = None /\
    stdin s1 = stdin s /\ draws s1 = draws s /\ salts s1 = salts s.
Proof.
  intros Hr Hnot. unfold check_account_lockout. rewrite Hr.
  destruct (locked_until r) as [t|] eqn:Hlock.
  - specialize (Hnot t eq_refl). apply Z.ltb_ge in Hnot.
    unfold_flow. cbn. rewrite Hnot. cbn.
    eexists _, _. split; [reflexivity|]. cbn.
    split; [apply alter_alter_lookup; exact Hr|].
    split; [intros other Hne; now rewrite !lookup_alter_ne by congruence|].
    repeat split.
  - exists s, r. split; [reflexivity|]. repeat split; auto.
Qed.

Lemma reset_password_unknown (E : environment) (username : string)
    (rest : list string) (s : state) :
  stdin s = username :: rest ->
  database s !! username = None ->
  reset_password E s =
  Return false
    (print Username_doesnt_exist
       (log (Input Prompt_reset_username username)
          (set_stdin rest (print Banner_reset s)))).
Proof.
  intros Hin Hnone. unfold reset_password.
  rewrite (bind_Return _ _ s (print Banner_reset s) tt) by reflexivity.
  erewrite bind_Return by (apply input_cons; exact Hin).
  erewrite bind_Return by (apply known_user_None; exact Hnone).
  reflexivity.
Qed.

Lemma reset_password_locked (E : environment) (username : string)
    (rest : list string) (r : user_data) (t : Z) (s : state) :
  stdin s = username :: rest ->
  database s !! username = Some r ->
  locked_until r = Some t ->
  (clock E (ticks s) < strptime t)%Z ->
  exists s',
    reset_password E s = Return false s' /\
    same_store s s' /\
    stdin s' = rest /\
    draws s' = draws s /\
    trace s' =
      (trace s ++
         [Print Banner_reset;
          Input Prompt_reset_username username;
          Print (Account_is_locked (strptime t - clock E (S (ticks s)))%Z)])%list.
Proof.
  intros Hin Hr Hlock Hnow. apply Z.ltb_lt in Hnow.
  unfold reset_password.
  rewrite (bind_Return _ _ s (print Banner_reset s) tt) by reflexivity.
  erewrite bind_Return by (apply input_cons; exact Hin).
  erewrite bind_Return by (eapply known_user_Some; exact Hr).
  cbn [negb].
  erewrite bind_Return.
  2:{ unfold check_account_lockout. cbn. rewrite Hr, Hlock. unfold_flow. cbn.
      rewrite Hnow. reflexivity. }
  eexists. split; [reflexivity|]. cbn.
  split; [split; reflexivity|]. split; [reflexivity|]. split; [reflexivity|].
  now rewrite <- !app_assoc.
Qed.

(** The reset flow of an account that is not locked reaches its single
    code attempt. *)
Lemma reset_password_asks_code (E : environment) (username : string)
    (rest : list string) (r : user_data) (s : state) :
  stdin s = username :: rest ->
  database s !! username = Some r ->
  (forall t, locked_until r = Some t -> (strptime t <= clock E (ticks s))%Z) ->
  exists s2 r1,
    reset_password E s =
      (let* user_code := input Prompt_verification_code in
       if negb (String.eqb user_code (random_digits E 6 (draws s))) then
         act (print Invalid_verification_code);;
         ret false
       else
         let* new_password :=
           (fun s => password_loop Prompt_new_password Prompt_confirm_new_password
                       (stdin s) s) in
         let* salt := bcrypt_gensalt E in
         let* hashed_password := bcrypt_hashpw E new_password salt in
         mutate username (set_password_hash hashed_password);;
         mutate username (set_failed_attempts 0);;
         mutate username (set_locked_until None);;
         save_database;;
         act (print Password_reset_successful);;
         ret true) s2 /\
    stdin s2 = rest /\
    salts s2 = salts s /\
    database s2 !! username = Some r1 /\
    (forall other, other <> username -> database s2 !! other = database s !! other) /\
    email r1 = email r /\
    registered_on r1 = registered_on r /\
    (locked_until r = None -> same_store s s2).
Proof.
  intros Hin Hr Hnot.
  destruct (check_account_lockout_passes E username r
              (log (Input Prompt_reset_username username)
                 (set_stdin rest (print Banner_reset s))))
    as (s1 & r1 & Hcheck & Hr1 & Hother1 & _ & Hemail & Hreg & _ & Hin1 & Hdraws1 & Hsalts1);
    auto.
  destruct (send_verification_code_returns E (email r1) None s1)
    as (s2 & Hsend & [Hdb2 Hfile2] & Hin2 & _ & Hsalts2 & _).
  exists s2, r1. split.
  - unfold reset_password.
    rewrite (bind_Return _ _ s (print Banner_reset s) tt) by reflexivity.
    erewrite bind_Return by (apply input_cons; exact Hin).
    erewrite bind_Return by (eapply known_user_Some; exact Hr).
    cbn [negb].
    erewrite bind_Return by exact Hcheck.
    cbn iota beta.
    erewrite bind_Return by (apply lookup_user_Some; exact Hr1).
    cbn iota beta zeta.
    erewrite bind_Return by exact Hsend.
    rewrite Hdraws1. reflexivity.
  - assert (Hsame : locked_until r = None -> same_store s s1).
    { intros Hnone. unfold check_account_lockout in Hcheck.
      cbn in Hcheck. rewrite Hr, Hnone in Hcheck. inversion Hcheck.
      split; reflexivity. }
    split; [now rewrite Hin2, Hin1|]. split; [now rewrite Hsalts2, Hsalts1|].
    split; [now rewrite Hdb2|].
    split; [intros other Hne; rewrite Hdb2; now apply Hother1|].
    split; [exact Hemail|]. split; [exact Hreg|].
    intros Hnone. eapply same_store_trans; [apply Hsame; exact Hnone|].
    split; assumption.
Qed.

Lemma reset_password_wrong_code (E : environment) (username user_code : string)
    (rest : list string) (r : user_data) (s : state) :
  stdin s = username :: user_code :: rest ->
  database s !! username = Some r ->
  (forall t, locked_until r = Some t -> (strptime t <= clock E (ticks s))%Z) ->
  user_code <> random_digits E 6 (draws s) ->
  exists s',
    reset_password E s = Return false s' /\
    stdin s' = rest /\
    (locked_until r = None -> same_store s s').
Proof.
  intros Hin Hr Hnot Hwrong.
  destruct (reset_password_asks_code E username (user_code :: rest) r s)
    as (s2 & r1 & Hrun & Hin2 & _ & _ & _ & _ & _ & Hsame); auto.
  eexists. split.
  - rewrite Hrun.
    erewrite bind_Return by (apply input_cons; exact Hin2).
    rewrite (proj2 (String.eqb_neq _ _) Hwrong). cbn [negb].
    reflexivity.
  - cbn. split; [reflexivity|].
    intros Hnone. destruct (Hsame Hnone) as [Hdb Hfile]. split; assumption.
Qed.

Lemma reset_password_succeeds (E : environment) (username new_password : string)
    (rest : list string) (r : user_data) (s : state) :
  stdin s = username :: random_digits E 6 (draws s) ::
              new_password :: new_password :: rest ->
  database s !! username = Some r ->
  (forall t, locked_until r = Some t -> (strptime t <= clock E (ticks s))%Z) ->
  password_violation new_password = None ->
  exists s',
    reset_password E s = Return true s' /\
    stdin s' = rest /\
    database s' !! username =
      Some (mk_user_data (hashpw E new_password (gensalt E (salts s)))
              (email r) 0 None (registered_on r)) /\
    (forall other, other <> username -> database s' !! other = database s !! other) /\
    db_file s' = Some (database s').
Proof.
  intros Hin Hr Hnot Hvalid.
  destruct (reset_password_asks_code E username
              (random_digits E 6 (draws s) :: new_password :: new_password :: rest) r s)
    as (s2 & r1 & Hrun & Hin2 & Hsalts2 & Hr2 & Hother2 & Hemail & Hreg & _); auto.
  eexists. split.
  - rewrite Hrun.
    erewrite bind_Return by (apply input_cons; exact Hin2).
    rewrite String.eqb_refl. cbn [negb].
    erewrite bind_Return.
    2:{ cbn beta. apply password_loop_accepts. exact Hvalid. }
    unfold_flow. reflexivity.
  - cbn. split; [reflexivity|]. split.
    + rewrite !lookup_alter_eq, Hr2. cbn.
      unfold set_locked_until, set_failed_attempts, set_password_hash. cbn.
      rewrite Hsalts2, Hemail, Hreg. reflexivity.
    + split; [|reflexivity].
      intros other Hne. rewrite !lookup_alter_ne by congruence. now apply Hother2.
Qed.

(** The registration flow either returns [True] or leaves database and
    file as they were. *)
Lemma register_user_store (E : environment) (s : state) :
  (exists s', register_user E s = Return true s') \/
  same_store s (outcome_state (register_user E s)).
Proof.
  unfold register_user, bind. cbn [act].
  pose proof (register_username_loop_store (stdin (print Banner_registration s))
                (print Banner_registration s)) as H1.
  destruct (register_username_loop _ _) as [username s1 | e s1]; cbn in H1;
    [|right; eapply same_store_trans; [|exact H1]; split; reflexivity].
  pose proof (register_email_loop_store E (stdin s1) s1) as H2.
  destruct (register_email_loop E (stdin s1) s1) as [[email|] s2 | e s2]; cbn in H2;
    try (right; eapply same_store_trans; [|exact H2];
         eapply same_store_trans; [|exact H1]; split; reflexivity).
  pose proof (password_loop_store Prompt_create_password Prompt_confirm_password
                (stdin s2) s2) as H3.
  destruct (password_loop _ _ (stdin s2) s2) as [password s3 | e s3]; cbn in H3.
  - left. unfold_flow. eexists. reflexivity.
  - right. eapply same_store_trans; [|exact H3].
    eapply same_store_trans; [|exact H2].
    eapply same_store_trans; [|exact H1]. split; reflexivity.
Qed.

(** ** The attempts each flow allows *)

Lemma authenticate_code_matches (E : environment) (username password : string)
    (wrong rest : list string) (r : user_data) (s : state) :
  stdin s = username :: password ::
              (wrong ++ random_digits E 6 (draws s) :: rest)%list ->
  database s !! username = Some r ->
  locked_until r = None ->
  checkpw E password (password_hash r) = true ->
  (length wrong < 3)%nat ->
  Forall (fun c => c <> random_digits E 6 (draws s)) wrong ->
  exists s', authenticate E s = Return true s' /\ stdin s' = rest.
Proof.
  intros Hin Hr Hlock Hpw Hlen Hwrong.
  destruct (authenticate_correct_password E username password
              (wrong ++ random_digits E 6 (draws s) :: rest)%list r s)
    as (s1 & Hrun & _ & _ & _ & Hin1 & Hdraws1); auto.
  destruct (send_verification_code_returns E (email r) (Some username) s1)
    as (s2 & Hsend & _ & Hin2 & _).
  destruct (login_code_attempts_match username (random_digits E 6 (draws s))
              wrong rest s2) as (s3 & Hloop & Hin3 & _); auto.
  { now rewrite Hin2. }
  exists s3. split; [|exact Hin3].
  rewrite Hrun. erewrite bind_Return by exact Hsend.
  rewrite Hdraws1. exact Hloop.
Qed.

(** C2 (as amended: the reset flow allows one attempt). In registration
    and in login the user has up to 3 attempts to type the code that was
    issued: a match within the first 3 lines succeeds (login returns
    [True]; registration goes on to the password and creates the account)
    and 3 wrong codes make the flow return [False].  In password reset the
    user has a single attempt: the right code lets the flow go on to the
    new password, one wrong code makes it return [False]. *)
Theorem verification_attempts (E : environment) (s : state) :
  let code := random_digits E 6 (draws s) in
  (forall username password wrong rest r,
     stdin s = username :: password :: (wrong ++ code :: rest)%list ->
     database s !! username = Some r ->
     locked_until r = None ->
     checkpw E password (password_hash r) = true ->
     (length wrong < 3)%nat ->
     Forall (fun c => c <> code) wrong ->
     exists s', authenticate E s = Return true s' /\ stdin s' = rest) /\
  (forall username password c1 c2 c3 rest r,
     stdin s = username :: password :: c1 :: c2 :: c3 :: rest ->
     database s !! username = Some r ->
     locked_until r = None ->
     checkpw E password (password_hash r) = true ->
     c1 <> code -> c2 <> code -> c3 <> code ->
     exists s', authenticate E s = Return false s' /\ stdin s' = rest) /\
  (forall username email password wrong rest,
     stdin s = username :: email ::
                 (wrong ++ code :: password :: password :: rest)%list ->
     username_accepted (database s) username ->
     email_accepted E email ->
     (length wrong < 3)%nat ->
     Forall (fun c => c <> code) wrong ->
     password_violation password = None ->
     exists s',
       register_user E s = Return true s' /\ stdin s' = rest /\
       is_Some (database s' !! username)) /\
  (forall username email c1 c2 c3 rest,
     stdin s = username :: email :: c1 :: c2 :: c3 :: rest ->
     username_accepted (database s) username ->
     email_accepted E email ->
     c1 <> code -> c2 <> code -> c3 <> code ->
     exists s', register_user E s = Return false s' /\ stdin s' = rest) /\
  (forall username new_password rest r,
     stdin s = username :: code :: new_password :: new_password :: rest ->
     database s !! username = Some r ->
     locked_until r = None ->
     password_violation new_password = None ->
     exists s', reset_password E s = Return true s' /\ stdin s' = rest) /\
  (forall username user_code rest r,
     stdin s = username :: user_code :: rest ->
     database s !! username = Some r ->
     locked_until r = None ->
     user_code <> code ->
     exists s', reset_password E s = Return false s' /\ stdin s' = rest).
Proof.
  intros code. repeat split.
  - intros. eapply authenticate_code_matches; eauto.
  - intros username password c1 c2 c3 rest r Hin Hr Hlock Hpw H1 H2 H3.
    destruct (authenticate_codes_exhausted E username password c1 c2 c3 rest r s)
      as (s' & Hrun & Hin' & _); auto.
    exists s'. auto.
  - intros username email password wrong rest Hin Huser Hemail Hlen Hwrong Hvalid.
    destruct (register_user_verified E username email password wrong rest s)
      as (s' & Hrun & Hin' & Hdb & _); auto.
    exists s'. split; [exact Hrun|]. split; [exact Hin'|].
    rewrite Hdb, lookup_insert_eq. eauto.
  - intros username email c1 c2 c3 rest Hin Huser Hemail H1 H2 H3.
    destruct (register_user_exhausted E username email c1 c2 c3 rest s)
      as (s' & Hrun & _ & Hin'); auto.
    exists s'. auto.
  - intros username new_password rest r Hin Hr Hlock Hvalid.
    destruct (reset_password_succeeds E username new_password rest r s)
      as (s' & Hrun & Hin' & _); auto.
    { intros t Ht. congruence. }
    exists s'. auto.
  - intros username user_code rest r Hin Hr Hlock Hwrong.
    destruct (reset_password_wrong_code E username user_code rest r s)
      as (s' & Hrun & Hin' & _); auto.
    { intros t Ht. congruence. }
    exists s'. auto.
Qed.

Lemma verification_attempts_witness :
  exists s',
    authenticate (example_environment (fun _ => 0%Z))
      (example_state (example_record 0 None)
         ["alice01"; "Passw0rd"; "111111"; "222222"; "012345"; "4"]) =
    Return true s' /\
    stdin s' = ["4"].
Proof.
  destruct (verification_attempts (example_environment (fun _ => 0%Z))
              (example_state (example_record 0 None)
                 ["alice01"; "Passw0rd"; "111111"; "222222"; "012345"; "4"]))
    as (Hlogin & _).
  apply (Hlogin "alice01" "Passw0rd" ["111111"; "222222"] ["4"]
           (example_record 0 None));
    try reflexivity; [cbn; lia|].
  repeat constructor; vm_compute; discriminate.
Defined.

(** C2 as stated fails for password reset: after one wrong code the
    flow returns [False]; the next line, which is the code that was
    issued, is never read. *)
Lemma reset_password_single_attempt :
  exists s',
    reset_password (example_environment (fun _ => 0%Z))
      (example_state (example_record 0 None)
         ["alice01"; "000000"; "012345"; "NewPassw0rd"; "NewPassw0rd"]) =
    Return false s' /\
    stdin s' = ["012345"; "NewPassw0rd"; "NewPassw0rd"] /\
    random_digits (example_environment (fun _ => 0%Z)) 6 0 = "012345" /\
    database s' !! "alice01" = Some (example_record 0 None).
Proof.
  eexists. split; [vm_compute; reflexivity|].
  split; [reflexivity|]. split; [reflexivity|]. vm_compute. reflexivity.
Qed.

(** ** Registration without verification *)

(** C8. When the three code attempts of the registration flow are used
    up without a match, the flow returns [False] and database and file
    are what they were before the flow started; and whenever the
    registration flow returns [False], or ends in an exception, no record
    was created or saved. *)
Theorem registration_without_verification (E : environment) (s : state) :
  (forall username email c1 c2 c3 rest,
     stdin s = username :: email :: c1 :: c2 :: c3 :: rest ->
     username_accepted (database s) username ->
     email_accepted E email ->
     c1 <> random_digits E 6 (draws s) ->
     c2 <> random_digits E 6 (draws s) ->
     c3 <> random_digits E 6 (draws s) ->
     exists s',
       register_user E s = Return false s' /\
       database s' = database s /\ db_file s' = db_file s) /\
  (forall s',
     register_user E s = Return false s' ->
     database s' = database s /\ db_file s' = db_file s) /\
  (forall e s',
     register_user E s = Raise e s' ->
     database s' = database s /\ db_file s' = db_file s).
Proof.
  split; [|split].
  - intros username email c1 c2 c3 rest Hin Huser Hemail H1 H2 H3.
    destruct (register_user_exhausted E username email c1 c2 c3 rest s)
      as (s' & Hrun & [Hdb Hfile] & _); auto.
    exists s'. auto.
  - intros s' Hrun. destruct (register_user_store E s) as [(s'' & Htrue) | Hsame].
    + congruence.
    + rewrite Hrun in Hsame. exact Hsame.
  - intros e s' Hrun. destruct (register_user_store E s) as [(s'' & Htrue) | Hsame].
    + congruence.
    + rewrite Hrun in Hsame. exact Hsame.
Qed.

Lemma registration_without_verification_witness :
  exists s',
    register_user (example_environment (fun _ => 0%Z))
      (example_state (example_record 0 None)
         ["bob_02"; "b@x.org"; "111111"; "222222"; "333333"]) =
    Return false s' /\
    database s' = {["alice01" := example_record 0 None]} /\
    db_file s' = Some {["alice01" := example_record 0 None]}.
Proof.
  destruct (registration_without_verification (example_environment (fun _ => 0%Z))
              (example_state (example_record 0 None)
                 ["bob_02"; "b@x.org"; "111111"; "222222"; "333333"]))
    as (Hthree & _).
  apply (Hthree "bob_02" "b@x.org" "111111" "222222" "333333" []);
    try reflexivity; try (vm_compute; discriminate).
  repeat split; vm_compute; reflexivity.
Defined.

(** ** The contract of password reset *)

(** C9. The reset flow returns [False] for a username that is not in the
    database.  For a locked account it returns [False] before a code is
    drawn or sent: the random generator is not read, nothing but the
    banner, the prompt and the lock message is printed, and database and
    file stay as they were.  For an account that is not locked, the right
    code followed by a valid new password typed twice makes the flow
    return [True] with the new hash stored, [failed_attempts] at 0 and
    [locked_until] unset, whatever they were, and the database saved. *)
Theorem reset_password_contract (E : environment) (username : string)
    (rest : list string) (s : state) :
  stdin s = username :: rest ->
  (database s !! username = None ->
   exists s',
     reset_password E s = Return false s' /\
     same_store s s' /\ stdin s' = rest /\ draws s' = draws s) /\
  (forall r t,
     database s !! username = Some r ->
     locked_until r = Some t ->
     (clock E (ticks s) < strptime t)%Z ->
     exists s',
       reset_password E s = Return false s' /\
       same_store s s' /\
       stdin s' = rest /\
       draws s' = draws s /\
       trace s' =
         (trace s ++
            [Print Banner_reset;
             Input Prompt_reset_username username;
             Print (Account_is_locked (strptime t - clock E (S (ticks s)))%Z)])%list) /\
  (forall r new_password rest',
     database s !! username = Some r ->
     (forall t, locked_until r = Some t -> (strptime t <= clock E (ticks s))%Z) ->
     rest = random_digits E 6 (draws s) :: new_password :: new_password :: rest' ->
     password_violation new_password = None ->
     exists s',
       reset_password E s = Return true s' /\
       stdin s' = rest' /\
       database s' !! username =
         Some (mk_user_data (hashpw E new_password (gensalt E (salts s)))
                 (email r) 0 None (registered_on r)) /\
       (forall other, other <> username ->
          database s' !! other = database s !! other) /\
       db_file s' = Some (database s')).
Proof.
  intros Hin. split; [|split].
  - intros Hnone. eexists. split; [apply reset_password_unknown; eassumption|].
    cbn. repeat split.
  - intros r t Hr Hlock Hnow. now apply (reset_password_locked E username rest r t s).
  - intros r new_password rest' Hr Hnot -> Hvalid.
    now apply (reset_password_succeeds E username new_password rest' r s).
Qed.

Lemma reset_password_contract_witness :
  exists s',
    reset_password (example_environment (fun _ => 2000000000%Z))
      (example_state (example_record 5 (Some 900%Z))
         ["alice01"; "012345"; "NewPassw0rd"; "NewPassw0rd"]) =
    Return true s' /\
    database s' !! "alice01" =
      Some (mk_user_data "saltNewPassw0rd" "a@x.com" 0 None 0).
Proof.
  destruct (reset_password_contract (example_environment (fun _ => 2000000000%Z))
              "alice01" ["012345"; "NewPassw0rd"; "NewPassw0rd"]
              (example_state (example_record 5 (Some 900%Z))
                 ["alice01"; "012345"; "NewPassw0rd"; "NewPassw0rd"])
              eq_refl) as (_ & _ & Hreset).
  destruct (Hreset (example_record 5 (Some 900%Z)) "NewPassw0rd" [])
    as (s' & Hrun & _ & Hr' & _); try reflexivity.
  - intros t Ht. injection Ht as <-. vm_compute. discriminate.
  - exists s'. split; [exact Hrun | exact Hr'].
Defined.

(** ** The lockout invariant *)

Lemma db_ok_empty : db_ok ∅.
Proof. intros u r H. rewrite lookup_empty in H. discriminate. Qed.

Lemma db_ok_insert (u : string) (r : user_data) (db : gmap string user_data) :
  db_ok db -> record_ok r -> db_ok (<[u := r]> db).
Proof.
  intros Hdb Hr v r' Hv. destruct (decide (u = v)) as [<-|Hne].
  - rewrite lookup_insert_eq in Hv. injection Hv as <-. exact Hr.
  - rewrite lookup_insert_ne in Hv by exact Hne. eauto.
Qed.

Lemma db_ok_alter (f : user_data -> user_data) (u : string)
    (db : gmap string user_data) :
  db_ok db ->
  (forall r, db !! u = Some r -> record_ok (f r)) ->
  db_ok (alter f u db).
Proof.
  intros Hdb Hf v r' Hv. destruct (decide (u = v)) as [<-|Hne].
  - rewrite lookup_alter_eq in Hv. destruct (db !! u) as [r|] eqn:Hu; cbn in Hv;
      [|discriminate]. injection Hv as <-. apply Hf. reflexivity.
  - rewrite lookup_alter_ne in Hv by exact Hne. eauto.
Qed.

Lemma store_ok_same (s s' : state) : same_store s s' -> store_ok s -> store_ok s'.
Proof. intros [Hdb Hfile] [H1 H2]. split; [now rewrite Hdb | now rewrite Hfile]. Qed.

Lemma store_ok_saved (s : state) (db : gmap string user_data) :
  db_ok db -> store_ok (set_db_file (Some db) (set_database db s)).
Proof.
  intros Hdb. split; [exact Hdb|]. intros f Hf. cbn in Hf.
  injection Hf as <-. exact Hdb.
Qed.

Lemma record_ok_fresh (h e : string) (t : Z) : record_ok (mk_user_data h e 0 None t).
Proof. unfold record_ok, max_failed_attempts. cbn. lia. Qed.

Lemma record_ok_after_failure (now : datetime) (r : user_data) :
  record_ok r -> locked_until r = None -> record_ok (after_failure now r).
Proof.
  unfold record_ok, after_failure. intros Hr Hlock. rewrite Hlock in Hr. cbn.
  destruct (max_failed_attempts <=? failed_attempts r + 1)%Z eqn:Hmax; cbn.
  - apply Z.leb_le in Hmax. lia.
  - apply Z.leb_gt in Hmax. rewrite Hlock. lia.
Qed.

(** The lockout check keeps the invariant, and a user it lets through
    has no lock. *)
Lemma check_account_lockout_ok (E : environment) (username : string) (s : state) :
  store_ok s ->
  store_ok (outcome_state (check_account_lockout E username s)) /\
  (forall s', check_account_lockout E username s = Return false s' ->
     forall r, database s' !! username = Some r -> locked_until r = None) /\
  (forall s', check_account_lockout E username s = Return true s' -> same_store s s') /\
  (forall e s', check_account_lockout E username s <> Raise e s').
Proof.
  intros Hok. unfold check_account_lockout.
  destruct (database s !! username) as [r|] eqn:Hr.
  - destruct (locked_until r) as [t|] eqn:Hlock.
    + unfold_flow. cbn. destruct (clock E (ticks s) <? strptime t)%Z; cbn.
      * split; [eapply store_ok_same; [|exact Hok]; split; reflexivity|].
        split; [discriminate|]. split; [|discriminate].
        intros s' Hs'. inversion Hs'. split; reflexivity.
      * split.
        { apply (store_ok_saved (set_ticks (S (ticks s)) s)).
          rewrite alter_alter_eq. apply db_ok_alter; [exact (proj1 Hok)|].
          intros r' Hr'. unfold record_ok, max_failed_attempts. cbn. lia. }
        split; [|split; discriminate].
        intros s' Hs' r' Hr'. inversion Hs'; subst. cbn in Hr'.
        rewrite !lookup_alter_eq, Hr in Hr'. cbn in Hr'. injection Hr' as <-. reflexivity.
    + split; [exact Hok|]. split; [|split; discriminate].
      intros s' Hs' r' Hr'. inversion Hs'; subst. congruence.
  - split; [exact Hok|]. split; [|split; discriminate].
    intros s' Hs' r' Hr'. inversion Hs'; subst. congruence.
Qed.

Lemma getpass_store (p : prompt) (s : state) :
  same_store s (outcome_state (getpass p s)).
Proof. unfold getpass. destruct (stdin s); split; reflexivity. Qed.

Lemma store_ok_save (s : state) :
  db_ok (database s) -> store_ok (set_db_file (Some (database s)) s).
Proof.
  intros Hdb. split; [exact Hdb|]. intros f Hf. cbn in Hf.
  injection Hf as <-. exact Hdb.
Qed.

(** A property of the final state of [m] followed by [k] follows from
    the same property of [m] alone and of [k] after each result of [m]. *)
Lemma outcome_bind {A B} (P : state -> Prop) (m : M A) (k : A -> M B) (s : state) :
  P (outcome_state (m s)) ->
  (forall a s', m s = Return a s' -> P (outcome_state (k a s'))) ->
  P (outcome_state (bind m k s)).
Proof.
  intros Hm Hk. unfold bind. destruct (m s) as [a s'|e s']; [now apply Hk | exact Hm].
Qed.

Lemma second_factor_ok (E : environment) (username email : string) (s : state) :
  store_ok s ->
  store_ok (outcome_state
              ((let* verification_code :=
                  send_verification_code E email (Some username) in
                login_code_attempts username verification_code range3) s)).
Proof.
  intros Hok. apply outcome_bind.
  - eapply store_ok_same; [apply send_verification_code_store | exact Hok].
  - intros code s' Hsend.
    eapply store_ok_same; [apply login_code_attempts_store|].
    eapply store_ok_same; [|exact Hok].
    pose proof (send_verification_code_store E email (Some username) s) as H.
    now rewrite Hsend in H.
Qed.

Lemma authenticate_ok (E : environment) (s : state) :
  store_ok s -> store_ok (outcome_state (authenticate E s)).
Proof.
  intros Hok. unfold authenticate.
  apply outcome_bind; [eapply store_ok_same; [|exact Hok]; split; reflexivity|].
  intros [] s0 Hs0. injection Hs0 as <-.
  assert (Hok0 : store_ok (print Banner_login s))
    by (eapply store_ok_same; [|exact Hok]; split; reflexivity).
  apply outcome_bind; [eapply store_ok_same; [apply input_store | exact Hok0]|].
  intros username s1 Hs1.
  assert (Hok1 : store_ok s1).
  { pose proof (input_store Prompt_login_username (print Banner_login s)) as H.
    rewrite Hs1 in H. eapply store_ok_same; [exact H | exact Hok0]. }
  apply outcome_bind; [exact Hok1|].
  intros known s1' Hknown. unfold known_user in Hknown. injection Hknown as <- <-.
  destruct (bool_decide (is_Some (database s1 !! username))); cbn [negb];
    [|eapply store_ok_same; [|exact Hok1]; split; reflexivity].
  destruct (check_account_lockout_ok E username s1 Hok1) as (Hcheck & Hfalse & _ & _).
  apply outcome_bind; [exact Hcheck|].
  intros locked s2 Hs2.
  assert (Hok2 : store_ok s2) by (now rewrite Hs2 in Hcheck).
  destruct locked; [exact Hok2|].
  specialize (Hfalse s2 Hs2).
  apply outcome_bind; [eapply store_ok_same; [apply getpass_store | exact Hok2]|].
  intros password s3 Hs3.
  pose proof (getpass_store Prompt_login_password s2) as Hsame3.
  rewrite Hs3 in Hsame3. cbn in Hsame3.
  assert (Hok3 : store_ok s3) by (eapply store_ok_same; [exact Hsame3 | exact Hok2]).
  apply outcome_bind.
  { unfold lookup_user. destruct (database s3 !! username); exact Hok3. }
  intros r s3' Hr. unfold lookup_user in Hr.
  destruct (database s3 !! username) as [r3|] eqn:Hr3; [|discriminate].
  injection Hr as <- <-.
  assert (Hlock : locked_until r3 = None).
  { apply Hfalse. destruct Hsame3 as [Hdb _]. now rewrite <- Hdb. }
  apply outcome_bind; [eapply store_ok_same; [|exact Hok3]; split; reflexivity|].
  intros password_match s4 Hs4. unfold bcrypt_checkpw in Hs4. injection Hs4 as <- <-.
  destruct (checkpw E password (password_hash r3)); cbn [negb].
  - do 3 (erewrite bind_Return by reflexivity).
    apply second_factor_ok. split.
    + cbn. apply db_ok_alter; [exact (proj1 Hok3)|].
      intros r' Hr'. rewrite Hr3 in Hr'. injection Hr' as <-.
      unfold record_ok, max_failed_attempts. cbn. rewrite Hlock. lia.
    + cbn. intros f Hf. injection Hf as <-.
      apply db_ok_alter; [exact (proj1 Hok3)|].
      intros r' Hr'. rewrite Hr3 in Hr'. injection Hr' as <-.
      unfold record_ok, max_failed_attempts. cbn. rewrite Hlock. lia.
  - erewrite bind_Return by reflexivity.
    erewrite bind_Return.
    2:{ unfold lookup_user. cbn. rewrite lookup_alter_eq, Hr3. reflexivity. }
    assert (Hr3ok : (0 <= failed_attempts r3 < max_failed_attempts)%Z).
    { pose proof (proj1 Hok3 username r3 Hr3) as H. unfold record_ok in H.
      now rewrite Hlock in H. }
    destruct (max_failed_attempts <=? _)%Z eqn:Hmax.
    + apply Z.leb_le in Hmax. cbn in Hmax.
      do 2 (erewrite bind_Return by reflexivity).
      unfold_flow. cbn [outcome_state]. apply store_ok_save. cbn.
      rewrite alter_alter_eq. apply db_ok_alter; [exact (proj1 Hok3)|].
      intros r' Hr'. rewrite Hr3 in Hr'. injection Hr' as <-.
      unfold record_ok. cbn. lia.
    + apply Z.leb_gt in Hmax. cbn in Hmax.
      do 2 (erewrite bind_Return by reflexivity).
      unfold_flow. cbn [outcome_state]. apply store_ok_save. cbn.
      apply db_ok_alter; [exact (proj1 Hok3)|].
      intros r' Hr'. rewrite Hr3 in Hr'. injection Hr' as <-.
      unfold record_ok. cbn. rewrite Hlock. lia.
Qed.

Ltac keep_store Hok :=
  eapply store_ok_same; [|exact Hok]; split; reflexivity.

Lemma register_user_ok (E : environment) (s : state) :
  store_ok s -> store_ok (outcome_state (register_user E s)).
Proof.
  intros Hok. unfold register_user.
  apply outcome_bind; [keep_store Hok|].
  intros [] s0 Hs0. injection Hs0 as <-.
  assert (Hok0 : store_ok (print Banner_registration s)) by keep_store Hok.
  apply outcome_bind;
    [eapply store_ok_same; [apply register_username_loop_store | exact Hok0]|].
  intros username s1 Hs1.
  assert (Hok1 : store_ok s1).
  { pose proof (register_username_loop_store (stdin (print Banner_registration s))
                  (print Banner_registration s)) as H.
    rewrite Hs1 in H. eapply store_ok_same; [exact H | exact Hok0]. }
  apply outcome_bind;
    [eapply store_ok_same; [apply register_email_loop_store | exact Hok1]|].
  intros verified s2 Hs2.
  assert (Hok2 : store_ok s2).
  { pose proof (register_email_loop_store E (stdin s1) s1) as H.
    rewrite Hs2 in H. eapply store_ok_same; [exact H | exact Hok1]. }
  destruct verified as [email|]; [|exact Hok2].
  apply outcome_bind;
    [eapply store_ok_same; [apply password_loop_store | exact Hok2]|].
  intros password s3 Hs3.
  assert (Hok3 : store_ok s3).
  { pose proof (password_loop_store Prompt_create_password Prompt_confirm_password
                  (stdin s2) s2) as H.
    rewrite Hs3 in H. eapply store_ok_same; [exact H | exact Hok2]. }
  unfold_flow. cbn [outcome_state].
  eapply store_ok_same; [|apply store_ok_save]; [split; reflexivity|].
  cbn. apply db_ok_insert; [exact (proj1 Hok3) | apply record_ok_fresh].
Qed.

Lemma reset_password_ok (E : environment) (s : state) :
  store_ok s -> store_ok (outcome_state (reset_password E s)).
Proof.
  intros Hok. unfold reset_password.
  apply outcome_bind; [keep_store Hok|].
  intros [] s0 Hs0. injection Hs0 as <-.
  assert (Hok0 : store_ok (print Banner_reset s)) by keep_store Hok.
  apply outcome_bind; [eapply store_ok_same; [apply input_store | exact Hok0]|].
  intros username s1 Hs1.
  assert (Hok1 : store_ok s1).
  { pose proof (input_store Prompt_reset_username (print Banner_reset s)) as H.
    rewrite Hs1 in H. eapply store_ok_same; [exact H | exact Hok0]. }
  apply outcome_bind; [exact Hok1|].
  intros known s1' Hknown. unfold known_user in Hknown. injection Hknown as <- <-.
  destruct (bool_decide (is_Some (database s1 !! username))); cbn [negb];
    [|keep_store Hok1].
  destruct (check_account_lockout_ok E username s1 Hok1) as (Hcheck & _).
  apply outcome_bind; [exact Hcheck|].
  intros locked s2 Hs2.
  assert (Hok2 : store_ok s2) by (now rewrite Hs2 in Hcheck).
  destruct locked; [exact Hok2|].
  apply outcome_bind.
  { unfold lookup_user. destruct (database s2 !! username); exact Hok2. }
  intros r s2' Hr. unfold lookup_user in Hr.
  destruct (database s2 !! username) as [r2|] eqn:Hr2; [|discriminate].
  injection Hr as <- <-. cbn zeta.
  apply outcome_bind;
    [eapply store_ok_same; [apply send_verification_code_store | exact Hok2]|].
  intros code s3 Hs3.
  assert (Hok3 : store_ok s3).
  { pose proof (send_verification_code_store E (email r2) None s2) as H.
    rewrite Hs3 in H. eapply store_ok_same; [exact H | exact Hok2]. }
  apply outcome_bind; [eapply store_ok_same; [apply input_store | exact Hok3]|].
  intros user_code s4 Hs4.
  assert (Hok4 : store_ok s4).
  { pose proof (input_store Prompt_verification_code s3) as H.
    rewrite Hs4 in H. eapply store_ok_same; [exact H | exact Hok3]. }
  destruct (negb (String.eqb user_code code)); [keep_store Hok4|].
  apply outcome_bind;
    [eapply store_ok_same; [apply password_loop_store | exact Hok4]|].
  intros new_password s5 Hs5.
  assert (Hok5 : store_ok s5).
  { pose proof (password_loop_store Prompt_new_password Prompt_confirm_new_password
                  (stdin s4) s4) as H.
    rewrite Hs5 in H. eapply store_ok_same; [exact H | exact Hok4]. }
  unfold_flow. cbn [outcome_state].
  eapply store_ok_same; [|apply store_ok_save]; [split; reflexivity|].
  cbn. rewrite !alter_alter_eq. apply db_ok_alter; [exact (proj1 Hok5)|].
  intros r' _. unfold record_ok, max_failed_attempts. cbn. lia.
Qed.

Lemma startup_ok (E : environment) (s : state) :
  store_ok s -> store_ok (outcome_state (startup E s)).
Proof.
  intros Hok. unfold startup.
  apply outcome_bind.
  - unfold load_database. destruct (db_file s) as [f|] eqn:Hf.
    + split; [exact (proj2 Hok f Hf) | exact (proj2 Hok)].
    + apply (store_ok_save (set_database ∅ s)). apply db_ok_empty.
  - intros [] s1 Hs1.
    assert (Hok1 : store_ok s1).
    { unfold load_database in Hs1. destruct (db_file s) as [f|] eqn:Hf.
      - injection Hs1 as <-. split; [exact (proj2 Hok f Hf) | exact (proj2 Hok)].
      - injection Hs1 as <-. apply (store_ok_save (set_database ∅ s)).
        apply db_ok_empty. }
    unfold populate_demo_users.
    destruct (bool_decide (database s1 = ∅)); [|keep_store Hok1].
    unfold_flow. cbn [populate_loop demo_users outcome_state].
    eapply store_ok_same; [|apply store_ok_save]; [split; reflexivity|].
    cbn. apply db_ok_insert; [|apply record_ok_fresh].
    apply db_ok_insert; [exact (proj1 Hok1) | apply record_ok_fresh].
Qed.

Lemma reachable_ok (E : environment) (s : state) : reachable E s -> store_ok s.
Proof.
  induction 1 as [ins | s Hs IH | s f ins Hs IH].
  - split; [apply db_ok_empty | discriminate].
  - now apply startup_ok.
  - assert (Hok : store_ok (set_stdin ins s)) by keep_store IH.
    destruct f; cbn [run_flow];
      [now apply authenticate_ok | now apply register_user_ok | now apply reset_password_ok].
Qed.

Lemma attempt_logins_reachable (E : environment) (username : string)
    (passwords : list string) (s : state) :
  reachable E s -> reachable E (attempt_logins E username passwords s).
Proof.
  revert s. induction passwords as [|password more IH]; intros s Hs; [exact Hs|].
  cbn [attempt_logins]. apply IH.
  exact (reachable_flow E s Login [username; password] Hs).
Qed.

(** C3 (as amended: a locked record keeps its count of 5). In every
    reachable state, a record without [locked_until] has a
    [failed_attempts] from 0 to 4, and a record with [locked_until] set,
    expired or not, has [failed_attempts] at exactly 5; and while
    [locked_until] is ahead of the clock a login leaves database and file
    as they are, so the counter is not incremented before the lock
    expires. *)
Theorem lockout_invariant (E : environment) (s : state) :
  reachable E s ->
  (forall username r,
     database s !! username = Some r ->
     (locked_until r = None -> (0 <= failed_attempts r < 5)%Z) /\
     (forall t, locked_until r = Some t -> failed_attempts r = 5%Z)) /\
  (forall username r t rest,
     database s !! username = Some r ->
     locked_until r = Some t ->
     (clock E (ticks s) < strptime t)%Z ->
     exists s',
       authenticate E (set_stdin (username :: rest) s) = Return false s' /\
       database s' = database s /\ db_file s' = db_file s).
Proof.
  intros Hreach. split.
  - intros username r Hr.
    pose proof (proj1 (reachable_ok E s Hreach) username r Hr) as Hok.
    unfold record_ok, max_failed_attempts in Hok.
    destruct (locked_until r) as [t|]; split; try discriminate; auto.
  - intros username r t rest Hr Hlock Hnow.
    destruct (authenticate_locked E username rest r t (set_stdin (username :: rest) s))
      as (s' & Hrun & [Hdb Hfile] & _); auto.
    exists s'. auto.
Qed.

Lemma lockout_invariant_witness :
  exists r,
    database
      (attempt_logins (example_environment (fun _ => 0%Z)) "user1"
         ["a"; "b"; "c"; "d"; "e"]
         (outcome_state
            (startup (example_environment (fun _ => 0%Z)) (first_run []))))
      !! "user1" = Some r /\
    locked_until r = Some 900%Z /\
    failed_attempts r = 5%Z.
Proof.
  exists (mk_user_data "saltPassword123" "user1@example.com" 5 (Some 900%Z) 0).
  assert (Hr : database
                 (attempt_logins (example_environment (fun _ => 0%Z)) "user1"
                    ["a"; "b"; "c"; "d"; "e"]
                    (outcome_state
                       (startup (example_environment (fun _ => 0%Z)) (first_run []))))
                 !! "user1" =
               Some (mk_user_data "saltPassword123" "user1@example.com" 5
                       (Some 900%Z) 0))
    by (vm_compute; reflexivity).
  split; [exact Hr|]. split; [reflexivity|].
  refine (proj2 (proj1 (lockout_invariant (example_environment (fun _ => 0%Z)) _ _)
                   "user1" _ Hr) 900%Z eq_refl).
  apply attempt_logins_reachable, reachable_startup, reachable_first_run.
Defined.

(** C3 as stated fails while an account is locked: after five wrong
    passwords at time 0 the demo user has [failed_attempts] 5, which is
    not zero, and a [locked_until] of second 900, which is set and has
    not expired. *)
Lemma locked_account_keeps_count :
  exists s r,
    reachable (example_environment (fun _ => 0%Z)) s /\
    database s !! "user1" = Some r /\
    failed_attempts r = 5%Z /\
    locked_until r = Some 900%Z /\
    (clock (example_environment (fun _ => 0%Z)) (ticks s) < strptime 900)%Z.
Proof.
  exists (attempt_logins (example_environment (fun _ => 0%Z)) "user1"
            ["a"; "b"; "c"; "d"; "e"]
            (outcome_state
               (startup (example_environment (fun _ => 0%Z)) (first_run [])))).
  eexists. split.
  - apply attempt_logins_reachable, reachable_startup, reachable_first_run.
  - split; [vm_compute; reflexivity|].
    split; [reflexivity|]. split; [reflexivity|]. reflexivity.
Qed.

(** * Further properties *)

(** ** The patterns *)

Lemma matches_seq_inv (r1 r2 : regex) (w : list ascii) :
  matches (Re_seq r1 r2) w ->
  exists w1 w2, w = (w1 ++ w2)%list /\ matches r1 w1 /\ matches r2 w2.
Proof. inversion 1; subst. eauto. Qed.

Lemma matches_alt_inv (r1 r2 : regex) (w : list ascii) :
  matches (Re_alt r1 r2) w -> matches r1 w \/ matches r2 w.
Proof. inversion 1; subst; auto. Qed.

Lemma matches_class_inv (p : ascii -> bool) (w : list ascii) :
  matches (Re_class p) w -> exists c, w = [c] /\ p c = true.
Proof. inversion 1; subst. eauto. Qed.

Lemma nullable_matches (r : regex) : nullable r = true <-> matches r [].
Proof.
  induction r as [| |p|r1 IH1 r2 IH2|r1 IH1 r2 IH2|r IH]; cbn.
  - split; [discriminate | inversion 1].
  - split; [constructor | reflexivity].
  - split; [discriminate | inversion 1].
  - rewrite andb_true_iff, IH1, IH2. split.
    + intros [H1 H2]. exact (matches_seq r1 r2 [] [] H1 H2).
    + intros H. apply matches_seq_inv in H as (w1 & w2 & Heq & H1 & H2).
      symmetry in Heq. apply app_eq_nil in Heq as [-> ->]. auto.
  - rewrite orb_true_iff, IH1, IH2. split.
    + intros [H|H]; [now apply matches_alt_l | now apply matches_alt_r].
    + intros H. apply matches_alt_inv in H. exact H.
  - split; [constructor | reflexivity].
Qed.

Lemma matches_star_head_gen (r0 : regex) (cw : list ascii) :
  matches r0 cw ->
  forall r c w, r0 = Re_star r -> cw = c :: w ->
  exists w1 w2, w = (w1 ++ w2)%list /\ matches r (c :: w1) /\ matches (Re_star r) w2.
Proof.
  induction 1 as [| | | | | |r' w1 w2 H1 _ H2 IH2]; intros rr cc ww Hr Hcw;
    try discriminate.
  injection Hr as ->. destruct w1 as [|c1 w1]; cbn in Hcw.
  - now apply IH2.
  - injection Hcw as -> <-. exists w1, w2. auto.
Qed.

Lemma matches_star_head (r : regex) (c : ascii) (w : list ascii) :
  matches (Re_star r) (c :: w) ->
  exists w1 w2, w = (w1 ++ w2)%list /\ matches r (c :: w1) /\ matches (Re_star r) w2.
Proof. intros H. now apply (matches_star_head_gen _ _ H r c w). Qed.

Lemma derivative_matches (r : regex) (c : ascii) (w : list ascii) :
  matches (derivative c r) w <-> matches r (c :: w).
Proof.
  revert w. induction r as [| |p|r1 IH1 r2 IH2|r1 IH1 r2 IH2|r IH]; intros w; cbn.
  - split; inversion 1.
  - split; inversion 1.
  - destruct (p c) eqn:Hp; split.
    + inversion 1; subst. now constructor.
    + intros H. apply matches_class_inv in H as (c' & Heq & _).
      injection Heq as -> ->. constructor.
    + inversion 1.
    + intros H. apply matches_class_inv in H as (c' & Heq & Hc').
      injection Heq as -> ->. congruence.
  - assert (Hseq : matches (Re_seq (derivative c r1) r2) w <->
                   exists w1 w2, w = (w1 ++ w2)%list /\
                                 matches r1 (c :: w1) /\ matches r2 w2).
    { split.
      - intros H. apply matches_seq_inv in H as (w1 & w2 & -> & H1 & H2).
        exists w1, w2. rewrite <- IH1. auto.
      - intros (w1 & w2 & -> & H1 & H2). constructor; [now apply IH1 | exact H2]. }
    assert (Hsplit : matches (Re_seq r1 r2) (c :: w) <->
                     (exists w1 w2, w = (w1 ++ w2)%list /\
                                    matches r1 (c :: w1) /\ matches r2 w2) \/
                     (matches r1 [] /\ matches r2 (c :: w))).
    { split.
      - intros H. apply matches_seq_inv in H as (w1 & w2 & Heq & H1 & H2).
        destruct w1 as [|c1 w1]; cbn in Heq.
        + right. subst. auto.
        + injection Heq as -> ->. left. exists w1, w2. auto.
      - intros [(w1 & w2 & -> & H1 & H2) | [H1 H2]].
        + exact (matches_seq r1 r2 (c :: w1) w2 H1 H2).
        + exact (matches_seq r1 r2 [] (c :: w) H1 H2). }
    rewrite Hsplit. destruct (nullable r1) eqn:Hnull.
    + apply nullable_matches in Hnull. split.
      * intros H. apply matches_alt_inv in H as [H|H];
          [left; now apply Hseq | right; split; [exact Hnull|now apply IH2]].
      * intros [H | [_ H]]; [apply matches_alt_l; now apply Hseq
                            | apply matches_alt_r; now apply IH2].
    + rewrite Hseq. split; [auto|].
      intros [H | [H _]]; [exact H|].
      apply nullable_matches in H. congruence.
  - split; intros H; apply matches_alt_inv in H as [H|H];
      solve [apply matches_alt_l; now apply IH1 | apply matches_alt_r; now apply IH2].
  - split.
    + intros H. apply matches_seq_inv in H as (w1 & w2 & -> & H1 & H2).
      apply IH in H1. exact (matches_star_cons r (c :: w1) w2 H1 H2).
    + intros H. apply matches_star_head in H as (w1 & w2 & -> & H1 & H2).
      constructor; [now apply IH | exact H2].
Qed.

Lemma fullmatch_matches (r : regex) (text : string) :
  fullmatch r text = true <-> matches r (list_ascii_of_string text).
Proof.
  revert r. induction text as [|c text IH]; intros r; cbn.
  - apply nullable_matches.
  - rewrite IH. apply derivative_matches.
Qed.

Lemma re_match_anchored_matches (r : regex) (text : string) :
  re_match_anchored r text = true <->
  exists body, up_to_newline (list_ascii_of_string text) body /\ matches r body.
Proof.
  revert r. induction text as [|c text IH]; intros r; cbn.
  - rewrite nullable_matches. split.
    + intros H. exists []. split; [now left | exact H].
    + intros (body & [<- | Heq] & H); [exact H|].
      destruct body; discriminate.
  - rewrite orb_true_iff, !andb_true_iff, IH, nullable_matches. split.
    + intros [[[Hnull Hc] Hrest] | (body & Hbody & H)].
      * apply Ascii.eqb_eq in Hc as ->. destruct text; [|discriminate].
        exists []. split; [now right | exact Hnull].
      * exists (c :: body). split; [|now apply derivative_matches].
        destruct Hbody as [-> | ->]; [now left | now right].
    + intros (body & Hbody & H). destruct body as [|c' body].
      * left. destruct Hbody as [Heq | Heq]; [discriminate|].
        cbn in Heq. injection Heq as -> Htext.
        destruct text; [|discriminate].
        split; [split; [exact H | apply Ascii.eqb_refl] | reflexivity].
      * right. exists body.
        destruct Hbody as [Heq | Heq]; cbn in Heq; injection Heq as -> Htext;
          (split; [|now apply derivative_matches]); [now left | now right].
Qed.

Lemma matches_star_class (p : ascii -> bool) (w : list ascii) :
  matches (Re_star (Re_class p)) w <-> Forall (fun c => p c = true) w.
Proof.
  split.
  - induction w as [|c w IH]; intros H; [constructor|].
    apply matches_star_head in H as (w1 & w2 & -> & H1 & H2).
    apply matches_class_inv in H1 as (c' & Heq & Hc).
    injection Heq as -> Hw1. symmetry in Hw1. subst w1. cbn in IH.
    constructor; auto.
  - induction 1 as [|c w Hc _ IH]; [constructor|].
    exact (matches_star_cons (Re_class p) [c] w (matches_class p c Hc) IH).
Qed.

Lemma matches_plus_class (p : ascii -> bool) (w : list ascii) :
  matches (Re_plus (Re_class p)) w <-> run_of p w.
Proof.
  unfold Re_plus, run_of. split.
  - intros H. apply matches_seq_inv in H as (w1 & w2 & -> & H1 & H2).
    apply matches_class_inv in H1 as (c & -> & Hc).
    apply matches_star_class in H2. split; [discriminate | now constructor].
  - intros [Hne Hall]. destruct w as [|c w]; [congruence|].
    inversion Hall as [|? ? Hc Hw]; subst.
    exact (matches_seq (Re_class p) _ [c] w (matches_class p c Hc)
             (proj2 (matches_star_class p w) Hw)).
Qed.

Lemma matches_char (d : ascii) (w : list ascii) :
  matches (Re_class (is_char d)) w <-> w = [d].
Proof.
  split.
  - intros H. apply matches_class_inv in H as (c & -> & Hc).
    unfold is_char in Hc. apply Ascii.eqb_eq in Hc as ->. reflexivity.
  - intros ->. constructor. unfold is_char. apply Ascii.eqb_refl.
Qed.

(** X1. The pattern check of the username loop passes exactly the
    texts made of one or more letters, digits, dots and underscores,
    with or without one final newline. *)
Theorem username_pattern (username : string) :
  re_match_anchored username_regex username = true <->
  exists body,
    up_to_newline (list_ascii_of_string username) body /\
    run_of username_char body.
Proof.
  rewrite re_match_anchored_matches. unfold username_regex.
  split; intros (body & Hbody & H); exists body; (split; [exact Hbody|]);
    now apply (matches_plus_class username_char).
Qed.

(** X2. The pattern check of the email loop passes exactly the texts
    [local@domain.tld], with or without one final newline, where [local]
    and [domain] are non-empty runs of word characters, dots and hyphens
    and [tld] is a non-empty run of word characters. *)
Theorem email_pattern (E : environment) (email : string) :
  email_accepted E email <->
  exists local domain tld,
    up_to_newline (list_ascii_of_string email)
      (local ++ "@"%char :: domain ++ "."%char :: tld)%list /\
    run_of (email_char E) local /\
    run_of (email_char E) domain /\
    run_of (word_char E) tld.
Proof.
  unfold email_accepted. rewrite re_match_anchored_matches. unfold email_regex.
  split.
  - intros (body & Hbody & H).
    apply matches_seq_inv in H as (local & w1 & -> & Hlocal & H).
    apply matches_seq_inv in H as (at_sign & w2 & -> & Hat & H).
    apply matches_seq_inv in H as (domain & w3 & -> & Hdomain & H).
    apply matches_seq_inv in H as (dot & tld & -> & Hdot & Htld).
    apply matches_char in Hat as ->. apply matches_char in Hdot as ->.
    apply (matches_plus_class (email_char E)) in Hlocal, Hdomain.
    apply matches_plus_class in Htld.
    exists local, domain, tld. auto.
  - intros (local & domain & tld & Hbody & Hlocal & Hdomain & Htld).
    eexists. split; [exact Hbody|].
    apply matches_seq; [now apply (matches_plus_class (email_char E))|].
    apply (matches_seq _ _ ["@"%char]); [now apply matches_char|].
    apply matches_seq; [now apply (matches_plus_class (email_char E))|].
    apply (matches_seq _ _ ["."%char]); [now apply matches_char|].
    now apply matches_plus_class.
Qed.

(** ** The loops of the registration flow *)

Lemma register_username_loop_rejects (username : string) (rest : list string)
    (s : state) :
  ~ username_accepted (database s) username ->
  exists m,
    register_username_loop (username :: rest) s =
    register_username_loop rest
      (print m (log (Input Prompt_register_username username) (set_stdin rest s))).
Proof.
  intros Hrej. cbn [register_username_loop].
  destruct (String.length username <? 4)%nat eqn:Hlen; [eexists; reflexivity|].
  destruct (re_match_anchored username_regex username) eqn:Hre; cbn [negb];
    [|eexists; reflexivity].
  change (database (log (Input Prompt_register_username username) (set_stdin rest s)))
    with (database s).
  destruct (database s !! username) as [r|] eqn:Hr; [eexists; reflexivity|].
  exfalso. apply Hrej. repeat split; assumption.
Qed.

(** X3. The username loop of the registration flow returns the first
    line that has at least 4 characters, passes the pattern check and is
    not a registered username; the lines before it are read and
    rejected, the lines after it are left on the console, and database
    and file are not touched.  When no line is acceptable the loop ends
    in [EOFError]. *)
Theorem register_username_loop_first_accepted (rejected : list string) (s : state) :
  Forall (fun line => ~ username_accepted (database s) line) rejected ->
  (forall username rest,
     username_accepted (database s) username ->
     exists s',
       register_username_loop (rejected ++ username :: rest)%list s =
         Return username s' /\
       stdin s' = rest /\ same_store s s') /\
  (exists s',
     register_username_loop rejected s = Raise EOFError s' /\ same_store s s').
Proof.
  revert s. induction rejected as [|line rejected IH]; intros s Hrej.
  - split.
    + intros username rest Hok. cbn [app].
      rewrite register_username_loop_accepts by exact Hok.
      eexists. split; [reflexivity|]. split; [reflexivity | split; reflexivity].
    + exists s. split; [reflexivity | apply same_store_refl].
  - inversion Hrej as [|? ? Hline Hrest]; subst. split.
    + intros username rest Hok. cbn [app].
      destruct (register_username_loop_rejects line
                  (rejected ++ username :: rest)%list s Hline) as (m & ->).
      destruct (IH (print m (log (Input Prompt_register_username line)
                               (set_stdin (rejected ++ username :: rest)%list s))))
        as [Hfirst _]; [exact Hrest|].
      destruct (Hfirst username rest Hok) as (s' & Hrun & Hin & [Hdb Hfile]).
      exists s'. split; [exact Hrun|]. split; [exact Hin|]. split; assumption.
    + destruct (register_username_loop_rejects line rejected s Hline) as (m & ->).
      destruct (IH (print m (log (Input Prompt_register_username line)
                               (set_stdin rejected s))))
        as [_ (s' & Hrun & [Hdb Hfile])]; [exact Hrest|].
      exists s'. split; [exact Hrun|]. split; assumption.
Qed.

Lemma register_username_loop_first_accepted_witness :
  exists s',
    register_username_loop ["bob"; "bo b!"; "alice01"; "bob_02"; "b@x.org"]
      (example_state (example_record 0 None) []) = Return "bob_02" s' /\
    stdin s' = ["b@x.org"].
Proof.
  destruct (register_username_loop_first_accepted ["bob"; "bo b!"; "alice01"]
              (example_state (example_record 0 None) [])) as [Hfirst _].
  - repeat constructor; intros (Hlen & Hre & Hfree); vm_compute in *; discriminate.
  - destruct (Hfirst "bob_02" ["b@x.org"]) as (s' & Hrun & Hin & _).
    + repeat split; vm_compute; reflexivity.
    + exists s'. split; [exact Hrun | exact Hin].
Defined.

Lemma register_username_loop_returns (ins : list string) (s s' : state)
    (username : string) :
  register_username_loop ins s = Return username s' ->
  username_accepted (database s) username /\ same_store s s' /\
  ticks s' = ticks s /\ salts s' = salts s /\ draws s' = draws s.
Proof.
  revert s'.
  apply (register_username_loop_ind
           (fun _ s o => forall s', o = Return username s' ->
              username_accepted (database s) username /\ same_store s s' /\
              ticks s' = ticks s /\ salts s' = salts s /\ draws s' = draws s));
    intros; subst; try discriminate;
    try match goal with
        | IH : forall s', ?o = Return _ s' -> _, H : ?o = Return _ _ |- _ =>
            destruct (IH _ H) as (Hacc & [Hdb Hfile] & Ht & Hs & Hd);
            repeat split; solve [assumption | apply Hacc]
        end.
  match goal with H : Return _ _ = Return _ _ |- _ => injection H as <- <- end.
  split; [|repeat split].
  match goal with
  | Hlen : (_ <? 4)%nat = false, Hre : negb _ = false, Hfree : bool_decide _ = false |- _ =>
      apply negb_false_iff in Hre; apply bool_decide_eq_false in Hfree;
      split; [exact Hlen | split; [exact Hre|]]
  end.
  match goal with
  | Hfree : ~ is_Some (database ?st !! ?u) |- database ?s0 !! ?u = None =>
      change (database st) with (database s0) in Hfree;
      destruct (database s0 !! u); [exfalso; apply Hfree; eauto | reflexivity]
  end.
Qed.

(** ** The password loop *)

(** X4. When the password loop of registration or reset returns a
    password, that password passes the policy and was typed twice in a
    row as the last two lines the loop read; the lines after them are
    left on the console, and database, file, clock and generators are
    not touched. *)
Theorem password_loop_returns (ask confirm : prompt) (ins : list string)
    (s s' : state) (password : string) :
  password_loop ask confirm ins s = Return password s' ->
  password_violation password = None /\
  (exists before, ins = (before ++ password :: password :: stdin s')%list) /\
  same_store s s' /\
  ticks s' = ticks s /\ salts s' = salts s /\ draws s' = draws s.
Proof.
  revert s'.
  apply (password_loop_ind ask confirm
           (fun ins s o => forall s', o = Return password s' ->
              password_violation password = None /\
              (exists before, ins = (before ++ password :: password :: stdin s')%list) /\
              same_store s s' /\
              ticks s' = ticks s /\ salts s' = salts s /\ draws s' = draws s)).
  - intros; discriminate.
  - intros ins0 s0 password0 rest _ s1 v Hv IH s' Hrun.
    destruct (IH s' Hrun) as (Hvalid & (before & ->) & [Hdb Hfile] & Ht & Hs & Hd).
    split; [exact Hvalid|]. split; [exists (password0 :: before); reflexivity|].
    repeat split; assumption.
  - intros; discriminate.
  - intros ins0 s0 password0 rest _ s1 Hv confirm_password rest' _ s2 Hne IH s' Hrun.
    destruct (IH s' Hrun) as (Hvalid & (before & ->) & [Hdb Hfile] & Ht & Hs & Hd).
    split; [exact Hvalid|].
    split; [exists (password0 :: confirm_password :: before); reflexivity|].
    repeat split; assumption.
  - intros ins0 s0 password0 rest _ s1 Hv confirm_password rest' _ s2 Heq s' Hrun.
    injection Hrun as <- <-.
    apply negb_false_iff, String.eqb_eq in Heq as <-.
    split; [exact Hv|]. split; [exists []; reflexivity|].
    repeat split.
Qed.

Lemma password_loop_returns_witness :
  exists before,
    ["short"; "NoDigitsHere"; "Passw0rd"; "Passw0rt"; "Passw0rd"; "Passw0rd"; "4"] =
    (before ++ ["Passw0rd"; "Passw0rd"; "4"])%list.
Proof.
  destruct (password_loop_returns Prompt_create_password Prompt_confirm_password
              ["short"; "NoDigitsHere"; "Passw0rd"; "Passw0rt"; "Passw0rd";
               "Passw0rd"; "4"]
              (first_run [])
              (outcome_state
                 (password_loop Prompt_create_password Prompt_confirm_password
                    ["short"; "NoDigitsHere"; "Passw0rd"; "Passw0rt"; "Passw0rd";
                     "Passw0rd"; "4"] (first_run [])))
              "Passw0rd" eq_refl) as (_ & Hlines & _).
  exact Hlines.
Defined.

Lemma password_loop_raises (ask confirm : prompt) (ins : list string)
    (s s' : state) (e : exn) :
  stdin s = ins ->
  password_loop ask confirm ins s = Raise e s' ->
  e = EOFError /\ stdin s' = [].
Proof.
  revert s'.
  apply (password_loop_ind ask confirm
           (fun ins s o => forall s', stdin s = ins -> o = Raise e s' ->
              e = EOFError /\ stdin s' = [])).
  - intros ins0 s0 _ s' Hin Hrun. injection Hrun as <- <-. auto.
  - intros ins0 s0 password0 rest _ s1 v Hv IH s' _ Hrun. now apply IH.
  - intros ins0 s0 password0 rest _ s1 Hv -> s' _ Hrun.
    injection Hrun as <- <-. auto.
  - intros ins0 s0 password0 rest _ s1 Hv confirm_password rest' _ s2 Hne IH s' _ Hrun.
    now apply IH.
  - intros; discriminate.
Qed.

(** ** Verification codes *)

Lemma digit_char_decimal (n : nat) : decimal_digit (digit_char n).
Proof.
  unfold decimal_digit, digit_char.
  pose proof (Nat.mod_upper_bound n 10 ltac:(lia)) as Hlt.
  rewrite nat_ascii_embedding by lia.
  change (nat_of_ascii "0") with 48%nat. change (nat_of_ascii "9") with 57%nat. lia.
Qed.

Lemma random_digits_length (E : environment) (count k : nat) :
  String.length (random_digits E count k) = count.
Proof.
  revert k. induction count as [|count IH]; intros k; cbn; [reflexivity|].
  now rewrite IH.
Qed.

Lemma random_digits_decimal (E : environment) (count k : nat) :
  Forall decimal_digit (list_ascii_of_string (random_digits E count k)).
Proof.
  revert k. induction count as [|count IH]; intros k; cbn; constructor;
    [apply digit_char_decimal | apply IH].
Qed.

(** X5. Whatever the delivery mode and whatever the SMTP server does,
    issuing a verification code does not fail: it returns a code of
    exactly 6 decimal digits made of the next 6 random draws, and that
    same code is shown on the console or handed to the mail server (or
    both); console input, database and file are not touched.  In
    simulation mode the code is only printed. *)
Theorem send_verification_code_issues (E : environment) (email : string)
    (username : option string) (s : state) :
  exists s' shown,
    send_verification_code E email username s =
      Return (random_digits E 6 (draws s)) s' /\
    String.length (random_digits E 6 (draws s)) = 6%nat /\
    Forall decimal_digit (list_ascii_of_string (random_digits E 6 (draws s))) /\
    same_store s s' /\
    stdin s' = stdin s /\
    draws s' = (draws s + 6)%nat /\
    trace s' = (trace s ++ shown)%list /\
    (In (Print (Email_simulation email (random_digits E 6 (draws s)))) shown \/
     In (Print (Email_delivery_failed email (random_digits E 6 (draws s)))) shown \/
     In (Smtp_sendmail email (random_digits E 6 (draws s))) shown) /\
    (use_simulation E = true ->
     shown = [Print (Email_simulation email (random_digits E 6 (draws s)))]).
Proof.
  assert (Hlen := random_digits_length E 6 (draws s)).
  assert (Hdec := random_digits_decimal E 6 (draws s)).
  unfold send_verification_code, smtp_conversation, _fallback_verification.
  unfold_flow. cbn.
  destruct (use_simulation E).
  { eexists _, [_]. split; [reflexivity|]. cbn.
    repeat split; auto; cbn; auto 12. }
  destruct (email_credentials E); cbn.
  2:{ eexists _, [_; _]. split; [reflexivity|]. cbn.
      rewrite <- !app_assoc. repeat split; auto; try discriminate; cbn; auto 12. }
  destruct (smtp E (draws s + 6)); cbn;
    [eexists _, [_; _; _] | eexists _, [_; _; _; _] | eexists _, [_; _; _; _; _]
    | eexists _, [_; _; _; _; _; _; _] | eexists _, [_; _; _; _; _; _]];
    (split; [reflexivity|]); cbn; rewrite <- !app_assoc;
    repeat split; auto; try discriminate; cbn; auto 12.
Qed.

(** ** What a successful flow implies *)

Ltac fields_in H :=
  cbn [database db_file stdin ticks draws salts trace set_database set_db_file
       set_stdin set_ticks set_draws set_salts log print] in H.

Lemma getpass_cons (p : prompt) (line : string) (rest : list string) (s : state) :
  stdin s = line :: rest ->
  getpass p s = Return line (log (Getpass p line) (set_stdin rest s)).
Proof. intros H. unfold getpass. now rewrite H. Qed.

Lemma input_nil (p : prompt) (s : state) :
  stdin s = [] -> input p s = Raise EOFError s.
Proof. intros H. unfold input. now rewrite H. Qed.

Lemma getpass_nil (p : prompt) (s : state) :
  stdin s = [] -> getpass p s = Raise EOFError s.
Proof. intros H. unfold getpass. now rewrite H. Qed.

Lemma reset_counter_record (r1 r : user_data) :
  password_hash r1 = password_hash r ->
  email r1 = email r ->
  registered_on r1 = registered_on r ->
  locked_until r1 = None ->
  set_failed_attempts 0 r1 =
  mk_user_data (password_hash r) (email r) 0 None (registered_on r).
Proof. destruct r1. cbn. intros -> -> -> ->. reflexivity. Qed.

Lemma login_code_attempts_true (username code : string) (s s' : state) :
  login_code_attempts username code range3 s = Return true s' ->
  exists wrong,
    (length wrong < 3)%nat /\
    Forall (fun c => c <> code) wrong /\
    stdin s = (wrong ++ code :: stdin s')%list /\
    same_store s s'.
Proof.
  intros H. rewrite range3_eq in H. cbn in H. unfold_flow.
  destruct (stdin s) as [|c1 [|c2 [|c3 more]]] eqn:Hin; cbn in H; try discriminate;
    destruct (String.eqb c1 code) eqn:H1; cbn in H; try discriminate;
    try (injection H as <-; apply String.eqb_eq in H1 as ->;
         exists []; cbn; repeat split; solve [auto | lia]);
    apply String.eqb_neq in H1;
    destruct (String.eqb c2 code) eqn:H2; cbn in H; try discriminate;
    try (injection H as <-; apply String.eqb_eq in H2 as ->;
         exists [c1]; cbn; repeat split; solve [auto | lia]);
    apply String.eqb_neq in H2;
    destruct (String.eqb c3 code) eqn:H3; cbn in H; try discriminate.
  injection H as <-. apply String.eqb_eq in H3 as ->.
  exists [c1; c2]. cbn. repeat split; solve [auto | lia].
Qed.

(** X6. The login flow returns [True] only when the username is
    registered, the account is not locked at the time of the lockout
    check, the password typed passes [bcrypt.checkpw] against the stored
    hash, and one of the next three lines is the code that was issued;
    the lines after that code stay on the console, and the record is
    left, in database and file, with its hash, email and registration
    time, [failed_attempts] 0 and no lock. *)
Theorem authenticate_true (E : environment) (s s' : state) :
  authenticate E s = Return true s' ->
  exists username password rest r,
    stdin s = username :: password :: rest /\
    database s !! username = Some r /\
    (forall t, locked_until r = Some t -> (strptime t <= clock E (ticks s))%Z) /\
    checkpw E password (password_hash r) = true /\
    (exists wrong,
       (length wrong < 3)%nat /\
       Forall (fun c => c <> random_digits E 6 (draws s)) wrong /\
       rest = (wrong ++ random_digits E 6 (draws s) :: stdin s')%list) /\
    database s' !! username =
      Some (mk_user_data (password_hash r) (email r) 0 None (registered_on r)) /\
    (forall other, other <> username -> database s' !! other = database s !! other) /\
    db_file s' = Some (database s').
Proof.
  intros Hrun. pose proof Hrun as H. unfold authenticate in H.
  rewrite (bind_Return _ _ s (print Banner_login s) tt) in H by reflexivity.
  destruct (stdin s) as [|username rest0] eqn:Hin.
  { erewrite bind_Raise in H by (apply input_nil; exact Hin). discriminate. }
  erewrite bind_Return in H by (apply input_cons; exact Hin).
  destruct (database s !! username) as [r|] eqn:Hr.
  2:{ erewrite bind_Return in H by (apply known_user_None; exact Hr).
      cbn in H. discriminate. }
  erewrite bind_Return in H by (eapply known_user_Some; exact Hr).
  cbn [negb] in H.
  assert (Hnot : forall t, locked_until r = Some t ->
                           (strptime t <= clock E (ticks s))%Z).
  { intros t Ht.
    destruct (Z.lt_ge_cases (clock E (ticks s)) (strptime t)) as [Hlt|Hge];
      [|exact Hge].
    destruct (authenticate_locked E username rest0 r t s Hin Hr Ht Hlt)
      as (s'' & Hfalse & _).
    congruence. }
  destruct (check_account_lockout_passes E username r
              (log (Input Prompt_login_username username)
                 (set_stdin rest0 (print Banner_login s))) Hr Hnot)
    as (s1 & r1 & Hcheck & Hr1 & Hother1 & Hhash & Hemail & Hreg & Hlock1
        & Hin1 & Hdraws1 & _).
  erewrite bind_Return in H by exact Hcheck. cbn iota in H. fields_in Hin1.
  destruct rest0 as [|password rest].
  { erewrite bind_Raise in H by (apply getpass_nil; exact Hin1). discriminate. }
  erewrite bind_Return in H by (apply getpass_cons; exact Hin1).
  erewrite bind_Return in H by (apply lookup_user_Some; exact Hr1).
  erewrite bind_Return in H by reflexivity.
  destruct (checkpw E password (password_hash r1)) eqn:Hpw; cbn [negb] in H.
  2:{ exfalso. erewrite bind_Return in H by reflexivity.
      erewrite bind_Return in H.
      2:{ apply lookup_user_Some. cbn. rewrite lookup_alter_eq, Hr1. reflexivity. }
      destruct (max_failed_attempts <=? _)%Z;
        unfold_flow; cbn in H; discriminate. }
  do 3 (erewrite bind_Return in H by reflexivity).
  match type of H with
  | bind (send_verification_code E ?em ?un) _ ?st = _ =>
      destruct (send_verification_code_returns E em un st)
        as (s2 & Hsend & [Hdb2 Hfile2] & Hin2 & _)
  end.
  erewrite bind_Return in H by exact Hsend.
  apply login_code_attempts_true in H
    as (wrong & Hlen & Hwrong & Hin3 & [Hdb3 Hfile3]).
  fields_in Hin2. fields_in Hdb2. fields_in Hfile2. fields_in Hwrong.
  fields_in Hin3. fields_in Hdraws1.
  rewrite Hdraws1 in Hwrong, Hin3. rewrite Hin2 in Hin3.
  exists username, password, rest, r.
  split; [first [reflexivity | exact Hin]|].
  split; [first [reflexivity | exact Hr]|]. split; [exact Hnot|].
  split; [rewrite <- Hhash; exact Hpw|].
  split; [exists wrong; auto|].
  rewrite Hfile3, Hfile2, Hdb3, Hdb2.
  split; [|split; [|reflexivity]].
  - rewrite lookup_alter_eq, Hr1. cbn [fmap option_fmap option_map]. f_equal.
    apply reset_counter_record; assumption.
  - intros other Hne. rewrite lookup_alter_ne by congruence. now apply Hother1.
Qed.

Lemma authenticate_true_witness :
  exists r,
    database
      (example_state (example_record 3 None)
         ["alice01"; "Passw0rd"; "111111"; "012345"; "4"]) !! "alice01" = Some r /\
    checkpw (example_environment (fun _ => 0%Z)) "Passw0rd" (password_hash r) = true.
Proof.
  assert (Hrun : authenticate (example_environment (fun _ => 0%Z))
                   (example_state (example_record 3 None)
                      ["alice01"; "Passw0rd"; "111111"; "012345"; "4"]) =
                 Return true
                   (outcome_state
                      (authenticate (example_environment (fun _ => 0%Z))
                         (example_state (example_record 3 None)
                            ["alice01"; "Passw0rd"; "111111"; "012345"; "4"]))))
    by (vm_compute; reflexivity).
  destruct (authenticate_true _ _ _ Hrun)
    as (username & password & rest & r & Hin & Hr & _ & Hpw & _).
  injection Hin as <- <- _. exists r. split; [exact Hr | exact Hpw].
Defined.

Lemma register_code_attempts_counters (code : string) (attempts : list Z)
    (s s' : state) (verified : bool) :
  register_code_attempts code attempts s = Return verified s' ->
  ticks s' = ticks s /\ salts s' = salts s.
Proof.
  revert s. induction attempts as [|attempt more IH]; intros s H.
  - injection H as <- <-. auto.
  - cbn [register_code_attempts] in H. unfold_flow.
    destruct (stdin s) as [|line rest]; [discriminate|].
    destruct (String.eqb line code); [injection H as <- <-; auto|].
    destruct (0 <? 2 - attempt)%Z; [|injection H as <- <-; auto].
    apply IH in H. exact H.
Qed.

Lemma register_email_loop_returns (E : environment) (ins : list string)
    (s s' : state) (email : string) :
  register_email_loop E ins s = Return (Some email) s' ->
  email_accepted E email /\ same_store s s' /\
  ticks s' = ticks s /\ salts s' = salts s.
Proof.
  revert s. induction ins as [|line rest IH]; intros s H; [discriminate|].
  cbn [register_email_loop] in H.
  destruct (re_match_anchored (email_regex E) line) eqn:Hline; cbn [negb] in H.
  - erewrite bind_Return in H by reflexivity.
    match type of H with
    | bind (send_verification_code E ?em ?un) _ ?st = _ =>
        destruct (send_verification_code_returns E em un st)
          as (s2 & Hsend & Hstore2 & _ & Hticks2 & Hsalts2 & _)
    end.
    erewrite bind_Return in H by exact Hsend.
    match type of H with
    | bind (register_code_attempts ?c ?a) _ ?st = _ =>
        pose proof (register_code_attempts_store c a st) as Hstore3;
        destruct (register_code_attempts c a st) as [verified s3|e s3] eqn:Hcodes
    end.
    2:{ erewrite bind_Raise in H by exact Hcodes. discriminate. }
    erewrite bind_Return in H by exact Hcodes.
    apply register_code_attempts_counters in Hcodes as [Hticks3 Hsalts3].
    destruct verified; [|discriminate].
    injection H as <- <-. split; [exact Hline|]. split.
    + eapply same_store_trans; [|exact Hstore3].
      eapply same_store_trans; [|exact Hstore2]. split; reflexivity.
    + rewrite Hticks3, Hsalts3, Hticks2, Hsalts2. auto.
  - apply IH in H as (Hacc & [Hdb Hfile] & Hticks & Hsalts).
    split; [exact Hacc|]. split; [split; assumption | auto].
Qed.

Lemma password_loop_returns_facts (ask confirm : prompt) (ins : list string)
    (s s' : state) (password : string) :
  password_loop ask confirm ins s = Return password s' ->
  password_violation password = None /\ same_store s s' /\
  ticks s' = ticks s /\ salts s' = salts s.
Proof.
  revert s'.
  apply (password_loop_ind ask confirm
           (fun _ s o => forall s', o = Return password s' ->
              password_violation password = None /\ same_store s s' /\
              ticks s' = ticks s /\ salts s' = salts s)).
  - intros; discriminate.
  - intros ins0 s0 password0 rest _ s1 v Hv IH s' Hrun.
    destruct (IH s' Hrun) as (Hvalid & [Hdb Hfile] & Ht & Hs).
    split; [exact Hvalid|]. split; [split; assumption | auto].
  - intros; discriminate.
  - intros ins0 s0 password0 rest _ s1 Hv confirm_password rest' _ s2 Hne IH s' Hrun.
    destruct (IH s' Hrun) as (Hvalid & [Hdb Hfile] & Ht & Hs).
    split; [exact Hvalid|]. split; [split; assumption | auto].
  - intros ins0 s0 password0 rest _ s1 Hv confirm_password rest' _ s2 Heq s' Hrun.
    injection Hrun as <- <-. split; [exact Hv|]. repeat split.
Qed.

(** X7. The registration flow returns [True] only by creating one
    record: under a username that was accepted, so not registered
    before, holding the accepted email, the bcrypt hash of a password
    that passes the policy, [failed_attempts] 0, no lock and the time of
    registration; every record that existed before is still there
    unchanged, and the file is a copy of the new database. *)
Theorem register_user_true (E : environment) (s s' : state) :
  register_user E s = Return true s' ->
  exists username email password,
    username_accepted (database s) username /\
    email_accepted E email /\
    password_violation password = None /\
    database s' =
      <[username := mk_user_data (hashpw E password (gensalt E (salts s))) email
                      0 None (strftime (clock E (ticks s)))]> (database s) /\
    (forall other r, database s !! other = Some r -> database s' !! other = Some r) /\
    db_file s' = Some (database s').
Proof.
  intros H. unfold register_user in H.
  rewrite (bind_Return _ _ s (print Banner_registration s) tt) in H by reflexivity.
  destruct (register_username_loop (stdin (print Banner_registration s))
              (print Banner_registration s)) as [username s1|e s1] eqn:H1.
  2:{ erewrite bind_Raise in H by exact H1. discriminate. }
  erewrite bind_Return in H by exact H1.
  apply register_username_loop_returns in H1
    as (Huser & [Hdb1 Hfile1] & Hticks1 & Hsalts1 & _).
  destruct (register_email_loop E (stdin s1) s1) as [[email|] s2|e s2] eqn:H2.
  2:{ erewrite bind_Return in H by exact H2. discriminate. }
  2:{ erewrite bind_Raise in H by exact H2. discriminate. }
  erewrite bind_Return in H by exact H2. cbn iota beta in H.
  apply register_email_loop_returns in H2
    as (Hemail & [Hdb2 Hfile2] & Hticks2 & Hsalts2).
  destruct (password_loop Prompt_create_password Prompt_confirm_password
              (stdin s2) s2) as [password s3|e s3] eqn:H3.
  2:{ erewrite bind_Raise in H by exact H3. discriminate. }
  erewrite bind_Return in H by exact H3.
  apply password_loop_returns_facts in H3
    as (Hvalid & [Hdb3 Hfile3] & Hticks3 & Hsalts3).
  unfold_flow. injection H as <-.
  fields_in Hdb1. fields_in Hticks1. fields_in Hsalts1. fields_in Huser.
  exists username, email, password.
  split; [exact Huser|]. split; [exact Hemail|]. split; [exact Hvalid|].
  cbn [database db_file set_database set_db_file print log set_ticks set_salts
       salts ticks].
  rewrite Hsalts3, Hsalts2, Hsalts1, Hticks3, Hticks2, Hticks1, Hdb3, Hdb2, Hdb1.
  split; [reflexivity|]. split; [|reflexivity].
  intros other r Hother. destruct Huser as (_ & _ & Hfree).
  rewrite lookup_insert_ne by congruence. exact Hother.
Qed.

Lemma register_user_true_witness :
  exists username email password,
    username_accepted
      (database
         (example_state (example_record 0 None)
            ["bob"; "bob_02"; "b@x"; "b@x.org"; "000000"; "012345";
             "weakpass"; "Passw0rd"; "Passw0rd"]))
      username /\
    email_accepted (example_environment (fun _ => 0%Z)) email /\
    password_violation password = None.
Proof.
  assert (Hrun : register_user (example_environment (fun _ => 0%Z))
                   (example_state (example_record 0 None)
                      ["bob"; "bob_02"; "b@x"; "b@x.org"; "000000"; "012345";
                       "weakpass"; "Passw0rd"; "Passw0rd"]) =
                 Return true
                   (outcome_state
                      (register_user (example_environment (fun _ => 0%Z))
                         (example_state (example_record 0 None)
                            ["bob"; "bob_02"; "b@x"; "b@x.org"; "000000"; "012345";
                             "weakpass"; "Passw0rd"; "Passw0rd"]))))
    by (vm_compute; reflexivity).
  destruct (register_user_true _ _ _ Hrun)
    as (username & email & password & Huser & Hemail & Hvalid & _).
  exists username, email, password. auto.
Defined.

(** X8. The reset flow returns [True] only when the username is
    registered, the account is not locked at the time of the lockout
    check, and the line typed after the username is the code that was
    issued; the record then keeps its email and registration time and
    has the bcrypt hash of a new password that passes the policy,
    [failed_attempts] 0 and no lock; the other records are unchanged and
    the file is a copy of the database. *)
Theorem reset_password_true (E : environment) (s s' : state) :
  reset_password E s = Return true s' ->
  exists username tail r new_password,
    stdin s = username :: random_digits E 6 (draws s) :: tail /\
    database s !! username = Some r /\
    (forall t, locked_until r = Some t -> (strptime t <= clock E (ticks s))%Z) /\
    password_violation new_password = None /\
    database s' !! username =
      Some (mk_user_data (hashpw E new_password (gensalt E (salts s)))
              (email r) 0 None (registered_on r)) /\
    (forall other, other <> username -> database s' !! other = database s !! other) /\
    db_file s' = Some (database s').
Proof.
  intros Hrun.
  destruct (stdin s) as [|username rest] eqn:Hin.
  { exfalso. unfold reset_password in Hrun.
    rewrite (bind_Return _ _ s (print Banner_reset s) tt) in Hrun by reflexivity.
    erewrite bind_Raise in Hrun by (apply input_nil; exact Hin). discriminate. }
  destruct (database s !! username) as [r|] eqn:Hr.
  2:{ rewrite (reset_password_unknown E username rest s Hin Hr) in Hrun.
      discriminate. }
  assert (Hnot : forall t, locked_until r = Some t ->
                           (strptime t <= clock E (ticks s))%Z).
  { intros t Ht.
    destruct (Z.lt_ge_cases (clock E (ticks s)) (strptime t)) as [Hlt|Hge];
      [|exact Hge].
    destruct (reset_password_locked E username rest r t s Hin Hr Ht Hlt)
      as (s'' & Hfalse & _).
    congruence. }
  destruct (reset_password_asks_code E username rest r s Hin Hr Hnot)
    as (s2 & r1 & Hsteps & Hin2 & Hsalts2 & Hr2 & Hother2 & Hemail & Hreg & _).
  rewrite Hsteps in Hrun.
  destruct rest as [|user_code tail].
  { erewrite bind_Raise in Hrun by (apply input_nil; exact Hin2). discriminate. }
  erewrite bind_Return in Hrun by (apply input_cons; exact Hin2).
  destruct (String.eqb user_code (random_digits E 6 (draws s))) eqn:Hcode;
    cbn [negb] in Hrun; [|discriminate].
  apply String.eqb_eq in Hcode as ->.
  match type of Hrun with
  | bind _ _ ?st = _ =>
      destruct (password_loop Prompt_new_password Prompt_confirm_new_password
                  (stdin st) st) as [new_password s3|e s3] eqn:H3
  end.
  2:{ erewrite bind_Raise in Hrun by exact H3. discriminate. }
  erewrite bind_Return in Hrun by exact H3.
  apply password_loop_returns_facts in H3 as (Hvalid & [Hdb3 Hfile3] & _ & Hsalts3).
  unfold_flow. injection Hrun as <-.
  fields_in Hdb3. fields_in Hsalts3.
  exists username, tail, r, new_password.
  split; [reflexivity|]. split; [first [reflexivity | exact Hr]|].
  split; [exact Hnot|]. split; [exact Hvalid|].
  cbn [database db_file set_database set_db_file print log set_ticks set_salts
       salts ticks].
  rewrite Hsalts3, Hsalts2, Hdb3.
  split; [|split; [|reflexivity]].
  - rewrite !lookup_alter_eq, Hr2. cbn [fmap option_fmap option_map]. f_equal.
    unfold set_locked_until, set_failed_attempts, set_password_hash.
    cbn [password_hash email failed_attempts locked_until registered_on].
    now rewrite Hemail, Hreg.
  - intros other Hne. rewrite !lookup_alter_ne by congruence. now apply Hother2.
Qed.

Lemma reset_password_true_witness :
  exists r new_password,
    database
      (example_state (example_record 2 None)
         ["alice01"; "012345"; "short"; "NewPassw0rd"; "NewPassw0rd"])
      !! "alice01" = Some r /\
    password_violation new_password = None.
Proof.
  assert (Hrun : reset_password (example_environment (fun _ => 0%Z))
                   (example_state (example_record 2 None)
                      ["alice01"; "012345"; "short"; "NewPassw0rd"; "NewPassw0rd"]) =
                 Return true
                   (outcome_state
                      (reset_password (example_environment (fun _ => 0%Z))
                         (example_state (example_record 2 None)
                            ["alice01"; "012345"; "short"; "NewPassw0rd";
                             "NewPassw0rd"]))))
    by (vm_compute; reflexivity).
  destruct (reset_password_true _ _ _ Hrun)
    as (username & tail & r & new_password & Hin & Hr & _ & Hvalid & _).
  injection Hin as <- _. exists r, new_password. auto.
Defined.

(** ** The life of a lock *)

(** X9. A lock written by a failure at clock reading [now] holds for
    every lockout check made up to one second before [now] plus 15
    minutes, and is lifted by the first check made at [now] plus 15
    minutes or later, which resets the counter, clears the lock and
    saves the database. *)
Theorem lock_duration (E : environment) (username : string) (r : user_data)
    (now : datetime) (s : state) :
  database s !! username = Some r ->
  locked_until r = Some (strftime (now + timedelta_minutes lockout_duration)) ->
  ((clock E (ticks s) <= now + timedelta_minutes 15 - microseconds_per_second)%Z ->
   exists s', check_account_lockout E username s = Return true s' /\ same_store s s') /\
  ((now + timedelta_minutes 15 <= clock E (ticks s))%Z ->
   exists s',
     check_account_lockout E username s = Return false s' /\
     database s' !! username = Some (unlocked r) /\
     db_file s' = Some (database s')).
Proof.
  intros Hr Hlock.
  pose proof (strftime_truncates (now + timedelta_minutes lockout_duration)) as Hcut.
  change lockout_duration with 15%Z in *.
  unfold check_account_lockout. rewrite Hr, Hlock. unfold_flow. cbn. split.
  - intros Hearly.
    destruct (clock E (ticks s) <? _)%Z eqn:Hnow; [|apply Z.ltb_ge in Hnow; lia].
    cbn. eexists. split; [reflexivity | split; reflexivity].
  - intros Hlate.
    destruct (clock E (ticks s) <? _)%Z eqn:Hnow; [apply Z.ltb_lt in Hnow; lia|].
    cbn. eexists. split; [reflexivity|]. cbn.
    split; [apply alter_alter_lookup; exact Hr | reflexivity].
Qed.

Lemma lock_duration_witness :
  exists s',
    check_account_lockout (example_environment (fun _ => 900000000%Z)) "alice01"
      (example_state (example_record 5 (Some 901%Z)) []) = Return true s' /\
    same_store (example_state (example_record 5 (Some 901%Z)) []) s'.
Proof.
  destruct (lock_duration (example_environment (fun _ => 900000000%Z)) "alice01"
              (example_record 5 (Some 901%Z)) 1500000%Z
              (example_state (example_record 5 (Some 901%Z)) [])
              eq_refl eq_refl) as [Hheld _].
  apply Hheld. vm_compute. discriminate.
Defined.

(** X10. The lockout check never raises and reads no console line and
    no random number; it leaves every other user's record alone and, for
    the user it checks, keeps hash, email and registration time.  After
    a check that returned [False], checking again returns [False] and
    changes nothing. *)
Theorem check_account_lockout_frame (E : environment) (username : string) (s : state) :
  exists b s1,
    check_account_lockout E username s = Return b s1 /\
    stdin s1 = stdin s /\ draws s1 = draws s /\ salts s1 = salts s /\
    (forall other, other <> username -> database s1 !! other = database s !! other) /\
    (forall r1, database s1 !! username = Some r1 ->
       exists r, database s !! username = Some r /\
                 password_hash r1 = password_hash r /\
                 email r1 = email r /\
                 registered_on r1 = registered_on r) /\
    (b = false -> check_account_lockout E username s1 = Return false s1).
Proof.
  unfold check_account_lockout at 1.
  destruct (database s !! username) as [r|] eqn:Hr.
  - destruct (locked_until r) as [t|] eqn:Hlock.
    + unfold_flow. cbn. destruct (clock E (ticks s) <? strptime t)%Z; cbn.
      * eexists _, _. split; [reflexivity|]. cbn.
        repeat split; auto; try discriminate.
        intros r1 Hr1. exists r. rewrite Hr in Hr1. injection Hr1 as <-. auto.
      * eexists _, _. split; [reflexivity|]. cbn.
        split; [reflexivity|]. split; [reflexivity|]. split; [reflexivity|].
        split; [intros other Hne; now rewrite !lookup_alter_ne by congruence|].
        split.
        { intros r1 Hr1. exists r. rewrite !lookup_alter_eq, Hr in Hr1.
          cbn in Hr1. injection Hr1 as <-. auto. }
        intros _. unfold check_account_lockout. cbn.
        rewrite !lookup_alter_eq, Hr. reflexivity.
    + exists false, s. split; [reflexivity|]. repeat split; auto.
      * intros r1 Hr1. exists r. rewrite Hr in Hr1. injection Hr1 as <-. auto.
      * intros _. unfold check_account_lockout. now rewrite Hr, Hlock.
  - exists false, s. split; [reflexivity|]. repeat split; auto.
    + intros r1 Hr1. congruence.
    + intros _. unfold check_account_lockout. now rewrite Hr.
Qed.

Lemma check_account_lockout_expired (E : environment) (username : string)
    (r : user_data) (t : Z) (s : state) :
  database s !! username = Some r ->
  locked_until r = Some t ->
  (strptime t <= clock E (ticks s))%Z ->
  exists s1,
    check_account_lockout E username s = Return false s1 /\
    database s1 !! username = Some (unlocked r) /\
    (forall other, other <> username -> database s1 !! other = database s !! other) /\
    db_file s1 = Some (database s1) /\
    stdin s1 = stdin s /\ draws s1 = draws s.
Proof.
  intros Hr Hlock Hexp. apply Z.ltb_ge in Hexp.
  unfold check_account_lockout. rewrite Hr, Hlock. unfold_flow. cbn.
  rewrite Hexp. cbn. eexists. split; [reflexivity|]. cbn.
  split; [apply alter_alter_lookup; exact Hr|].
  split; [intros other Hne; now rewrite !lookup_alter_ne by congruence|].
  repeat split.
Qed.

(** X11. Once a lock has expired the account behaves like a fresh one
    at the next login: with a wrong password the flow returns [False]
    and the record is left with [failed_attempts] 1 and no lock (the old
    count of 5 is not carried over); with the right password and the
    code typed within three attempts the flow returns [True] and the
    record is left with [failed_attempts] 0 and no lock. *)
Theorem login_after_lock_expiry (E : environment) (username password : string)
    (rest : list string) (r : user_data) (t : Z) (s : state) :
  stdin s = username :: password :: rest ->
  database s !! username = Some r ->
  locked_until r = Some t ->
  (strptime t <= clock E (ticks s))%Z ->
  (checkpw E password (password_hash r) = false ->
   exists s',
     authenticate E s = Return false s' /\
     stdin s' = rest /\
     database s' !! username =
       Some (mk_user_data (password_hash r) (email r) 1 None (registered_on r)) /\
     db_file s' = Some (database s')) /\
  (checkpw E password (password_hash r) = true ->
   forall wrong tail,
     rest = (wrong ++ random_digits E 6 (draws s) :: tail)%list ->
     (length wrong < 3)%nat ->
     Forall (fun c => c <> random_digits E 6 (draws s)) wrong ->
     exists s',
       authenticate E s = Return true s' /\
       stdin s' = tail /\
       database s' !! username =
         Some (mk_user_data (password_hash r) (email r) 0 None (registered_on r)) /\
       db_file s' = Some (database s')).
Proof.
  intros Hin Hr Hlock Hexp.
  destruct (check_account_lockout_expired E username r t
              (log (Input Prompt_login_username username)
                 (set_stdin (password :: rest) (print Banner_login s)))
              Hr Hlock Hexp)
    as (s1 & Hcheck & Hr1 & _ & Hfile1 & Hin1 & Hdraws1).
  fields_in Hin1. fields_in Hdraws1.
  unfold authenticate.
  rewrite (bind_Return _ _ s (print Banner_login s) tt) by reflexivity.
  erewrite bind_Return by (apply input_cons; exact Hin).
  erewrite bind_Return by (eapply known_user_Some; exact Hr).
  cbn [negb].
  erewrite bind_Return by exact Hcheck. cbn iota.
  erewrite bind_Return by (apply getpass_cons; exact Hin1).
  erewrite bind_Return by (apply lookup_user_Some; exact Hr1).
  erewrite bind_Return by reflexivity.
  change (password_hash (unlocked r)) with (password_hash r).
  split; intros Hpw; rewrite Hpw; cbn [negb].
  - erewrite bind_Return by reflexivity.
    erewrite bind_Return.
    2:{ apply lookup_user_Some. cbn. rewrite lookup_alter_eq, Hr1. reflexivity. }
    cbn [failed_attempts set_failed_attempts unlocked set_locked_until].
    change (max_failed_attempts <=? 0 + 1)%Z with false. cbn iota.
    unfold_flow. eexists. split; [reflexivity|]. cbn.
    split; [reflexivity|]. split; [|reflexivity].
    rewrite lookup_alter_eq, Hr1. reflexivity.
  - intros wrong tail -> Hlen Hwrong.
    do 3 (erewrite bind_Return by reflexivity).
    match goal with
    | |- exists _, bind (send_verification_code E ?em ?un) _ ?st = _ /\ _ =>
        destruct (send_verification_code_returns E em un st)
          as (s2 & Hsend & [Hdb2 Hfile2] & Hin2 & _)
    end.
    fields_in Hin2. fields_in Hdb2. fields_in Hfile2.
    destruct (login_code_attempts_match username (random_digits E 6 (draws s))
                wrong tail s2 Hlen Hwrong)
      as (s3 & Hloop & Hin3 & [Hdb3 Hfile3]); [exact Hin2|].
    exists s3. split.
    + erewrite bind_Return by exact Hsend.
      fields_in Hdraws1.
      cbn [draws set_database set_db_file print log set_stdin].
      rewrite Hdraws1. exact Hloop.
    + split; [exact Hin3|]. rewrite Hfile3, Hfile2, Hdb3, Hdb2.
      split; [|reflexivity]. rewrite lookup_alter_eq, Hr1. reflexivity.
Qed.

Lemma login_after_lock_expiry_witness :
  exists s',
    authenticate (example_environment (fun _ => 2000000000%Z))
      (example_state (example_record 5 (Some 900%Z)) ["alice01"; "wrong"]) =
    Return false s' /\
    database s' !! "alice01" = Some (example_record 1 None).
Proof.
  destruct (login_after_lock_expiry (example_environment (fun _ => 2000000000%Z))
              "alice01" "wrong" [] (example_record 5 (Some 900%Z)) 900%Z
              (example_state (example_record 5 (Some 900%Z)) ["alice01"; "wrong"])
              eq_refl eq_refl eq_refl) as [Hwrong _].
  - vm_compute. discriminate.
  - destruct (Hwrong eq_refl) as (s' & Hrun & _ & Hr' & _).
    exists s'. split; [exact Hrun | exact Hr'].
Defined.

(** ** Persistence *)


Lemma synced_save (s : state) : synced (set_db_file (Some (database s)) s).
Proof. reflexivity. Qed.










(** ** The console *)

Lemma console_ok_bind {A B} (m : M A) (k : A -> M B) (s : state) :
  console_ok s (m s) ->
  (forall a s', m s = Return a s' -> console_ok s' (k a s')) ->
  console_ok s (bind m k s).
Proof.
  intros [Hlen Hraise] Hk. unfold bind.
  destruct (m s) as [a s1|e s1] eqn:Hm.
  - destruct (Hk a s1 eq_refl) as [Hlen' Hraise']. cbn in Hlen.
    split; [lia | exact Hraise'].
  - split; [exact Hlen|]. intros e' s' H. injection H as <- <-.
    now apply Hraise.
Qed.

Lemma console_ok_return {A} (s s' : state) (a : A) :
  (length (stdin s') <= length (stdin s))%nat -> console_ok s (Return a s').
Proof. intros H. split; [exact H | discriminate]. Qed.

Lemma console_ok_input (p : prompt) (s : state) : console_ok s (input p s).
Proof.
  unfold input. destruct (stdin s) as [|line rest] eqn:Hin.
  - split; [cbn; lia|]. intros e s' H. injection H as <- <-. auto.
  - apply console_ok_return. rewrite Hin. cbn. lia.
Qed.

Lemma console_ok_getpass (p : prompt) (s : state) : console_ok s (getpass p s).
Proof.
  unfold getpass. destruct (stdin s) as [|line rest] eqn:Hin.
  - split; [cbn; lia|]. intros e s' H. injection H as <- <-. auto.
  - apply console_ok_return. rewrite Hin. cbn. lia.
Qed.

Lemma console_ok_weaken {A} (s0 s : state) (o : outcome A) :
  (length (stdin s) <= length (stdin s0))%nat -> console_ok s o -> console_ok s0 o.
Proof. intros Hle [Hlen Hraise]. split; [lia | exact Hraise]. Qed.

Lemma console_ok_send (E : environment) (email : string) (username : option string)
    (s : state) :
  console_ok s (send_verification_code E email username s).
Proof.
  destruct (send_verification_code_returns E email username s)
    as (s' & -> & _ & Hin & _).
  apply console_ok_return. rewrite Hin. lia.
Qed.

Lemma console_ok_check (E : environment) (username : string) (s : state) :
  console_ok s (check_account_lockout E username s).
Proof.
  unfold check_account_lockout.
  destruct (database s !! username) as [r|]; [|apply console_ok_return; lia].
  destruct (locked_until r) as [t|]; [|apply console_ok_return; lia].
  unfold_flow. cbn. destruct (clock E (ticks s) <? strptime t)%Z;
    apply console_ok_return; cbn; lia.
Qed.

Lemma console_ok_login_codes (username code : string) (attempts : list Z) (s : state) :
  console_ok s (login_code_attempts username code attempts s).
Proof.
  revert s. induction attempts as [|attempt more IH]; intros s.
  - apply console_ok_return. cbn. lia.
  - cbn [login_code_attempts]. apply console_ok_bind; [apply console_ok_input|].
    intros user_code s1 _. destruct (String.eqb user_code code).
    + apply console_ok_return. cbn. lia.
    + apply console_ok_bind; [apply console_ok_return; cbn; lia|].
      intros [] s2 _. apply IH.
Qed.

Lemma console_ok_register_codes (code : string) (attempts : list Z) (s : state) :
  console_ok s (register_code_attempts code attempts s).
Proof.
  revert s. induction attempts as [|attempt more IH]; intros s.
  - apply console_ok_return. cbn. lia.
  - cbn [register_code_attempts]. apply console_ok_bind; [apply console_ok_input|].
    intros user_code s1 _. destruct (String.eqb user_code code).
    + apply console_ok_return. cbn. lia.
    + cbn zeta. destruct (0 <? 2 - attempt)%Z.
      * apply console_ok_bind; [apply console_ok_return; cbn; lia|].
        intros [] s2 _. apply IH.
      * apply console_ok_return. cbn. lia.
Qed.

Lemma console_ok_password_loop (ask confirm : prompt) (s : state) :
  console_ok s (password_loop ask confirm (stdin s) s).
Proof.
  assert (H : forall ins s, stdin s = ins ->
                            console_ok s (password_loop ask confirm ins s)).
  { clear s. intros ins s.
    apply (password_loop_ind ask confirm
             (fun ins s o => stdin s = ins -> console_ok s o)).
    - intros ins0 s0 _ Hin. split; [cbn; lia|].
      intros e s' H. injection H as <- <-. auto.
    - intros ins0 s0 password rest _ s1 v Hv IH Hin.
      eapply console_ok_weaken; [|apply IH; reflexivity]. rewrite Hin. cbn. lia.
    - intros ins0 s0 password rest _ s1 Hv -> Hin. split; [rewrite Hin; cbn; lia|].
      intros e s' H. injection H as <- <-. auto.
    - intros ins0 s0 password rest _ s1 Hv confirm_password rest' -> s2 Hne IH Hin.
      eapply console_ok_weaken; [|apply IH; reflexivity]. rewrite Hin. cbn. lia.
    - intros ins0 s0 password rest _ s1 Hv confirm_password rest' -> s2 Heq Hin.
      apply console_ok_return. rewrite Hin. cbn. lia. }
  now apply H.
Qed.

Lemma console_ok_username_loop (s : state) :
  console_ok s (register_username_loop (stdin s) s).
Proof.
  assert (H : forall ins s, stdin s = ins ->
                            console_ok s (register_username_loop ins s)).
  { clear s. induction ins as [|username rest IH]; intros s Hin.
    - split; [cbn; lia|]. intros e s' H. injection H as <- <-. auto.
    - cbn [register_username_loop].
      repeat match goal with
             | |- console_ok _ (if ?b then _ else _) => destruct b
             end;
        try (eapply console_ok_weaken; [|apply IH; reflexivity];
             rewrite Hin; cbn; lia).
      apply console_ok_return. rewrite Hin. cbn. lia. }
  now apply H.
Qed.

Lemma console_ok_email_loop (E : environment) (s : state) :
  console_ok s (register_email_loop E (stdin s) s).
Proof.
  assert (H : forall ins s, stdin s = ins ->
                            console_ok s (register_email_loop E ins s)).
  { clear s. induction ins as [|email rest IH]; intros s Hin.
    - split; [cbn; lia|]. intros e s' H. injection H as <- <-. auto.
    - cbn [register_email_loop].
      destruct (negb (re_match_anchored (email_regex E) email)).
      + eapply console_ok_weaken; [|apply IH; reflexivity]. rewrite Hin. cbn. lia.
      + eapply console_ok_weaken;
          [|apply console_ok_bind; [apply console_ok_return; cbn; lia|]].
        { rewrite Hin. cbn. lia. }
        intros [] s1 _. apply console_ok_bind; [apply console_ok_send|].
        intros code s2 _. apply console_ok_bind; [apply console_ok_register_codes|].
        intros verified s3 _. apply console_ok_return. lia. }
  now apply H.
Qed.

Lemma check_account_lockout_keeps_user (E : environment) (username : string)
    (s s' : state) (b : bool) :
  check_account_lockout E username s = Return b s' ->
  is_Some (database s !! username) -> is_Some (database s' !! username).
Proof.
  unfold check_account_lockout. intros H [r Hr]. rewrite Hr in H.
  destruct (locked_until r) as [t|]; [|injection H as <- <-; eauto].
  unfold_flow. cbn in H. destruct (clock E (ticks s) <? strptime t)%Z; cbn in H;
    injection H as <- <-; cbn; [eauto|].
  rewrite !lookup_alter_eq, Hr. cbn. eauto.
Qed.

Lemma console_ok_authenticate (E : environment) (s : state) :
  console_ok s (authenticate E s).
Proof.
  unfold authenticate.
  apply console_ok_bind; [apply console_ok_return; cbn; lia|].
  intros [] s0 _.
  apply console_ok_bind; [apply console_ok_input|].
  intros username s1 _.
  apply console_ok_bind; [apply console_ok_return; lia|].
  intros known s1' Hknown. unfold known_user in Hknown. injection Hknown as <- <-.
  destruct (bool_decide (is_Some (database s1 !! username))) eqn:Hknown; cbn [negb];
    [|apply console_ok_return; cbn; lia].
  apply bool_decide_eq_true in Hknown.
  apply console_ok_bind; [apply console_ok_check|].
  intros locked s2 Hs2.
  apply check_account_lockout_keeps_user in Hs2; [|exact Hknown].
  destruct locked; [apply console_ok_return; lia|].
  apply console_ok_bind; [apply console_ok_getpass|].
  intros password s3 Hs3.
  pose proof (getpass_store Prompt_login_password s2) as [Hdb3 _].
  rewrite Hs3 in Hdb3. cbn in Hdb3. rewrite <- Hdb3 in Hs2.
  destruct Hs2 as [r3 Hr3].
  erewrite bind_Return by (apply lookup_user_Some; exact Hr3).
  erewrite bind_Return by reflexivity.
  destruct (checkpw E password (password_hash r3)); cbn [negb].
  - do 3 (erewrite bind_Return by reflexivity).
    eapply console_ok_weaken;
      [|apply console_ok_bind; [apply console_ok_send|]].
    { cbn. lia. }
    intros code s4 _. apply console_ok_login_codes.
  - erewrite bind_Return by reflexivity.
    erewrite bind_Return.
    2:{ apply lookup_user_Some. cbn. rewrite lookup_alter_eq, Hr3. reflexivity. }
    destruct (max_failed_attempts <=? _)%Z; unfold_flow;
      apply console_ok_return; cbn; lia.
Qed.

Lemma console_ok_register_user (E : environment) (s : state) :
  console_ok s (register_user E s).
Proof.
  unfold register_user.
  apply console_ok_bind; [apply console_ok_return; cbn; lia|].
  intros [] s0 _.
  apply console_ok_bind; [apply console_ok_username_loop|].
  intros username s1 _.
  apply console_ok_bind; [apply console_ok_email_loop|].
  intros [email|] s2 _; [|apply console_ok_return; lia].
  apply console_ok_bind; [apply console_ok_password_loop|].
  intros password s3 _. unfold_flow. apply console_ok_return. cbn. lia.
Qed.

Lemma console_ok_reset_password (E : environment) (s : state) :
  console_ok s (reset_password E s).
Proof.
  unfold reset_password.
  apply console_ok_bind; [apply console_ok_return; cbn; lia|].
  intros [] s0 _.
  apply console_ok_bind; [apply console_ok_input|].
  intros username s1 _.
  apply console_ok_bind; [apply console_ok_return; lia|].
  intros known s1' Hknown. unfold known_user in Hknown. injection Hknown as <- <-.
  destruct (bool_decide (is_Some (database s1 !! username))) eqn:Hknown; cbn [negb];
    [|apply console_ok_return; cbn; lia].
  apply bool_decide_eq_true in Hknown.
  apply console_ok_bind; [apply console_ok_check|].
  intros locked s2 Hs2.
  apply check_account_lockout_keeps_user in Hs2; [|exact Hknown].
  destruct locked; [apply console_ok_return; lia|].
  destruct Hs2 as [r2 Hr2].
  erewrite bind_Return by (apply lookup_user_Some; exact Hr2). cbn zeta.
  apply console_ok_bind; [apply console_ok_send|].
  intros code s3 _.
  apply console_ok_bind; [apply console_ok_input|].
  intros user_code s4 _.
  destruct (negb (String.eqb user_code code)); [apply console_ok_return; cbn; lia|].
  apply console_ok_bind; [apply console_ok_password_loop|].
  intros new_password s5 _. unfold_flow. apply console_ok_return. cbn. lia.
Qed.

Lemma console_ok_run_flow (E : environment) (f : flow) (s : state) :
  console_ok s (run_flow E f s).
Proof.
  destruct f; [apply console_ok_authenticate | apply console_ok_register_user
              | apply console_ok_reset_password].
Qed.

Lemma populate_demo_users_returns (E : environment) (s : state) :
  exists s1, populate_demo_users E s = Return tt s1 /\ stdin s1 = stdin s.
Proof.
  unfold populate_demo_users. destruct (bool_decide (database s = ∅)).
  - unfold_flow. cbn [populate_loop demo_users]. eexists. split; reflexivity.
  - eexists. split; reflexivity.
Qed.

Lemma startup_returns (E : environment) (s : state) :
  exists s1, startup E s = Return tt s1 /\ stdin s1 = stdin s.
Proof.
  unfold startup.
  assert (Hload : exists s0, load_database s = Return tt s0 /\ stdin s0 = stdin s).
  { unfold load_database. destruct (db_file s); eexists; split; reflexivity. }
  destruct Hload as (s0 & Hload & Hin0).
  destruct (populate_demo_users_returns E s0) as (s1 & Hpop & Hin1).
  exists s1. split; [|congruence].
  erewrite bind_Return by exact Hload. exact Hpop.
Qed.

(** The three menu choices that run a flow, and what [main_loop] does
    with each of them. *)
Lemma main_loop_step (E : environment) (fuel : nat) (s : state) :
  main_loop E (S fuel) s =
  match stdin s with
  | [] => Some (Raise EOFError (print Menu s))
  | choice :: rest =>
      let s1 := log (Input Prompt_choice choice) (set_stdin rest (print Menu s)) in
      let continue (o : outcome bool) :=
        match o with
        | Return _ s2 => main_loop E fuel s2
        | Raise e s2 => Some (Raise e s2)
        end in
      if String.eqb choice "1" then continue (authenticate E s1)
      else if String.eqb choice "2" then continue (register_user E s1)
      else if String.eqb choice "3" then continue (reset_password E s1)
      else if String.eqb choice "4" then Some (Return tt (print Goodbye s1))
      else main_loop E fuel (print Invalid_choice s1)
  end.
Proof.
  cbn [main_loop]. unfold input. change (stdin (print Menu s)) with (stdin s).
  destruct (stdin s); reflexivity.
Qed.

Lemma main_loop_terminates (E : environment) (fuel : nat) :
  forall s, (length (stdin s) < fuel)%nat -> exists o, main_loop E fuel s = Some o.
Proof.
  induction fuel as [|fuel IH]; intros s Hlen; [lia|].
  rewrite main_loop_step. destruct (stdin s) as [|choice rest] eqn:Hin; [eauto|].
  cbn in Hlen. cbn zeta.
  set (s1 := log (Input Prompt_choice choice) (set_stdin rest (print Menu s))).
  assert (Hflow : forall f,
            exists o, match run_flow E f s1 with
                      | Return _ s2 => main_loop E fuel s2
                      | Raise e s2 => Some (Raise e s2)
                      end = Some o).
  { intros f. destruct (console_ok_run_flow E f s1) as [Hle _].
    destruct (run_flow E f s1) as [b s2|e s2]; [|eauto].
    apply IH. cbn in Hle. lia. }
  destruct (String.eqb choice "1"); [exact (Hflow Login)|].
  destruct (String.eqb choice "2"); [exact (Hflow Registration)|].
  destruct (String.eqb choice "3"); [exact (Hflow Reset)|].
  destruct (String.eqb choice "4"); [eauto|].
  apply IH. cbn. lia.
Qed.

Lemma main_loop_raises (E : environment) (fuel : nat) :
  forall s e s', main_loop E fuel s = Some (Raise e s') ->
                 e = EOFError /\ stdin s' = [].
Proof.
  induction fuel as [|fuel IH]; intros s e s' Hrun; [discriminate|].
  rewrite main_loop_step in Hrun.
  destruct (stdin s) as [|choice rest] eqn:Hin.
  { injection Hrun as <- <-. auto. }
  cbn zeta in Hrun.
  set (s1 := log (Input Prompt_choice choice) (set_stdin rest (print Menu s))) in *.
  assert (Hflow : forall f,
            match run_flow E f s1 with
            | Return _ s2 => main_loop E fuel s2
            | Raise e s2 => Some (Raise e s2)
            end = Some (Raise e s') -> e = EOFError /\ stdin s' = []).
  { intros f Hmatch. destruct (console_ok_run_flow E f s1) as [_ Hraise].
    destruct (run_flow E f s1) as [b s2|e2 s2].
    - exact (IH s2 e s' Hmatch).
    - injection Hmatch as <- <-. now apply Hraise. }
  destruct (String.eqb choice "1"); [exact (Hflow Login Hrun)|].
  destruct (String.eqb choice "2"); [exact (Hflow Registration Hrun)|].
  destruct (String.eqb choice "3"); [exact (Hflow Reset Hrun)|].
  destruct (String.eqb choice "4"); [discriminate|].
  exact (IH _ e s' Hrun).
Qed.

(** X13. No flow and no run of [main] raises [KeyError]: each lookup
    [self.database[username]] is made on a username that is registered
    at that point, because the membership test comes first and the
    lockout check between the test and the lookup removes no user.  A
    console read raises [EOFError] only when no line is left, and no flow
    puts a line back on the console.  (The exceptions that [encode],
    bcrypt, the JSON file or an interrupt can raise have no outcome in
    this embedding and are not covered.) *)
Theorem lookups_never_raise (E : environment) :
  (forall f s key s', run_flow E f s <> Raise (KeyError key) s') /\
  (forall f s s', run_flow E f s = Raise EOFError s' -> stdin s' = []) /\
  (forall f s,
     (length (stdin (outcome_state (run_flow E f s))) <= length (stdin s))%nat) /\
  (forall fuel s key s', main E fuel s <> Some (Raise (KeyError key) s')) /\
  (forall fuel s s', main E fuel s = Some (Raise EOFError s') -> stdin s' = []).
Proof.
  assert (Hmain : forall fuel s e s',
            main E fuel s = Some (Raise e s') -> e = EOFError /\ stdin s' = []).
  { intros fuel s e s' Hrun. unfold main in Hrun.
    destruct (startup_returns E s) as (s1 & Hstart & _).
    unfold startup in Hstart. rewrite Hstart in Hrun.
    exact (main_loop_raises E fuel s1 e s' Hrun). }
  split; [|split; [|split; [|split]]].
  - intros f s key s' Hrun. destruct (console_ok_run_flow E f s) as [_ Hraise].
    destruct (Hraise _ _ Hrun) as [Hkey _]. discriminate.
  - intros f s s' Hrun. destruct (console_ok_run_flow E f s) as [_ Hraise].
    now destruct (Hraise _ _ Hrun).
  - intros f s. now destruct (console_ok_run_flow E f s).
  - intros fuel s key s' Hrun. destruct (Hmain _ _ _ _ Hrun) as [Hkey _]. discriminate.
  - intros fuel s s' Hrun. now destruct (Hmain _ _ _ _ Hrun).
Qed.

(** X14. On a console with finitely many lines the program stops:
    with more fuel than lines, [main] does not run out of fuel. *)
Theorem main_terminates (E : environment) (fuel : nat) (s : state) :
  (length (stdin s) < fuel)%nat ->
  exists o, main E fuel s = Some o.
Proof.
  intros Hlen. unfold main.
  destruct (startup_returns E s) as (s1 & Hstart & Hin).
  unfold startup in Hstart. rewrite Hstart.
  apply main_loop_terminates. now rewrite Hin.
Qed.

Lemma main_terminates_witness :
  exists o,
    main (example_environment (fun _ => 0%Z)) 8
      (first_run ["1"; "user1"; "Password123"; "012345"; "9"; "2"; "ab"]) = Some o.
Proof.
  apply (main_terminates (example_environment (fun _ => 0%Z)) 8
           (first_run ["1"; "user1"; "Password123"; "012345"; "9"; "2"; "ab"])).
  cbn. lia.
Defined.

(** ** Start-up *)

(** X15. Starting the program loads the stored database and never
    alters a non-empty one: the in-memory database becomes the file's
    content, the file stays as it is, and no salt or clock reading is
    consumed.  When there is no file, or the file holds no user, exactly
    the demo users [user1] and [admin] are created, each with
    [failed_attempts] 0 and no lock, and the file is written.  Saving and
    loading gives back the same database. *)
Theorem startup_loads_or_populates (E : environment) (s : state) :
  (forall f,
     db_file s = Some f -> f <> ∅ ->
     exists s',
       startup E s = Return tt s' /\
       database s' = f /\ db_file s' = Some f /\
       salts s' = salts s /\ ticks s' = ticks s) /\
  (db_file s = None \/ db_file s = Some ∅ ->
   exists s' r1 r2,
     startup E s = Return tt s' /\
     database s' = <["admin" := r2]> (<["user1" := r1]> ∅) /\
     db_file s' = Some (database s') /\
     r1 = mk_user_data (hashpw E "Password123" (gensalt E (salts s)))
            "user1@example.com" 0 None (strftime (clock E (ticks s))) /\
     r2 = mk_user_data (hashpw E "Admin123456" (gensalt E (S (salts s))))
            "admin@example.com" 0 None (strftime (clock E (S (ticks s))))) /\
  (exists s',
     (save_database;; load_database) s = Return tt s' /\
     database s' = database s /\ db_file s' = Some (database s)).
Proof.
  split; [|split].
  - intros f Hf Hne. unfold startup.
    erewrite bind_Return by (unfold load_database; rewrite Hf; reflexivity).
    unfold populate_demo_users. cbn [database set_database].
    rewrite bool_decide_eq_false_2 by exact Hne.
    eexists. split; [reflexivity|]. cbn. auto.
  - intros Hfile. unfold startup.
    destruct Hfile as [Hf | Hf].
    + erewrite bind_Return by (unfold load_database; rewrite Hf; reflexivity).
      unfold populate_demo_users. cbn [database set_database set_db_file].
      rewrite bool_decide_eq_true_2 by reflexivity.
      unfold_flow. cbn [populate_loop demo_users].
      eexists _, _, _. split; [reflexivity|]. cbn. auto.
    + erewrite bind_Return by (unfold load_database; rewrite Hf; reflexivity).
      unfold populate_demo_users. cbn [database set_database set_db_file].
      rewrite bool_decide_eq_true_2 by reflexivity.
      unfold_flow. cbn [populate_loop demo_users].
      eexists _, _, _. split; [reflexivity|]. cbn. auto.
  - eexists. split; [reflexivity|]. cbn. auto.
Qed.

(** ** What login leaves alone *)

Lemma credentials_kept_refl (s : state) : credentials_kept s s.
Proof. intros u. reflexivity. Qed.

Lemma credentials_kept_trans (s1 s2 s3 : state) :
  credentials_kept s1 s2 -> credentials_kept s2 s3 -> credentials_kept s1 s3.
Proof. intros H12 H23 u. now rewrite H23, H12. Qed.

Lemma credentials_kept_same (s s' : state) : same_store s s' -> credentials_kept s s'.
Proof. intros [Hdb _] u. now rewrite Hdb. Qed.

Lemma credentials_kept_alter (f : user_data -> user_data) (username : string)
    (s s' : state) :
  (forall r, credentials (f r) = credentials r) ->
  database s' = alter f username (database s) ->
  credentials_kept s s'.
Proof.
  intros Hf Hdb u. rewrite Hdb. destruct (decide (username = u)) as [<-|Hne].
  - rewrite lookup_alter_eq. destruct (database s !! username) as [r|]; cbn;
      [now rewrite Hf | reflexivity].
  - now rewrite lookup_alter_ne.
Qed.

Lemma check_account_lockout_credentials (E : environment) (username : string)
    (s : state) :
  credentials_kept s (outcome_state (check_account_lockout E username s)).
Proof.
  unfold check_account_lockout.
  destruct (database s !! username) as [r|]; [|apply credentials_kept_refl].
  destruct (locked_until r) as [t|]; [|apply credentials_kept_refl].
  unfold_flow. cbn. destruct (clock E (ticks s) <? strptime t)%Z; cbn.
  - apply credentials_kept_same. split; reflexivity.
  - apply (credentials_kept_alter
             (fun r => set_locked_until None (set_failed_attempts 0 r)) username).
    + intros r'. reflexivity.
    + cbn. now rewrite alter_alter_eq.
Qed.

Ltac keep_credentials H :=
  eapply credentials_kept_trans; [exact H|];
  apply credentials_kept_same; split; reflexivity.

(** X16. A login, however it ends, adds and removes no user and
    changes no password hash, email or registration time: all it may
    change in the database are the counter and the lock.  The same holds
    for the lockout check alone. *)
Theorem login_keeps_credentials (E : environment) (s : state) :
  credentials_kept s (outcome_state (authenticate E s)) /\
  (forall username,
     credentials_kept s (outcome_state (check_account_lockout E username s))).
Proof.
  split; [|intros username; apply check_account_lockout_credentials].
  unfold authenticate.
  apply outcome_bind; [apply credentials_kept_same; split; reflexivity|].
  intros [] s0 Hs0. injection Hs0 as <-.
  assert (H0 : credentials_kept s (print Banner_login s))
    by (apply credentials_kept_same; split; reflexivity).
  apply outcome_bind.
  { eapply credentials_kept_trans; [exact H0|].
    apply credentials_kept_same, input_store. }
  intros username s1 Hs1.
  assert (H1 : credentials_kept s s1).
  { pose proof (input_store Prompt_login_username (print Banner_login s)) as H.
    rewrite Hs1 in H. eapply credentials_kept_trans; [exact H0|].
    now apply credentials_kept_same. }
  apply outcome_bind; [exact H1|].
  intros known s1' Hknown. unfold known_user in Hknown. injection Hknown as <- <-.
  destruct (bool_decide (is_Some (database s1 !! username))); cbn [negb];
    [|keep_credentials H1].
  pose proof (check_account_lockout_credentials E username s1) as Hcheck.
  apply outcome_bind; [eapply credentials_kept_trans; [exact H1 | exact Hcheck]|].
  intros locked s2 Hs2. rewrite Hs2 in Hcheck. cbn in Hcheck.
  assert (H2 : credentials_kept s s2)
    by (eapply credentials_kept_trans; [exact H1 | exact Hcheck]).
  destruct locked; [exact H2|].
  apply outcome_bind.
  { eapply credentials_kept_trans; [exact H2|].
    apply credentials_kept_same, getpass_store. }
  intros password s3 Hs3.
  assert (H3 : credentials_kept s s3).
  { pose proof (getpass_store Prompt_login_password s2) as H.
    rewrite Hs3 in H. eapply credentials_kept_trans; [exact H2|].
    now apply credentials_kept_same. }
  apply outcome_bind.
  { unfold lookup_user. destruct (database s3 !! username); exact H3. }
  intros r s3' Hr. unfold lookup_user in Hr.
  destruct (database s3 !! username) as [r3|] eqn:Hr3; [|discriminate].
  injection Hr as <- <-.
  apply outcome_bind; [keep_credentials H3|].
  intros password_match s4 Hs4. unfold bcrypt_checkpw in Hs4. injection Hs4 as <- <-.
  destruct (checkpw E password (password_hash r3)); cbn [negb].
  - do 3 (erewrite bind_Return by reflexivity).
    match goal with
    | |- credentials_kept s (outcome_state (bind _ _ ?st)) =>
        assert (H4 : credentials_kept s st)
    end.
    { eapply credentials_kept_trans; [exact H3|].
      apply (credentials_kept_alter (set_failed_attempts 0) username);
        [intros r'; reflexivity | reflexivity]. }
    apply outcome_bind.
    { eapply credentials_kept_trans; [exact H4|].
      apply credentials_kept_same, send_verification_code_store. }
    intros code s5 Hs5.
    match type of Hs5 with
    | send_verification_code E ?em ?un ?st = _ =>
        pose proof (send_verification_code_store E em un st) as H5
    end.
    rewrite Hs5 in H5.
    eapply credentials_kept_trans; [exact H4|].
    eapply credentials_kept_trans; [apply credentials_kept_same; exact H5|].
    apply credentials_kept_same, login_code_attempts_store.
  - erewrite bind_Return by reflexivity.
    erewrite bind_Return.
    2:{ unfold lookup_user. cbn. rewrite lookup_alter_eq, Hr3. reflexivity. }
    destruct (max_failed_attempts <=? _)%Z;
      do 2 (erewrite bind_Return by reflexivity); cbn [outcome_state];
      (eapply credentials_kept_trans; [exact H3|]).
    + unfold_flow.
      eapply (credentials_kept_alter
                (fun r => set_locked_until _
                            (set_failed_attempts (failed_attempts r + 1) r)) username).
      * intros r'. reflexivity.
      * cbn. rewrite alter_alter_eq. reflexivity.
    + unfold_flow.
      apply (credentials_kept_alter
               (fun r => set_failed_attempts (failed_attempts r + 1) r) username);
        [intros r'; reflexivity | reflexivity].
Qed.

(** ** Flows one after the other *)

(** X17. With a bcrypt whose [checkpw] accepts what [hashpw] made with
    a salt of [gensalt], an account that was just registered can log in:
    the registration flow returns [True], and a login that types the
    same username and password and then the code issued to it returns
    [True]. *)
Theorem register_then_login (E : environment) (username email password : string)
    (rest : list string) (s : state) :
  (forall p k, checkpw E p (hashpw E p (gensalt E k)) = true) ->
  stdin s = username :: email :: random_digits E 6 (draws s) ::
              password :: password :: rest ->
  username_accepted (database s) username ->
  email_accepted E email ->
  password_violation password = None ->
  exists s1,
    register_user E s = Return true s1 /\
    forall tail,
    exists s2,
      authenticate E
        (set_stdin (username :: password :: random_digits E 6 (draws s1) :: tail) s1) =
        Return true s2 /\
      stdin s2 = tail.
Proof.
  intros Hbcrypt Hin Huser Hemail Hvalid.
  destruct (register_user_verified E username email password [] rest s)
    as (s1 & Hrun & _ & Hdb & _);
    try solve [assumption | cbn; lia | constructor].
  exists s1. split; [exact Hrun|]. intros tail.
  apply (authenticate_code_matches E username password [] tail
           (mk_user_data (hashpw E password (gensalt E (salts s))) email 0 None
              (strftime (clock E (ticks s))))
           (set_stdin (username :: password :: random_digits E 6 (draws s1) :: tail) s1));
    try solve [reflexivity | cbn; lia | constructor | apply Hbcrypt].
  cbn [database set_stdin]. rewrite Hdb. apply lookup_insert_eq.
Qed.

Lemma register_then_login_witness :
  exists s1,
    register_user (example_environment (fun _ => 0%Z))
      (example_state (example_record 0 None)
         ["bob_02"; "b@x.org"; "012345"; "Passw0rd"; "Passw0rd"]) = Return true s1.
Proof.
  destruct (register_then_login (example_environment (fun _ => 0%Z))
              "bob_02" "b@x.org" "Passw0rd" []
              (example_state (example_record 0 None)
                 ["bob_02"; "b@x.org"; "012345"; "Passw0rd"; "Passw0rd"]))
    as (s1 & Hrun & _).
  - intros p k. cbn. apply String.eqb_refl.
  - reflexivity.
  - repeat split; vm_compute; reflexivity.
  - vm_compute. reflexivity.
  - reflexivity.
  - exists s1. exact Hrun.
Defined.

(** X18. With a bcrypt whose [checkpw] accepts what [hashpw] made with
    a salt of [gensalt], after a password reset the new password logs
    in; and an old password that bcrypt does not accept against the new
    hash is refused and counted as a failure. *)
Theorem reset_then_login (E : environment) (username new_password : string)
    (rest : list string) (r : user_data) (s : state) :
  (forall p k, checkpw E p (hashpw E p (gensalt E k)) = true) ->
  stdin s = username :: random_digits E 6 (draws s) ::
              new_password :: new_password :: rest ->
  database s !! username = Some r ->
  (forall t, locked_until r = Some t -> (strptime t <= clock E (ticks s))%Z) ->
  password_violation new_password = None ->
  exists s1,
    reset_password E s = Return true s1 /\
    (forall tail,
     exists s2,
       authenticate E
         (set_stdin (username :: new_password ::
                       random_digits E 6 (draws s1) :: tail) s1) =
         Return true s2 /\
       stdin s2 = tail) /\
    (forall old_password tail,
       checkpw E old_password (hashpw E new_password (gensalt E (salts s))) = false ->
       exists s2 r2,
         authenticate E (set_stdin (username :: old_password :: tail) s1) =
           Return false s2 /\
         database s2 !! username = Some r2 /\
         failed_attempts r2 = 1%Z).
Proof.
  intros Hbcrypt Hin Hr Hnot Hvalid.
  destruct (reset_password_succeeds E username new_password rest r s)
    as (s1 & Hrun & _ & Hr1 & _); auto.
  exists s1. split; [exact Hrun|]. split.
  - intros tail.
    apply (authenticate_code_matches E username new_password [] tail
             (mk_user_data (hashpw E new_password (gensalt E (salts s)))
                (email r) 0 None (registered_on r))
             (set_stdin (username :: new_password ::
                           random_digits E 6 (draws s1) :: tail) s1));
      solve [reflexivity | cbn; lia | constructor | apply Hbcrypt | exact Hr1].
  - intros old_password tail Hold.
    destruct (authenticate_wrong_password E username old_password tail
                (mk_user_data (hashpw E new_password (gensalt E (salts s)))
                   (email r) 0 None (registered_on r))
                (set_stdin (username :: old_password :: tail) s1))
      as (s2 & Hlogin & _ & Hr2 & _); auto.
    exists s2. eexists. split; [exact Hlogin|]. split; [exact Hr2|]. reflexivity.
Qed.

Lemma reset_then_login_witness :
  exists s1,
    reset_password (example_environment (fun _ => 0%Z))
      (example_state (example_record 3 None)
         ["alice01"; "012345"; "NewPassw0rd"; "NewPassw0rd"]) = Return true s1.
Proof.
  destruct (reset_then_login (example_environment (fun _ => 0%Z))
              "alice01" "NewPassw0rd" [] (example_record 3 None)
              (example_state (example_record 3 None)
                 ["alice01"; "012345"; "NewPassw0rd"; "NewPassw0rd"]))
    as (s1 & Hrun & _).
  - intros p k. cbn. apply String.eqb_refl.
  - reflexivity.
  - reflexivity.
  - intros t Ht. discriminate.
  - reflexivity.
  - exists s1. exact Hrun.
Defined.


Lemma authenticate_locking_failure (E : environment) (username password : string)
    (rest : list string) (r : user_data) (s : state) :
  stdin s = username :: password :: rest ->
  database s !! username = Some r ->
  locked_until r = None ->
  checkpw E password (password_hash r) = false ->
  (max_failed_attempts <= failed_attempts r + 1)%Z ->
  exists s',
    authenticate E s = Return false s' /\
    stdin s' = rest /\
    database s' !! username =
      Some (set_locked_until
              (Some (strftime (clock E (ticks s) + timedelta_minutes lockout_duration)))
              (set_failed_attempts (failed_attempts r + 1) r)) /\
    ticks s' = S (ticks s).
Proof.
  intros Hin Hr Hlock Hpw Hmax. apply Z.leb_le in Hmax.
  unfold authenticate. unfold_flow. cbn. rewrite Hin. cbn. rewrite Hr. cbn.
  unfold check_account_lockout. cbn. rewrite Hr, Hlock. cbn. rewrite Hr. cbn.
  rewrite Hpw. cbn. rewrite lookup_alter_eq, Hr. cbn. rewrite Hmax. cbn.
  eexists. split; [reflexivity|]. cbn.
  split; [reflexivity|]. split; [|reflexivity].
  now rewrite !lookup_alter_eq, Hr.
Qed.

(** X19. Five logins with wrong passwords lock the account: started
    with a counter of 0 and no lock, after five wrong passwords a sixth
    login made while the clock is still before the stored lock time is
    turned away right after the username, with no password asked: the
    flow prints the banner, reads the username, prints "Account is
    locked!" and returns to the menu, which reads the next line, "4", as
    its choice and ends the program with the lines after it unread.  The
    record keeps [failed_attempts] 5 and the lock, in database and
    file. *)
Theorem five_failures_lock_out (E : environment) (username : string)
    (p1 p2 p3 p4 p5 : string) (rest : list string) (r : user_data)
    (fuel : nat) (s : state) :
  stdin s = (login_lines username [p1; p2; p3; p4; p5] ++
               "1" :: username :: "4" :: rest)%list ->
  database s !! username = Some r ->
  failed_attempts r = 0%Z ->
  locked_until r = None ->
  Forall (fun password => checkpw E password (password_hash r) = false)
    [p1; p2; p3; p4; p5] ->
  (clock E (S (ticks s))
   < strptime (strftime (clock E (ticks s) + timedelta_minutes 15)))%Z ->
  exists s' before,
    main_loop E (7 + fuel) s = Some (Return tt s') /\
    stdin s' = rest /\
    database s' !! username =
      Some (mk_user_data (password_hash r) (email r) 5
              (Some (strftime (clock E (ticks s) + timedelta_minutes 15)))
              (registered_on r)) /\
    db_file s' = Some (database s') /\
    trace s' =
      (before ++
         [Print Menu;
          Input Prompt_choice "1";
          Print Banner_login;
          Input Prompt_login_username username;
          Print (Account_is_locked
                   (strptime (strftime (clock E (ticks s) + timedelta_minutes 15))
                    - clock E (S (S (ticks s))))%Z);
          Print Menu;
          Input Prompt_choice "4";
          Print Goodbye])%list.
Proof.
  intros Hin Hr Hzero Hlock Hwrong Hclock.
  assert (Hfour : Forall (fun password => checkpw E password (password_hash r) = false)
                    [p1; p2; p3; p4]).
  { repeat (inversion Hwrong as [|? ? ? Hwrong']; subst; clear Hwrong;
            rename Hwrong' into Hwrong; constructor; [assumption|]).
    constructor. }
  assert (Hfifth : checkpw E p5 (password_hash r) = false).
  { do 4 (inversion Hwrong as [|? ? ? Hwrong']; subst; clear Hwrong;
          rename Hwrong' into Hwrong).
    now inversion Hwrong. }
  destruct (main_loop_failed_logins E username [p1; p2; p3; p4]
              ("1" :: username :: p5 :: "1" :: username :: "4" :: rest) s r (3 + fuel))
    as (s1 & Hloop & Hin1 & Hr1 & Hticks1); auto.
  { rewrite Hzero. unfold max_failed_attempts. cbn. lia. }
  destruct (authenticate_wrong_password E username p5
              ("1" :: username :: "4" :: rest)
              (set_failed_attempts (failed_attempts r + Z.of_nat 4) r)
              (log (Input Prompt_choice "1")
                 (set_stdin (username :: p5 :: "1" :: username :: "4" :: rest)
                    (print Menu s1))))
    as (s2 & Hrun2 & Hin2 & Hr2 & _ & Hfile2 & _); auto.
  destruct (authenticate_locking_failure E username p5
              ("1" :: username :: "4" :: rest)
              (set_failed_attempts (failed_attempts r + Z.of_nat 4) r)
              (log (Input Prompt_choice "1")
                 (set_stdin (username :: p5 :: "1" :: username :: "4" :: rest)
                    (print Menu s1))))
    as (s2' & Hrun2' & _ & _ & Hticks2); auto.
  { cbn. rewrite Hzero. unfold max_failed_attempts. lia. }
  rewrite Hrun2 in Hrun2'. injection Hrun2' as <-.
  rewrite after_failure_reaches in Hr2
    by (cbn; rewrite Hzero; unfold max_failed_attempts; lia).
  fields_in Hticks2. fields_in Hr2. rewrite Hticks1 in Hticks2, Hr2.
  destruct (authenticate_locked E username ("4" :: rest) _ _
              (log (Input Prompt_choice "1")
                 (set_stdin (username :: "4" :: rest) (print Menu s2)))
              eq_refl Hr2 eq_refl)
    as (s3 & Hrun3 & [Hdb3 Hfile3] & Hin3 & Htrace3).
  { cbn [ticks log set_stdin print]. rewrite Hticks2. exact Hclock. }
  fields_in Hdb3. fields_in Hfile3. fields_in Htrace3. rewrite Hticks2 in Htrace3.
  exists (print Goodbye (log (Input Prompt_choice "4") (set_stdin rest (print Menu s3)))),
         (trace s2).
  split.
  - change (7 + fuel)%nat with (length [p1; p2; p3; p4] + (3 + fuel))%nat.
    rewrite Hloop. cbn [Nat.add].
    rewrite (main_loop_login E _ s1 _ Hin1), Hrun2.
    rewrite (main_loop_login E _ s2 _ Hin2), Hrun3.
    rewrite main_loop_step, Hin3. reflexivity.
  - split; [reflexivity|].
    cbn [database db_file trace log set_stdin print].
    split; [|split].
    + rewrite Hdb3, Hr2. f_equal. destruct r. cbn in Hzero. subst. reflexivity.
    + rewrite Hfile3, Hdb3. exact Hfile2.
    + rewrite Htrace3. rewrite <- !app_assoc. reflexivity.
Qed.

Lemma five_failures_lock_out_witness :
  exists s',
    main_loop (example_environment (fun _ => 0%Z)) 7
      (example_state (example_record 0 None)
         (login_lines "alice01" ["a"; "b"; "c"; "d"; "e"] ++
            ["1"; "alice01"; "4"; "unread"])%list) = Some (Return tt s') /\
    stdin s' = ["unread"] /\
    database s' !! "alice01" = Some (example_record 5 (Some 900%Z)).
Proof.
  destruct (five_failures_lock_out (example_environment (fun _ => 0%Z)) "alice01"
              "a" "b" "c" "d" "e" ["unread"] (example_record 0 None) 0
              (example_state (example_record 0 None)
                 (login_lines "alice01" ["a"; "b"; "c"; "d"; "e"] ++
                    ["1"; "alice01"; "4"; "unread"])%list))
    as (s' & before & Hrun & Hin & Hr & _);
    try reflexivity.
  - repeat constructor.
  - exists s'. split; [exact Hrun|]. split; [exact Hin|exact Hr].
Defined.

(** ** The menu *)

Lemma no_choice_eqb (line : string) :
  no_choice line ->
  String.eqb line "1" = false /\ String.eqb line "2" = false /\
  String.eqb line "3" = false /\ String.eqb line "4" = false.
Proof.
  intros (H1 & H2 & H3 & H4).
  repeat split; apply String.eqb_neq; assumption.
Qed.

Lemma main_loop_skips (E : environment) (junk : list string) :
  forall (rest : list string) (fuel : nat) (s : state),
    Forall no_choice junk ->
    stdin s = (junk ++ "4" :: rest)%list ->
    (length junk < fuel)%nat ->
    exists s',
      main_loop E fuel s = Some (Return tt s') /\
      stdin s' = rest /\ same_store s s' /\
      ticks s' = ticks s /\ draws s' = draws s /\ salts s' = salts s /\
      trace s' =
        (trace s ++
           flat_map (fun line =>
                       [Print Menu; Input Prompt_choice line; Print Invalid_choice])
             junk ++
           [Print Menu; Input Prompt_choice "4"; Print Goodbye])%list.
Proof.
  induction junk as [|line junk IH]; intros rest fuel s Hjunk Hin Hfuel.
  - destruct fuel as [|fuel]; [cbn in Hfuel; lia|].
    rewrite main_loop_step, Hin. cbn.
    eexists. split; [reflexivity|].
    split; [reflexivity|]. split; [split; reflexivity|].
    do 3 (split; [reflexivity|]).
    cbn. rewrite <- !app_assoc. reflexivity.
  - destruct fuel as [|fuel]; [cbn in Hfuel; lia|].
    inversion Hjunk as [|? ? Hline Hjunk']; subst.
    destruct (no_choice_eqb line Hline) as (E1 & E2 & E3 & E4).
    rewrite main_loop_step, Hin. cbn [app]. cbn zeta.
    rewrite E1, E2, E3, E4.
    destruct (IH rest fuel
                (print Invalid_choice
                   (log (Input Prompt_choice line)
                      (set_stdin (junk ++ "4" :: rest)%list (print Menu s)))))
      as (s' & Hrun & Hrest & Hstore & Hticks & Hdraws & Hsalts & Htrace);
      [exact Hjunk'|reflexivity|cbn in Hfuel; lia|].
    exists s'. split; [exact Hrun|].
    split; [exact Hrest|]. split; [exact Hstore|].
    split; [exact Hticks|]. split; [exact Hdraws|]. split; [exact Hsalts|].
    rewrite Htrace. cbn. rewrite <- !app_assoc. reflexivity.
Qed.

Lemma main_loop_returns_by_exit (E : environment) (fuel : nat) :
  forall s s',
    main_loop E fuel s = Some (Return tt s') ->
    exists s1 rest,
      stdin s1 = "4" :: rest /\
      s' = print Goodbye
             (log (Input Prompt_choice "4") (set_stdin rest (print Menu s1))).
Proof.
  induction fuel as [|fuel IH]; intros s s' Hrun; [discriminate|].
  rewrite main_loop_step in Hrun.
  destruct (stdin s) as [|choice rest] eqn:Hin; [discriminate|].
  cbn zeta in Hrun.
  destruct (String.eqb choice "1").
  { destruct (authenticate E _); [eauto|discriminate]. }
  destruct (String.eqb choice "2").
  { destruct (register_user E _); [eauto|discriminate]. }
  destruct (String.eqb choice "3").
  { destruct (reset_password E _); [eauto|discriminate]. }
  destruct (String.eqb choice "4") eqn:E4; [|eauto].
  apply String.eqb_eq in E4. subst choice.
  injection Hrun as <-. exists s, rest. split; [exact Hin|reflexivity].
Qed.

(** X20. The menu: each line that is none of "1" to "4" is answered
    with "Invalid choice!" and the menu is shown again, and the line "4"
    is answered with "Goodbye!" and ends the program with the lines
    after it unread.  A run of such lines followed by "4" puts on the
    console exactly the menu, the line read and "Invalid choice!" once
    per line, then the menu, "4" and "Goodbye!", and leaves database,
    file, clock and generators as they were.  The menu loop returns in
    no other way than by reading "4" and printing "Goodbye!". *)
Theorem menu_exit (E : environment) :
  (forall junk rest fuel s,
     Forall no_choice junk ->
     stdin s = (junk ++ "4" :: rest)%list ->
     (length junk < fuel)%nat ->
     exists s',
       main_loop E fuel s = Some (Return tt s') /\
       stdin s' = rest /\ same_store s s' /\
       ticks s' = ticks s /\ draws s' = draws s /\ salts s' = salts s /\
       trace s' =
         (trace s ++
            flat_map (fun line =>
                        [Print Menu; Input Prompt_choice line; Print Invalid_choice])
              junk ++
            [Print Menu; Input Prompt_choice "4"; Print Goodbye])%list) /\
  (forall fuel s s',
     main_loop E fuel s = Some (Return tt s') ->
     exists s1 rest,
       stdin s1 = "4" :: rest /\
       s' = print Goodbye
              (log (Input Prompt_choice "4") (set_stdin rest (print Menu s1)))).
Proof.
  split.
  - intros junk rest fuel s. apply main_loop_skips.
  - intros fuel s s'. apply main_loop_returns_by_exit.
Qed.

(** ** The email loop *)

Lemma register_code_attempts_draws (code : string) (attempts : list Z)
    (s s' : state) (verified : bool) :
  register_code_attempts code attempts s = Return verified s' ->
  draws s' = draws s.
Proof.
  revert s. induction attempts as [|attempt more IH]; intros s H.
  - injection H as <- <-. auto.
  - cbn [register_code_attempts] in H. unfold_flow.
    destruct (stdin s) as [|line rest]; [discriminate|].
    destruct (String.eqb line code); [injection H as <- <-; auto|].
    destruct (0 <? 2 - attempt)%Z; [|injection H as <- <-; auto].
    apply IH in H. exact H.
Qed.

Lemma register_email_loop_rejects (E : environment) (email : string)
    (rest : list string) (s : state) :
  ~ email_accepted E email ->
  register_email_loop E (email :: rest) s =
  register_email_loop E rest
    (print Invalid_email_format (log (Input Prompt_email email) (set_stdin rest s))).
Proof.
  intros Hno. cbn [register_email_loop].
  unfold email_accepted in Hno.
  destruct (re_match_anchored (email_regex E) email); [congruence|reflexivity].
Qed.

(** X21. The email loop of the registration flow issues no code for a
    line that fails the format check: such lines are read and rejected,
    and the first line that passes gets one code, made of the six random
    draws that were next when the loop began.  When that code is typed
    within three attempts the loop returns this email, with the lines
    after the code left on the console, six draws consumed, and
    database, file, clock and salts untouched; when three other lines
    are typed the loop gives up and asks for no other email. *)
Theorem register_email_loop_first_accepted (E : environment)
    (rejected : list string) (email : string) (s : state) :
  Forall (fun line => ~ email_accepted E line) rejected ->
  email_accepted E email ->
  (forall wrong rest,
     (length wrong < 3)%nat ->
     Forall (fun c => c <> random_digits E 6 (draws s)) wrong ->
     exists s',
       register_email_loop E
         (rejected ++ email :: wrong ++ random_digits E 6 (draws s) :: rest)%list s =
         Return (Some email) s' /\
       stdin s' = rest /\ same_store s s' /\
       draws s' = (draws s + 6)%nat /\
       ticks s' = ticks s /\ salts s' = salts s) /\
  (forall c1 c2 c3 rest,
     c1 <> random_digits E 6 (draws s) ->
     c2 <> random_digits E 6 (draws s) ->
     c3 <> random_digits E 6 (draws s) ->
     exists s',
       register_email_loop E (rejected ++ email :: c1 :: c2 :: c3 :: rest)%list s =
         Return None s' /\
       stdin s' = rest /\ same_store s s' /\
       draws s' = (draws s + 6)%nat).
Proof.
  intros Hrejected Hemail. revert s.
  induction Hrejected as [|line rejected Hline _ IH]; intros s.
  - split.
    + intros wrong rest Hlen Hwrong. cbn [app].
      destruct (send_verification_code_returns E email None
                  (print Sending_verification_code
                     (log (Input Prompt_email email)
                        (set_stdin (wrong ++ random_digits E 6 (draws s) :: rest)%list s))))
        as (s2 & Hsend & Hstore2 & Hin2 & Hticks2 & Hsalts2 & Hdraws2).
      destruct (register_code_attempts_match (random_digits E 6 (draws s)) wrong rest s2
                  Hlen Hwrong Hin2)
        as (s3 & Hcodes & Hin3 & Hstore3 & Hticks3 & Hsalts3).
      exists s3.
      split.
      { apply (register_email_loop_verifies E email _ s s2 s3 true Hemail Hsend Hcodes). }
      split; [exact Hin3|].
      split.
      { destruct Hstore2 as [Hd2 Hf2]. destruct Hstore3 as [Hd3 Hf3].
        split; [rewrite Hd3, Hd2|rewrite Hf3, Hf2]; reflexivity. }
      split.
      { rewrite (register_code_attempts_draws _ _ _ _ _ Hcodes). exact Hdraws2. }
      split; [rewrite Hticks3, Hticks2|rewrite Hsalts3, Hsalts2]; reflexivity.
    + intros c1 c2 c3 rest H1 H2 H3. cbn [app].
      destruct (send_verification_code_returns E email None
                  (print Sending_verification_code
                     (log (Input Prompt_email email)
                        (set_stdin (c1 :: c2 :: c3 :: rest) s))))
        as (s2 & Hsend & Hstore2 & Hin2 & _ & _ & Hdraws2).
      destruct (register_code_attempts_exhausted (random_digits E 6 (draws s))
                  c1 c2 c3 rest s2 H1 H2 H3 Hin2)
        as (s3 & Hcodes & Hin3 & Hstore3).
      exists s3.
      split.
      { apply (register_email_loop_verifies E email _ s s2 s3 false Hemail Hsend Hcodes). }
      split; [exact Hin3|].
      split.
      { destruct Hstore2 as [Hd2 Hf2]. destruct Hstore3 as [Hd3 Hf3].
        split; [rewrite Hd3, Hd2|rewrite Hf3, Hf2]; reflexivity. }
      rewrite (register_code_attempts_draws _ _ _ _ _ Hcodes). exact Hdraws2.
  - cbn [app].
    split.
    + intros wrong rest Hlen Hwrong.
      rewrite register_email_loop_rejects by exact Hline.
      destruct (proj1 (IH (print Invalid_email_format
                             (log (Input Prompt_email line)
                                (set_stdin
                                   (rejected ++ email :: wrong ++
                                      random_digits E 6 (draws s) :: rest)%list s))))
                  wrong rest Hlen Hwrong)
        as (s' & Hrun & Hin & Hstore & Hdraws & Hticks & Hsalts).
      exists s'. split; [exact Hrun|]. split; [exact Hin|].
      split; [exact Hstore|]. split; [exact Hdraws|].
      split; [exact Hticks|exact Hsalts].
    + intros c1 c2 c3 rest H1 H2 H3.
      rewrite register_email_loop_rejects by exact Hline.
      destruct (proj2 (IH (print Invalid_email_format
                             (log (Input Prompt_email line)
                                (set_stdin
                                   (rejected ++ email :: c1 :: c2 :: c3 :: rest)%list s))))
                  c1 c2 c3 rest H1 H2 H3)
        as (s' & Hrun & Hin & Hstore & Hdraws).
      exists s'. split; [exact Hrun|]. split; [exact Hin|].
      split; [exact Hstore|exact Hdraws].
Qed.

Lemma register_email_loop_first_accepted_witness :
  exists s',
    register_email_loop (example_environment (fun _ => 0%Z))
      (["nobody"; "a@b"] ++ "alice@example.com" ::
         ["000000"] ++ "012345" :: ["kept"])%list
      (example_state (example_record 0 None) []) =
      Return (Some "alice@example.com") s' /\
    stdin s' = ["kept"].
Proof.
  destruct (register_email_loop_first_accepted (example_environment (fun _ => 0%Z))
              ["nobody"; "a@b"] "alice@example.com"
              (example_state (example_record 0 None) []))
    as [Hok _].
  - repeat constructor; intros H; vm_compute in H; discriminate.
  - vm_compute. reflexivity.
  - destruct (Hok ["000000"] ["kept"]) as (s' & Hrun & Hin & _).
    + cbn. lia.
    + repeat constructor. intros H. vm_compute in H. discriminate.
    + exists s'. split; [exact Hrun|exact Hin].
Defined.

(** ** The demo users *)

Lemma startup_first_run (E : environment) (s : state) :
  db_file s = None \/ db_file s = Some ∅ ->
  exists s',
    startup E s = Return tt s' /\
    database s' =
      <["admin" := mk_user_data (hashpw E "Admin123456" (gensalt E (S (salts s))))
                     "admin@example.com" 0 None (strftime (clock E (S (ticks s))))]>
        (<["user1" := mk_user_data (hashpw E "Password123" (gensalt E (salts s)))
                        "user1@example.com" 0 None (strftime (clock E (ticks s)))]> ∅).
Proof.
  intros Hfile. unfold startup.
  destruct Hfile as [Hf | Hf].
  - erewrite bind_Return by (unfold load_database; rewrite Hf; reflexivity).
    unfold populate_demo_users. cbn [database set_database set_db_file].
    rewrite bool_decide_eq_true_2 by reflexivity.
    unfold_flow. cbn [populate_loop demo_users].
    eexists. split; reflexivity.
  - erewrite bind_Return by (unfold load_database; rewrite Hf; reflexivity).
    unfold populate_demo_users. cbn [database set_database set_db_file].
    rewrite bool_decide_eq_true_2 by reflexivity.
    unfold_flow. cbn [populate_loop demo_users].
    eexists. split; reflexivity.
Qed.

(** X22. With a bcrypt whose [checkpw] accepts what [hashpw] made with
    a salt of [gensalt], each demo user can log in after a first start:
    started without a database file, or with one that holds no user, the
    program creates the demo users, and a login with a demo username,
    its demo password and the code issued returns [True].  The demo
    passwords pass the password policy of registration. *)
Theorem demo_users_can_log_in (E : environment) (username email password : string)
    (s : state) :
  (forall p k, checkpw E p (hashpw E p (gensalt E k)) = true) ->
  db_file s = None \/ db_file s = Some ∅ ->
  In (username, (email, password)) demo_users ->
  password_violation password = None /\
  exists s1,
    startup E s = Return tt s1 /\
    forall tail,
    exists s2,
      authenticate E
        (set_stdin (username :: password :: random_digits E 6 (draws s1) :: tail) s1) =
        Return true s2 /\
      stdin s2 = tail.
Proof.
  intros Hbcrypt Hfile Hdemo.
  destruct (startup_first_run E s Hfile) as (s1 & Hrun & Hdb).
  destruct Hdemo as [Hdemo | [Hdemo | []]]; injection Hdemo as <- <- <-.
  - split; [reflexivity|].
    exists s1. split; [exact Hrun|]. intros tail.
    apply (authenticate_code_matches E "user1" "Password123" [] tail
             (mk_user_data (hashpw E "Password123" (gensalt E (salts s)))
                "user1@example.com" 0 None (strftime (clock E (ticks s))))
             (set_stdin ("user1" :: "Password123" ::
                           random_digits E 6 (draws s1) :: tail) s1));
      try solve [reflexivity | cbn; lia | constructor | apply Hbcrypt].
    cbn [database set_stdin]. rewrite Hdb.
    rewrite lookup_insert_ne by discriminate. apply lookup_insert_eq.
  - split; [reflexivity|].
    exists s1. split; [exact Hrun|]. intros tail.
    apply (authenticate_code_matches E "admin" "Admin123456" [] tail
             (mk_user_data (hashpw E "Admin123456" (gensalt E (S (salts s))))
                "admin@example.com" 0 None (strftime (clock E (S (ticks s)))))
             (set_stdin ("admin" :: "Admin123456" ::
                           random_digits E 6 (draws s1) :: tail) s1));
      try solve [reflexivity | cbn; lia | constructor | apply Hbcrypt].
    cbn [database set_stdin]. rewrite Hdb. apply lookup_insert_eq.
Qed.

Lemma demo_users_can_log_in_witness :
  exists s1 s2,
    startup (example_environment (fun _ => 0%Z)) (mk_state ∅ None [] 0 0 0 []) =
      Return tt s1 /\
    authenticate (example_environment (fun _ => 0%Z))
      (set_stdin ["admin"; "Admin123456";
                  random_digits (example_environment (fun _ => 0%Z)) 6 (draws s1);
                  "4"] s1) = Return true s2 /\
    stdin s2 = ["4"].
Proof.
  destruct (demo_users_can_log_in (example_environment (fun _ => 0%Z))
              "admin" "admin@example.com" "Admin123456"
              (mk_state ∅ None [] 0 0 0 []))
    as (_ & s1 & Hrun & Hlogin).
  - intros p k. cbn. apply String.eqb_refl.
  - left. reflexivity.
  - right. left. reflexivity.
  - destruct (Hlogin ["4"]) as (s2 & Hauth & Hin).
    exists s1, s2. split; [exact Hrun|]. split; [exact Hauth|exact Hin].
Defined.
